(** * midimix_ardour_x42eq: the control-surface router, embedded and verified

    A shallow embedding of [midimix_ardour_x42eq.py]: the module-level
    dictionaries become one record [State], every function that reads or
    writes them becomes a computation in a small state-and-exception monad,
    and the OSC and MIDI output ports become traces kept in the state.
    Python floats are IEEE binary64, modelled by Rocq's primitive floats. *)

From Stdlib Require Import ZArith String List Bool Lia Floats Sorted.
Import ListNotations.
Set Warnings "-inexact-float".
Open Scope string_scope.
Open Scope Z_scope.

(** ** Python values and containers *)

Module Py.

(** The exception classes the program can raise. *)
Inductive Exn : Set :=
| KeyError | ValueError | IndexError | TypeError | UnboundLocalError.

(** [x in t] for a tuple of ints. *)
Fixpoint contains (x : Z) (t : list Z) : bool :=
  match t with
  | [] => false
  | y :: t' => if x =? y then true else contains x t'
  end.

(** [t.index(x)]: position of the first occurrence, [None] standing for
    the ValueError of an absent element. *)
Fixpoint index (x : Z) (t : list Z) : option Z :=
  match t with
  | [] => None
  | y :: t' => if x =? y then Some 0
               else match index x t' with
                    | Some i => Some (i + 1)
                    | None => None
                    end
  end.

(** [t[i]] with Python's negative indices; [None] is IndexError. *)
Definition getitem {A : Type} (t : list A) (i : Z) : option A :=
  let n := Z.of_nat (length t) in
  if i <? 0
  then (if i + n <? 0 then None else nth_error t (Z.to_nat (i + n)))
  else nth_error t (Z.to_nat i).

(** [t[0::3]]: every third element, starting with the head. *)
Fixpoint every_third {A : Type} (t : list A) : list A :=
  match t with
  | x :: _ :: _ :: t' => x :: every_third t'
  | x :: _ => [x]
  | [] => []
  end.

(** [t[4::3]]. *)
Definition slice_4_3 {A : Type} (t : list A) : list A :=
  every_third (skipn 4 t).

(** A dict with int keys and bool values, in insertion order. *)
Definition dict := list (Z * bool).

Fixpoint get (d : dict) (k : Z) : option bool :=
  match d with
  | [] => None
  | (k', v) :: d' => if k =? k' then Some v else get d' k
  end.

(** [d[k] = v]: overwrite in place, or append a new key. *)
Fixpoint set (d : dict) (k : Z) (v : bool) : dict :=
  match d with
  | [] => [(k, v)]
  | (k', v') :: d' => if k =? k' then (k', v) :: d' else (k', v') :: set d' k v
  end.

Definition keys (d : dict) : list Z := map fst d.

(** ** Floats *)

(** [float(z)] for an int of small magnitude. *)
Definition float_of_Z (z : Z) : float :=
  if z <? 0 then PrimFloat.opp (PrimFloat.of_uint63 (Uint63.of_Z (- z)))
  else PrimFloat.of_uint63 (Uint63.of_Z z).

(** [int(x)]: truncation toward zero; [None] for nan and the infinities. *)
Definition int_of_float (x : float) : option Z :=
  match Prim2SF x with
  | S754_zero _ => Some 0
  | S754_finite sg m e =>
      let a := if 0 <=? e then Z.pos m * 2 ^ e else Z.pos m / 2 ^ (- e) in
      Some (if sg then - a else a)
  | _ => None
  end.

(** [x % 1] on floats. The remainder of a finite float by 1 is exact; for a
    negative operand Python adds the divisor to the C remainder. *)
Definition mod1 (x : float) : float :=
  match Prim2SF x with
  | S754_zero _ => 0%float
  | S754_finite sg m e =>
      if 0 <=? e then 0%float
      else
        let r := Z.pos m mod 2 ^ (- e) in
        let fr := Z.ldexp (PrimFloat.of_uint63 (Uint63.of_Z r)) e in
        if sg then (if r =? 0 then 0%float else (- fr + 1)%float) else fr
  | _ => PrimFloat.nan
  end.

Definition digit (n : Z) : string :=
  String (Ascii.ascii_of_N (Z.to_N (48 + n mod 10))) EmptyString.

Fixpoint digits_fuel (fuel : nat) (n : Z) : string :=
  match fuel with
  | O => digit n
  | S fuel' => if n <? 10 then digit n
               else (digits_fuel fuel' (n / 10) ++ digit n)%string
  end.

(** Decimal digits of a non-negative integer. *)
Definition digits (n : Z) : string := digits_fuel (Z.to_nat (Z.log2 n)) n.

(** ["{:.2f}".format(x)]: the exact binary value of [x], rounded to two
    decimals, ties to even. *)
Definition format_2f (x : float) : string :=
  let render (sg : bool) (n : Z) : string :=
    ((if sg then "-" else EmptyString) ++ digits (n / 100) ++ "."
       ++ digit (n / 10) ++ digit n)%string in
  match Prim2SF x with
  | S754_zero sg => render sg 0
  | S754_finite sg m e =>
      let n :=
        if 0 <=? e then Z.pos m * 100 * 2 ^ e
        else
          let d := 2 ^ (- e) in
          let q := (Z.pos m * 100) / d in
          let r := (Z.pos m * 100) mod d in
          if d <? 2 * r then q + 1
          else if d =? 2 * r then q + q mod 2
          else q in
      render sg n
  | S754_infinity sg => if sg then "-inf" else "inf"
  | S754_nan => "nan"
  end.

End Py.



(** ** The control tables (source lines 116-124) *)

Definition faders : list Z := [19; 23; 27; 31; 49; 53; 57; 61; 62].
Definition mutes : list Z := [1; 4; 7; 10; 13; 16; 19; 22].
Definition recs : list Z := [3; 6; 9; 12; 15; 18; 21; 24].
Definition knobs : list Z :=
  [16; 17; 18; 20; 21; 22; 24; 25; 26;
   28; 29; 30; 46; 47; 48; 50; 51; 52;
   54; 55; 56; 58; 59; 60].
Definition b_left : Z := 25.
Definition b_right : Z := 26.
Definition b_solo : Z := 27.

(** ** Values and messages *)

(** A Python value as it travels in a message: OSC arguments, the peer
    address aiosc puts in front of them, and the values the program hands to
    [osc.send]. *)
Inductive Val : Type :=
| VInt (z : Z)
| VFloat (f : float)
| VStr (s : string)
| VNone
| VList (l : list Z)
| VAddr (host : string) (port : Z).

(** One [osc.send(address, *args)]. *)
Record OscOut : Type := mkOscOut { out_address : string; out_args : list Val }.

(** One [mido.Message('note_on', channel=0, note=..., velocity=...)] written
    to the surface: an LED write. *)
Record MidiOut : Type := mkMidiOut { led_note : Z; led_velocity : Z }.

(** An OSC datagram as aiosc hands it to a handler: [(addr, path, *args)]. *)
Record OscIn : Type := mkOscIn { in_addr : Val; in_path : string; in_args : list Val }.

(** An event of the surface, by [msg.type]. *)
Inductive MidiIn : Type :=
| note_on (note : Z)
| note_off (note : Z)
| control_change (control : Z) (value : Z)
| other_message.

(** ** The module-level state (source lines 134-180) *)

Inductive Mode : Set := mixer | EQ | read_keypress.

(** [operation['plugin_pos']] holds None, one position, or the list of
    candidate positions while a key press is awaited. *)
Inductive PluginPos : Type :=
| pos_none
| pos_int (p : Z)
| pos_list (l : list Z).

Record NotePress : Type := mkNotePress { np_note : option Z; np_state : bool }.

Record Operation : Type :=
  mkOperation { op_mode : Mode; op_strip : option Z; op_plugin_pos : PluginPos }.

Record BankLeds : Type :=
  mkBankLeds { led_stat_mix : Py.dict; led_stat_eq : Py.dict }.

(** The [bank] dict: key ['current'] and the three slots 0, 1, 2. *)
Record Bank : Type :=
  mkBank { current : Z; bank_0 : BankLeds; bank_1 : BankLeds; bank_2 : BankLeds }.

Record State : Type := mkState {
  note_press : NotePress;
  operation : Operation;
  plugin_list : list Val;
  plugin_desc : list (list Val);
  bank : Bank;
  osc_sent : list OscOut;      (* what went out through [osc.send], oldest first *)
  midi_sent : list MidiOut;    (* what went out through [mmix_out.send] *)
  printed : list Py.Exn        (* exceptions reported by the except clause *)
}.

Definition all_off : Py.dict :=
  [(1, false); (3, false); (4, false); (6, false);
   (7, false); (9, false); (10, false); (12, false);
   (13, false); (15, false); (16, false); (18, false);
   (19, false); (21, false); (22, false); (24, false)].

Definition initial_bank : Bank :=
  mkBank 0 (mkBankLeds all_off all_off) (mkBankLeds all_off all_off)
         (mkBankLeds all_off all_off).

Definition initial_state : State :=
  mkState (mkNotePress None false) (mkOperation mixer None pos_none)
          [] [] initial_bank [] [] [].

(** [bank[k]] for an int key; [None] is KeyError. *)
Definition bank_get (b : Bank) (k : Z) : option BankLeds :=
  if k =? 0 then Some (bank_0 b)
  else if k =? 1 then Some (bank_1 b)
  else if k =? 2 then Some (bank_2 b)
  else None.

(** Replace the LED mirrors of slot [k] (a slot that exists). *)
Definition bank_put (b : Bank) (k : Z) (l : BankLeds) : Bank :=
  if k =? 0 then mkBank (current b) l (bank_1 b) (bank_2 b)
  else if k =? 1 then mkBank (current b) (bank_0 b) l (bank_2 b)
  else if k =? 2 then mkBank (current b) (bank_0 b) (bank_1 b) l
  else b.

Definition with_current (b : Bank) (c : Z) : Bank :=
  mkBank c (bank_0 b) (bank_1 b) (bank_2 b).

Definition with_note_press (s : State) (n : NotePress) : State :=
  mkState n (operation s) (plugin_list s) (plugin_desc s) (bank s)
          (osc_sent s) (midi_sent s) (printed s).
Definition with_operation (s : State) (o : Operation) : State :=
  mkState (note_press s) o (plugin_list s) (plugin_desc s) (bank s)
          (osc_sent s) (midi_sent s) (printed s).
Definition with_plugin_list (s : State) (l : list Val) : State :=
  mkState (note_press s) (operation s) l (plugin_desc s) (bank s)
          (osc_sent s) (midi_sent s) (printed s).
Definition with_plugin_desc (s : State) (d : list (list Val)) : State :=
  mkState (note_press s) (operation s) (plugin_list s) d (bank s)
          (osc_sent s) (midi_sent s) (printed s).
Definition with_bank (s : State) (b : Bank) : State :=
  mkState (note_press s) (operation s) (plugin_list s) (plugin_desc s) b
          (osc_sent s) (midi_sent s) (printed s).
Definition with_osc_sent (s : State) (o : list OscOut) : State :=
  mkState (note_press s) (operation s) (plugin_list s) (plugin_desc s) (bank s)
          o (midi_sent s) (printed s).
Definition with_midi_sent (s : State) (m : list MidiOut) : State :=
  mkState (note_press s) (operation s) (plugin_list s) (plugin_desc s) (bank s)
          (osc_sent s) m (printed s).
Definition with_printed (s : State) (p : list Py.Exn) : State :=
  mkState (note_press s) (operation s) (plugin_list s) (plugin_desc s) (bank s)
          (osc_sent s) (midi_sent s) p.

(** ** Computations over the state that may raise *)

Inductive Res (A : Type) : Type :=
| Ok (a : A)
| Raised (e : Py.Exn).
Arguments Ok {A} a.
Arguments Raised {A} e.

(** A raised exception keeps the state as mutated so far. *)
Definition M (A : Type) : Type := State -> Res A * State.

Definition ret {A : Type} (a : A) : M A := fun s => (Ok a, s).
Definition raise {A : Type} (e : Py.Exn) : M A := fun s => (Raised e, s).
Definition bind {A B : Type} (c : M A) (k : A -> M B) : M B :=
  fun s => match c s with
           | (Ok a, s') => k a s'
           | (Raised e, s') => (Raised e, s')
           end.
Definition get_state : M State := fun s => (Ok s, s).
Definition modify (f : State -> State) : M unit := fun s => (Ok tt, f s).

(** A lookup that raises [e] when it finds nothing. *)
Definition or_raise {A : Type} (e : Py.Exn) (o : option A) : M A :=
  match o with
  | Some a => ret a
  | None => raise e
  end.

Declare Scope py_scope.
Delimit Scope py_scope with py.
Notation "x <- c ;; k" := (bind c (fun x => k))
  (at level 61, c at next level, right associativity) : py_scope.
Notation "c ;; k" := (bind c (fun _ => k))
  (at level 61, right associativity) : py_scope.
Open Scope py_scope.

(** [for x in l: body(x)]. *)
Fixpoint for_each {A : Type} (l : list A) (body : A -> M unit) : M unit :=
  match l with
  | [] => ret tt
  | x :: l' => body x ;; for_each l' body
  end.

(** [try: body / except Exception as e: print(...)]. *)
Definition try_print (body : M unit) : M unit :=
  fun s => match body s with
           | (Ok _, s') => (Ok tt, s')
           | (Raised e, s') => (Ok tt, with_printed s' (printed s' ++ [e]))
           end.

Definition exec {A : Type} (c : M A) (s : State) : State := snd (c s).
Definition outcome {A : Type} (c : M A) (s : State) : Res A := fst (c s).

(** ** The equalizer tables (source lines 182-241) *)

Definition eq_leds (name : string) : option Z :=
  if (name =? "Enable")%string then Some 3
  else if (name =? "Reset Peak Hold")%string then Some 6
  else if (name =? "Highpass")%string then Some 1
  else if (name =? "Lowpass")%string then Some 4
  else if (name =? "Lowshelf")%string then Some 7
  else if (name =? "Section 1")%string then Some 10
  else if (name =? "Section 2")%string then Some 13
  else if (name =? "Section 3")%string then Some 16
  else if (name =? "Section 4")%string then Some 19
  else if (name =? "Highshelf")%string then Some 22
  else None.

(** [eq_led_trigger[note]['option']]. *)
Definition eq_led_trigger (note : Z) : option Z :=
  if note =? 3 then Some 1
  else if note =? 6 then Some 4
  else if note =? 1 then Some 5
  else if note =? 4 then Some 8
  else if note =? 7 then Some 11
  else if note =? 10 then Some 15
  else if note =? 13 then Some 19
  else if note =? 16 then Some 23
  else if note =? 19 then Some 27
  else if note =? 22 then Some 31
  else None.

Record FadKnob : Type :=
  mkFadKnob { fk_min : float; fk_incremento : float; fk_plugin_opt : Z }.
Arguments mkFadKnob (fk_min fk_incremento)%_float fk_plugin_opt%_Z.

Definition eq_fad_knob_table : list (Z * FadKnob) :=
  [ (16, mkFadKnob 5.00000 9.803100 6);
    (17, mkFadKnob 0.00000 0.011020 7);
    (20, mkFadKnob 500.00000 153.543300 9);
    (21, mkFadKnob 0.00000 0.011020 10);
    (24, mkFadKnob 25.00000 2.952750 12);
    (25, mkFadKnob 0.06250 0.031000 13);
    (27, mkFadKnob (-18.00000) 0.283464 14);
    (28, mkFadKnob 20.00000 15.590550 16);
    (29, mkFadKnob 0.06250 0.031000 17);
    (31, mkFadKnob (-18.00000) 0.283464 18);
    (46, mkFadKnob 40.00000 31.181100 20);
    (47, mkFadKnob 0.06250 0.031000 21);
    (49, mkFadKnob (-18.00000) 0.283464 22);
    (50, mkFadKnob 100.00000 77.952750 24);
    (51, mkFadKnob 0.06250 0.031000 25);
    (53, mkFadKnob (-18.00000) 0.283464 26);
    (54, mkFadKnob 200.00000 155.905510 28);
    (55, mkFadKnob 0.06250 0.031000 29);
    (57, mkFadKnob (-18.00000) 0.283464 30);
    (58, mkFadKnob 1000.00000 118.110200 32);
    (59, mkFadKnob 0.06250 0.031000 33);
    (61, mkFadKnob (-18.00000) 0.283464 34);
    (19, mkFadKnob (-18.00000) 0.283464 2) ].

Fixpoint assoc {A : Type} (k : Z) (t : list (Z * A)) : option A :=
  match t with
  | [] => None
  | (k', v) :: t' => if k =? k' then Some v else assoc k t'
  end.

(** [eq_fad_knob[control]]; [None] is KeyError. *)
Definition eq_fad_knob (control : Z) : option FadKnob :=
  assoc control eq_fad_knob_table.

(** ** The output ports *)

Definition mmix_out_send (m : MidiOut) : M unit :=
  modify (fun s => with_midi_sent s (midi_sent s ++ [m])).

Definition osc_send (address : string) (args : list Val) : M unit :=
  modify (fun s => with_osc_sent s (osc_sent s ++ [mkOscOut address args])).

Definition enciende_led (led : Z) : M unit := mmix_out_send (mkMidiOut led 127).

Definition apaga_led (led : Z) : M unit := mmix_out_send (mkMidiOut led 0).

(** ** Writing the LED mirrors *)

(** [bank[k]['led_stat_mix'][led] = v]; KeyError when slot [k] is absent. *)
Definition set_led_stat_mix (k led : Z) (v : bool) : M unit :=
  s <- get_state ;;
  l <- or_raise Py.KeyError (bank_get (bank s) k) ;;
  modify (fun s => with_bank s
    (bank_put (bank s) k (mkBankLeds (Py.set (led_stat_mix l) led v) (led_stat_eq l)))).

(** [bank[k]['led_stat_eq'][led] = v]. *)
Definition set_led_stat_eq (k led : Z) (v : bool) : M unit :=
  s <- get_state ;;
  l <- or_raise Py.KeyError (bank_get (bank s) k) ;;
  modify (fun s => with_bank s
    (bank_put (bank s) k (mkBankLeds (led_stat_mix l) (Py.set (led_stat_eq l) led v)))).

(** [bank[k]['led_stat_mix'][led]]. *)
Definition get_led_stat_mix (k led : Z) : M bool :=
  s <- get_state ;;
  l <- or_raise Py.KeyError (bank_get (bank s) k) ;;
  or_raise Py.KeyError (Py.get (led_stat_mix l) led).

(** [bank[k]['led_stat_eq'][led]]. *)
Definition get_led_stat_eq (k led : Z) : M bool :=
  s <- get_state ;;
  l <- or_raise Py.KeyError (bank_get (bank s) k) ;;
  or_raise Py.KeyError (Py.get (led_stat_eq l) led).

(** [mutes[(operation['strip'] % 8) - 1]]: the mute button of the active
    strip. [%] on None is a TypeError. *)
Definition active_strip_mute : M Z :=
  s <- get_state ;;
  strip <- or_raise Py.TypeError (op_strip (operation s)) ;;
  or_raise Py.IndexError (Py.getitem mutes (strip mod 8 - 1)).

(** ** LED rendering (source lines 262-274 and 487-522) *)

Definition apaga_leds : M unit :=
  apaga_led b_right ;;
  apaga_led b_left ;;
  s <- get_state ;;
  for_each (Py.keys (led_stat_mix (bank_0 (bank s)))) apaga_led.

(** [for led in d: if d[led]: enciende_led(led) else: apaga_led(led)]. *)
Definition render (d : Py.dict) : M unit :=
  for_each d (fun kv => if snd kv then enciende_led (fst kv) else apaga_led (fst kv)).

Definition set_led_status : M unit :=
  s <- get_state ;;
  let cur := current (bank s) in
  (if match op_mode (operation s) with mixer => true | _ => false end
   then
     l <- or_raise Py.KeyError (bank_get (bank s) cur) ;;
     render (led_stat_mix l) ;;
     if cur =? 1 then enciende_led b_left ;; apaga_led b_right
     else if cur =? 2 then apaga_led b_left ;; enciende_led b_right
     else apaga_led b_left ;; apaga_led b_right
   else ret tt) ;;
  s <- get_state ;;
  if match op_mode (operation s) with EQ => true | _ => false end
  then
    l <- or_raise Py.KeyError (bank_get (bank s) cur) ;;
    render (led_stat_eq l) ;;
    m <- active_strip_mute ;;
    strip_muted <- get_led_stat_mix cur m ;;
    if strip_muted then enciende_led 24 else ret tt
  else ret tt.

(** ** Mode changes and the answers of the console (lines 276-291) *)

Definition get_plugin_list (args : list Val) : M unit :=
  modify (fun s => with_plugin_list s args).

Definition get_plugin_desc (args : list Val) : M unit :=
  modify (fun s => with_plugin_desc s (plugin_desc s ++ [args])).

Definition set_mixer_mode : M unit :=
  modify (fun s => with_operation s (mkOperation mixer None pos_none)) ;;
  apaga_led b_left ;;
  apaga_led b_right ;;
  set_led_status.

(** ** Feedback from the console (source lines 415-454 and 706-727) *)

(** [valor == 1.0]. *)
Definition is_one (v : Val) : bool :=
  match v with
  | VInt z => z =? 1
  | VFloat f => (f =? 1)%float
  | _ => false
  end.

(** The bank slot a 1-based strip falls in:
    [strip_id // 8], one less when [strip_id % 8 == 0]. *)
Definition strip_bank_of (strip_id : Z) : Z :=
  if strip_id mod 8 =? 0 then strip_id / 8 - 1 else strip_id / 8.

Definition event_recenable (strip_id : Z) (valor : Val) : M unit :=
  let vel := if is_one valor then 127 else 0 in
  let strip_bank := strip_bank_of strip_id in
  if strip_bank <? 3 then
    let bank_led := (strip_id - 1) - 8 * strip_bank in
    led <- or_raise Py.IndexError (Py.getitem recs bank_led) ;;
    (if vel =? 127 then set_led_stat_mix strip_bank led true
     else set_led_stat_mix strip_bank led false) ;;
    s <- get_state ;;
    match op_mode (operation s) with
    | mixer => mmix_out_send (mkMidiOut led vel)
    | _ => ret tt
    end
  else ret tt.

Definition event_mute (strip_id : Z) (valor : Val) : M unit :=
  let vel := if is_one valor then 127 else 0 in
  let strip_bank := strip_bank_of strip_id in
  if strip_bank <? 3 then
    let bank_led := (strip_id - 1) - 8 * strip_bank in
    led <- or_raise Py.IndexError (Py.getitem mutes bank_led) ;;
    (if vel =? 127 then
       set_led_stat_mix strip_bank led true ;;
       set_led_stat_eq strip_bank 21 true
     else
       set_led_stat_mix strip_bank led false ;;
       set_led_stat_eq strip_bank 21 false) ;;
    s <- get_state ;;
    match op_mode (operation s) with
    | mixer =>
        if strip_bank =? current (bank s)
        then mmix_out_send (mkMidiOut led vel)
        else ret tt
    | _ => ret tt
    end
  else ret tt.

(** [load_project]: a ['/master/name'] of one blank announces a new session;
    the handler drops the connection (left to the session supervisor, which is
    outside this model) and blanks the surface. *)
Definition load_project (valor : Val) : M unit :=
  match valor with
  | VStr " " => apaga_leds
  | _ => ret tt
  end.

(** The handler table of [ArdourOSCServer]: aiosc calls
    [handler(addr, path, *args)]. The feedback handlers take exactly two
    arguments after the path, [load_project] one; any other shape is the
    TypeError of a bad call, and so is arithmetic on a strip id that is no
    int. *)
Definition datagram_received (m : OscIn) : M unit :=
  let path := in_path m in
  if (path =? "/strip/plugin/list")%string then
    get_plugin_list (in_addr m :: VStr path :: in_args m)
  else if (path =? "/strip/plugin/descriptor")%string then
    get_plugin_desc (in_addr m :: VStr path :: in_args m)
  else if (path =? "/strip/recenable")%string then
    match in_args m with
    | [VInt strip_id; valor] => event_recenable strip_id valor
    | _ => raise Py.TypeError
    end
  else if (path =? "/strip/mute")%string then
    match in_args m with
    | [VInt strip_id; valor] => event_mute strip_id valor
    | _ => raise Py.TypeError
    end
  else if (path =? "/master/name")%string then
    match in_args m with
    | [valor] => load_project valor
    | _ => raise Py.TypeError
    end
  else ret tt.

(** A handler runs on the network loop's thread: what it raises stays
    there, what it wrote to the shared state remains. *)
Definition deliver (m : OscIn) : M unit :=
  fun s => (Ok tt, snd (datagram_received m s)).

(** [time.sleep(...)] while a reply is awaited: the datagrams that arrive
    during the wait are handled, in order of arrival. *)
Definition sleep (arrivals : list OscIn) : M unit := for_each arrivals deliver.

(** What arrives during the waits of one surface event: the wait after the
    list request and the wait after the descriptor request. *)
Record Waits : Type :=
  mkWaits { during_list_wait : list OscIn; during_desc_wait : list OscIn }.

Definition quiet : Waits := mkWaits [] [].

(** ** Discovery (source lines 293-413) *)

(** [try: body / except: pass]. *)
Definition try_pass (body : M unit) : M unit :=
  fun s => (Ok tt, snd (body s)).

(** [val[12] > 0]; an order test between a str or a tuple and an int is a
    TypeError. *)
Definition positive (v : Val) : option bool :=
  match v with
  | VInt z => Some (0 <? z)
  | VFloat f => Some (0 <? f)%float
  | _ => None
  end.

(** The block both discovery paths run after the descriptor wait (lines
    318-331 and 395-408): blank the EQ mirror of the current bank, then seed
    it from every entry of [plugin_desc] that names a known LED. *)
Definition descriptor_pass : M unit :=
  s <- get_state ;;
  let cur := current (bank s) in
  l <- or_raise Py.KeyError (bank_get (bank s) cur) ;;
  for_each (Py.keys (led_stat_eq l)) (fun led => set_led_stat_eq cur led false) ;;
  s <- get_state ;;
  for_each (plugin_desc s) (fun val =>
    try_pass (
      name <- or_raise Py.IndexError (Py.getitem val 5) ;;
      led <- or_raise Py.KeyError
               match name with VStr n => eq_leds n | _ => None end ;;
      v <- or_raise Py.IndexError (Py.getitem val 12) ;;
      on <- or_raise Py.TypeError (positive v) ;;
      if on then set_led_stat_eq cur led true
      else set_led_stat_eq cur led false)).

Definition espera_indice_modulo_eq (note : Z) (w : Waits) : M unit :=
  if negb (Py.contains note recs) then ret tt
  else
    pos_modulo <- or_raise Py.ValueError (Py.index note recs) ;;
    s <- get_state ;;
    candidates <- or_raise Py.TypeError
                    match op_plugin_pos (operation s) with
                    | pos_list l => Some l
                    | _ => None
                    end ;;
    if Z.of_nat (length candidates) <? pos_modulo + 1 then ret tt
    else
      chosen <- or_raise Py.IndexError (Py.getitem candidates pos_modulo) ;;
      modify (fun s => with_operation s
        (mkOperation EQ (op_strip (operation s)) (pos_int chosen))) ;;
      s <- get_state ;;
      osc_send "/strip/plugin/descriptor"
        [match op_strip (operation s) with Some n => VInt n | None => VNone end;
         VInt chosen] ;;
      sleep (during_desc_wait w) ;;
      descriptor_pass ;;
      set_led_status ;;
      (* [plugin_desc = ()] rebinds the global; [plugin_list = ()] on the next
         line binds a local, the function having no [global plugin_list]. *)
      modify (fun s => with_plugin_desc s []).

Definition mono : string := "x42-eq - Parametric Equalizer Mono".
Definition stereo : string := "x42-eq - Parametric Equalizer Stereo".

(** [v == name] for a str [name]. *)
Definition is_name (name : string) (v : Val) : bool :=
  match v with
  | VStr s => (s =? name)%string
  | _ => false
  end.

(** [for i in range(0, len(names)): if names[i] == name: m_pos.append(i + 1)],
    with the count [i] of the entries already passed. *)
Fixpoint positions_from (i : Z) (name : string) (names : list Val) : list Z :=
  match names with
  | [] => []
  | v :: names' =>
      if is_name name v then (i + 1) :: positions_from (i + 1) name names'
      else positions_from (i + 1) name names'
  end.

(** The candidate positions [m_pos] computed from [plugin_list]; [None]
    where the function falls back to the mixer before computing them. *)
Definition candidates (plugin_list : list Val) : option (list Z) :=
  if Z.of_nat (length plugin_list) <? 4 then None
  else
    let plugin_names := Py.slice_4_3 plugin_list in
    if negb (existsb (is_name mono) plugin_names)
       && negb (existsb (is_name stereo) plugin_names)
    then None
    else if negb (existsb (is_name mono) plugin_names)
    then Some (positions_from 0 stereo plugin_names)
    else Some (positions_from 0 mono plugin_names).

Definition search_eq_strip (strip_id : Z) (w : Waits) : M PluginPos :=
  osc_send "/strip/plugin/list" [VInt strip_id] ;;
  sleep (during_list_wait w) ;;
  s <- get_state ;;
  match candidates (plugin_list s) with
  | None => set_mixer_mode ;; ret pos_none
  | Some m_pos =>
      if 1 <? Z.of_nat (length m_pos) then
        if 8 <? Z.of_nat (length m_pos) then set_mixer_mode ;; ret pos_none
        else
          modify (fun s => with_operation s
            (mkOperation read_keypress (Some strip_id)
                         (op_plugin_pos (operation s)))) ;;
          apaga_leds ;;
          for_each (firstn (length m_pos) recs) enciende_led ;;
          ret (pos_list m_pos)
      else
        pos <- or_raise Py.IndexError (Py.getitem m_pos 0) ;;
        osc_send "/strip/plugin/descriptor" [VInt strip_id; VInt pos] ;;
        sleep (during_desc_wait w) ;;
        descriptor_pass ;;
        ret (pos_int pos)
  end.

(** ** The button actions (source lines 456-545) *)

Definition trigger_mute (led_id : Z) : M unit :=
  s <- get_state ;;
  let cur := current (bank s) in
  target <-
    match op_mode (operation s) with
    | mixer =>
        i <- or_raise Py.ValueError (Py.index led_id mutes) ;;
        ret (VInt ((i + 1) + 8 * cur), led_id)
    | _ =>
        m <- active_strip_mute ;;
        ret (match op_strip (operation s) with Some n => VInt n | None => VNone end, m)
    end ;;
  let strip_id := fst target in
  let led_id := snd target in
  on <- get_led_stat_mix cur led_id ;;
  if on then
    osc_send "/strip/mute" [strip_id; VInt 0] ;;
    set_led_stat_mix cur led_id false ;;
    set_led_stat_eq cur 21 false
  else
    osc_send "/strip/mute" [strip_id; VInt 1] ;;
    set_led_stat_mix cur led_id true ;;
    set_led_stat_eq cur 21 true.

Definition trigger_rec (led_id : Z) (strip_id : option Z) : M unit :=
  s <- get_state ;;
  let cur := current (bank s) in
  strip_id <-
    match strip_id with
    | None =>
        i <- or_raise Py.ValueError (Py.index led_id recs) ;;
        ret (i + 1 + 8 * cur)
    | Some n => ret n
    end ;;
  on <- get_led_stat_mix cur led_id ;;
  if on then
    osc_send "/strip/recenable" [VInt strip_id; VInt 0] ;;
    set_led_stat_mix cur led_id false
  else
    osc_send "/strip/recenable" [VInt strip_id; VInt 1] ;;
    set_led_stat_mix cur led_id true.

(** [operar_led]: [led_status] aliases the mirror of the current bank that
    goes with the mode, so the writes land in [bank]. While a key press is
    awaited no branch binds [led_status]; and the last branch hands None to
    mido as a note. *)
Definition operar_led (led_id : Z) : M unit :=
  s <- get_state ;;
  let cur := current (bank s) in
  match op_mode (operation s) with
  | read_keypress => raise Py.UnboundLocalError
  | EQ =>
      l <- or_raise Py.KeyError (bank_get (bank s) cur) ;;
      match Py.get (led_stat_eq l) led_id with
      | Some led =>
          if negb led then set_led_stat_eq cur led_id true ;; enciende_led led_id
          else set_led_stat_eq cur led_id false ;; apaga_led led_id
      | None => set_led_stat_eq cur led_id true ;; raise Py.TypeError
      end
  | mixer =>
      l <- or_raise Py.KeyError (bank_get (bank s) cur) ;;
      match Py.get (led_stat_mix l) led_id with
      | Some led =>
          if negb led then set_led_stat_mix cur led_id true ;; enciende_led led_id
          else set_led_stat_mix cur led_id false ;; apaga_led led_id
      | None => set_led_stat_mix cur led_id true ;; raise Py.TypeError
      end
  end.

(** ** The event router (source lines 547-704) *)

(** Entering EQ mode on [strip_id]: the block of lines 565-573, which lines
    578-586 repeat for a change of strip. *)
Definition enter_eq (strip_id : Z) (w : Waits) : M unit :=
  modify (fun s => with_operation s
    (mkOperation EQ (Some strip_id) (op_plugin_pos (operation s)))) ;;
  found <- search_eq_strip strip_id w ;;
  modify (fun s => with_operation s
    (mkOperation (op_mode (operation s)) (op_strip (operation s)) found)) ;;
  match found with
  | pos_none => ret tt
  | _ => enciende_led b_left ;; enciende_led b_right ;; set_led_status
  end.

(** The Solo chord on the strip whose mute button is [note - 1] (lines
    560-590). *)
Definition solo_chord (note : Z) (w : Waits) : M unit :=
  i <- or_raise Py.ValueError (Py.index (note - 1) mutes) ;;
  s <- get_state ;;
  let strip_id := (i + 1) + 8 * current (bank s) in
  match op_mode (operation s) with
  | mixer => enter_eq strip_id w
  | _ =>
      if negb match op_strip (operation s) with
              | Some n => n =? strip_id
              | None => false
              end
      then enter_eq strip_id w
      else set_mixer_mode
  end.

(** A press in mixer mode with no key held (lines 623-630). *)
Definition mixer_press (note : Z) : M unit :=
  if Py.contains note mutes then trigger_mute note ;; operar_led note
  else if Py.contains note recs then trigger_rec note None ;; operar_led note
  else ret tt.

(** A press in EQ mode with no key held (lines 631-651). *)
Definition eq_press (note : Z) : M unit :=
  if note =? 24 then
    s <- get_state ;;
    let cur := current (bank s) in
    trigger_mute note ;;
    m <- active_strip_mute ;;
    strip_muted <- get_led_stat_mix cur m ;;
    if strip_muted then enciende_led 24 else apaga_led 24
  else if negb (note =? 27) then
    option <- or_raise Py.KeyError (eq_led_trigger note) ;;
    s <- get_state ;;
    on <- get_led_stat_eq (current (bank s)) note ;;
    let valor := if on then 0 else 1 in
    operar_led note ;;
    s <- get_state ;;
    osc_send "/strip/plugin/parameter"
      [match op_strip (operation s) with Some n => VInt n | None => VNone end;
       match op_plugin_pos (operation s) with
       | pos_none => VNone
       | pos_int p => VInt p
       | pos_list l => VList l
       end;
       VInt option; VInt valor]
  else ret tt.

(** The [note_on] branch, the body of the [try]. *)
Definition on_note_on (note : Z) (w : Waits) : M unit :=
  s <- get_state ;;
  if np_state (note_press s) then
    if match np_note (note_press s) with
       | Some n => n =? b_solo
       | None => false
       end
    then
      if Py.contains (note - 1) mutes then solo_chord note w
      else ret tt     (* Solo with a rec button, or with anything else *)
    else ret tt
  else
    match op_mode (operation s) with
    | read_keypress => espera_indice_modulo_eq note w
    | _ =>
        if note =? b_left then
          (if 0 <? current (bank s)
           then modify (fun s => with_bank s
                  (with_current (bank s) (current (bank s) - 1)))
           else ret tt) ;;
          set_led_status
        else if note =? b_right then
          (if current (bank s) <? 2
           then modify (fun s => with_bank s
                  (with_current (bank s) (current (bank s) + 1)))
           else ret tt) ;;
          set_led_status
        else
          modify (fun s => with_note_press s (mkNotePress (Some note) true)) ;;
          match op_mode (operation s) with
          | mixer => mixer_press note
          | EQ => eq_press note
          | read_keypress => ret tt
          end
    end.

Definition on_note_off (note : Z) : M unit :=
  s <- get_state ;;
  if match np_note (note_press s) with
     | Some n => n =? note
     | None => false
     end
  then modify (fun s => with_note_press s (mkNotePress None false))
  else ret tt.

(** What a knob does in mixer mode. *)
Inductive KnobRole : Set := role_trim | role_pan | role_solo.

(** The role of the knob at position [i] of [knobs]: the text of
    [i / 3 % 1] with two decimals, compared with the three texts the source
    tests for. [None]: no test binds [action]. *)
Definition knob_role (i : Z) : option KnobRole :=
  let knob := Py.format_2f (Py.mod1 (Py.float_of_Z i / 3)%float) in
  if (knob =? "0.00")%string then Some role_trim
  else if (knob =? "0.33")%string then Some role_pan
  else if (knob =? "0.67")%string then Some role_solo
  else None.

Definition role_action (r : KnobRole) : string :=
  match r with
  | role_trim => "/strip/trimdB"
  | role_pan => "/strip/pan_stereo_position"
  | role_solo => "/strip/solo"
  end.

Definition role_valor (r : KnobRole) (value : Z) : float :=
  match r with
  | role_trim => (-20.00000 + 0.31496 * Py.float_of_Z value)%float
  | role_pan => (1.00000 - 0.00787 * Py.float_of_Z value)%float
  | role_solo => if 90 <? value then 1.0%float else 0.0%float
  end.

(** [0.0 + (0.79 * (int(msg.value) / 100))]. *)
Definition fader_level (value : Z) : float :=
  (0.0 + 0.79 * (Py.float_of_Z value / 100))%float.

(** [-193 + (1.622 * msg.value)]. *)
Definition master_gain (value : Z) : float :=
  (-193 + 1.622 * Py.float_of_Z value)%float.

Definition strip_arg (s : State) : Val :=
  match op_strip (operation s) with Some n => VInt n | None => VNone end.

Definition plugin_pos_arg (s : State) : Val :=
  match op_plugin_pos (operation s) with
  | pos_none => VNone
  | pos_int p => VInt p
  | pos_list l => VList l
  end.

(** The [control_change] branch (lines 662-704); it runs outside the [try]. *)
Definition on_control_change (control value : Z) : M unit :=
  s <- get_state ;;
  let cur := current (bank s) in
  match op_mode (operation s) with
  | mixer =>
      (if Py.contains control faders then
         if control =? 62 then osc_send "/master/gain" [VFloat (master_gain value)]
         else
           i <- or_raise Py.ValueError (Py.index control faders) ;;
           osc_send "/strip/fader" [VInt ((i + 1) + 8 * cur); VFloat (fader_level value)]
       else ret tt) ;;
      if Py.contains control knobs then
        i <- or_raise Py.ValueError (Py.index control knobs) ;;
        n <- or_raise Py.ValueError (Py.int_of_float (Py.float_of_Z i / 3 + 1)%float) ;;
        r <- or_raise Py.UnboundLocalError (knob_role i) ;;
        osc_send (role_action r) [VInt (n + 8 * cur); VFloat (role_valor r value)]
      else ret tt
  | EQ =>
      if control =? 62 then
        osc_send "/strip/fader" [strip_arg s; VFloat (fader_level value)]
      else if control =? 18 then
        osc_send "/strip/pan_stereo_position"
          [strip_arg s; VFloat (role_valor role_pan value)]
      else if control =? 60 then
        osc_send "/strip/solo" [strip_arg s; VFloat (role_valor role_solo value)]
      else
        e <- or_raise Py.KeyError (eq_fad_knob control) ;;
        osc_send "/strip/plugin/parameter"
          [strip_arg s; plugin_pos_arg s; VInt (fk_plugin_opt e);
           VFloat (fk_min e + fk_incremento e * Py.float_of_Z value)%float]
  | read_keypress => ret tt
  end.

(** [surface_callback(msg)]: the mido input callback. Only the [note_on]
    branch sits inside the [try]; what the other two raise leaves the
    callback. *)
Definition surface_callback (msg : MidiIn) (w : Waits) : M unit :=
  try_print (match msg with
             | note_on note => on_note_on note w
             | _ => ret tt
             end) ;;
  match msg with
  | note_off note => on_note_off note
  | control_change control value => on_control_change control value
  | _ => ret tt
  end.

(** What the program reacts to: an event of the surface, with what arrives
    during its waits, or a datagram of the console arriving between two
    surface events. *)
Inductive Event : Type :=
| surface (msg : MidiIn) (w : Waits)
| console (m : OscIn).

Definition step (ev : Event) (s : State) : State :=
  match ev with
  | surface msg w => exec (surface_callback msg w) s
  | console m => exec (deliver m) s
  end.

(** The state after a run of events. The input port calls the router once
    per event, whether or not an earlier call raised, so the state is
    threaded through all of them. *)
Fixpoint after (evs : list Event) (s : State) : State :=
  match evs with
  | [] => s
  | ev :: evs' => after evs' (step ev s)
  end.

(** The LED of a control as the surface shows it after a trace of writes:
    lit when the last write to it had velocity 127. *)
Fixpoint lit (trace : list MidiOut) (led : Z) (before : bool) : bool :=
  match trace with
  | [] => before
  | m :: trace' =>
      lit trace' led (if led_note m =? led then led_velocity m =? 127 else before)
  end.

(** ** Vocabulary of the properties *)

(** [keeps proj c]: running [c] does not change the part [proj] of the state,
    whether it returns or raises. *)
Definition keeps {A X : Type} (proj : State -> X) (c : M A) : Prop :=
  forall s, proj (exec c s) = proj s.

Definition control (s : State) : NotePress * Operation * Z :=
  (note_press s, operation s, current (bank s)).

Definition bank_index (s : State) : Z := current (bank s).

(** No key tracked as held, and no key press awaited: the state in which a
    press is routed by what it is. *)
Definition ready (s : State) : bool :=
  negb (np_state (note_press s))
  && match op_mode (operation s) with read_keypress => false | _ => true end.

Definition chord_and_operation (s : State) : NotePress * Operation :=
  (note_press s, operation s).

(** The bank rule as the claim words it: the low end and the high end hold,
    every other press moves by one. *)
Definition bank_after_press (note c : Z) : Z :=
  if note =? b_left then (if c =? 0 then 0 else c - 1)
  else (if c =? 2 then 2 else c + 1).

Definition clamped_walk (c : Z) (presses : list Z) : Z :=
  fold_left (fun c note => bank_after_press note c) presses c.

Definition is_bank_button (note : Z) : bool := (note =? b_left) || (note =? b_right).

(** A key is tracked as held, and it is not the Solo button: the two tests
    the router makes before it looks at a press. *)
Definition held_other_than_solo (s : State) : bool :=
  np_state (note_press s)
  && negb match np_note (note_press s) with
          | Some n => n =? b_solo
          | None => false
          end.

(** The role of a knob identity: the role of its position in [knobs]. *)
Definition role_of (c : Z) : option KnobRole :=
  match Py.index c knobs with
  | Some i => knob_role i
  | None => None
  end.

Definition same_role (a b : KnobRole) : bool :=
  match a, b with
  | role_trim, role_trim | role_pan, role_pan | role_solo, role_solo => true
  | _, _ => false
  end.

(** The knob identities that have role [r]. *)
Definition knobs_with (r : KnobRole) : list Z :=
  filter (fun c => match role_of c with
                   | Some r' => same_role r r'
                   | None => false
                   end) knobs.

(** The three fractional offsets of [i / 3]: none, one third, two thirds. *)
Definition role_at (i : Z) : KnobRole :=
  if i mod 3 =? 0 then role_trim
  else if i mod 3 =? 1 then role_pan
  else role_solo.

(** The EQ-mode LED mirrors of the three banks. *)
Definition eq_mirrors (s : State) : Py.dict * Py.dict * Py.dict :=
  (led_stat_eq (bank_0 (bank s)),
   led_stat_eq (bank_1 (bank s)),
   led_stat_eq (bank_2 (bank s))).

(** [bank[k]['led_stat_eq'].get(led)]. *)
Definition eq_led (s : State) (k led : Z) : option bool :=
  match bank_get (bank s) k with
  | Some l => Py.get (led_stat_eq l) led
  | None => None
  end.

(** [bank[k]['led_stat_mix'].get(led)]. *)
Definition mix_led (s : State) (k led : Z) : option bool :=
  match bank_get (bank s) k with
  | Some l => Py.get (led_stat_mix l) led
  | None => None
  end.

(** The console, as the peer of every datagram. *)
Definition peer : Val := VAddr "127.0.0.1" 3819.

(** A mute or rec button. *)
Definition is_toggle_button (c : Z) : bool :=
  Py.contains c mutes || Py.contains c recs.

(** The strip a mute or rec button stands for in bank [cur]. *)
Definition toggle_strip (c cur : Z) : Z :=
  match Py.index c (if Py.contains c mutes then mutes else recs) with
  | Some i => i + 1 + 8 * cur
  | None => 0
  end.

(** The command a mute or rec button sends. *)
Definition toggle_command (c strip value : Z) : OscOut :=
  mkOscOut (if Py.contains c mutes then "/strip/mute" else "/strip/recenable")
           [VInt strip; VInt value].

(** A continuous control that EQ mode neither handles by name nor finds in
    [eq_fad_knob]. *)
Definition unmapped_in_eq (c : Z) : bool :=
  negb (c =? 62) && negb (c =? 18) && negb (c =? 60)
  && match eq_fad_knob c with
     | None => true
     | Some _ => false
     end.

(** *** Replies of the console, for the scenarios *)

(** The arguments of a plugin list reply after the strip: id, name and
    enabled flag of each plugin of the chain. *)
Fixpoint plugin_entries (i : Z) (names : list string) : list Val :=
  match names with
  | [] => []
  | n :: names' => VInt i :: VStr n :: VInt 1 :: plugin_entries (i + 1) names'
  end.

Definition list_reply (strip : Z) (names : list string) : OscIn :=
  mkOscIn peer "/strip/plugin/list" (VInt strip :: plugin_entries 1 names).

(** One parameter of a plugin descriptor: its name is the fourth argument,
    its current value the eleventh. *)
Definition descriptor_reply (strip pos : Z) (name : string) (value : Val) : OscIn :=
  mkOscIn peer "/strip/plugin/descriptor"
    [VInt strip; VInt pos; VInt 1; VStr name; VInt 64; VStr "INT";
     VFloat 0; VFloat 1; VInt 0; VInt 0; value].

(** Solo held, then the mute button of strip 1 of bank 0, the console
    answering with one equalizer at position 1 whose Enable is on. *)
Definition enter_eq_on_strip_1 : list Event :=
  [surface (note_on b_solo) quiet;
   surface (note_on 2)
           (mkWaits [list_reply 1 [mono]]
                    [descriptor_reply 1 1 "Enable" (VFloat 1)])].

(** Solo held, then the mute button of strip 1 of bank 0, the console
    answering with a chain that holds three equalizers, at positions 1, 3
    and 4. *)
Definition await_keypress_on_strip_1 : list Event :=
  [surface (note_on b_solo) quiet;
   surface (note_on 2)
           (mkWaits [list_reply 1 [mono; "a-comp"; mono; mono]] [])].

(** The list buffer after a wait: the arguments of the last list reply that
    arrived, or what it held before. *)
Fixpoint heard (arrivals : list OscIn) (buffer : list Val) : list Val :=
  match arrivals with
  | [] => buffer
  | m :: arrivals' =>
      heard arrivals'
            (if (in_path m =? "/strip/plugin/list")%string
             then in_addr m :: VStr (in_path m) :: in_args m
             else buffer)
  end.

(** [preserves I c]: running [c] from a state where [I] holds ends in a state
    where [I] holds, whether [c] returns or raises. *)
Definition preserves {A : Type} (I : State -> Prop) (c : M A) : Prop :=
  forall s, I s -> I (exec c s).

(** Where the mode is EQ, the active strip is [sid]. *)
Definition eq_means_strip (sid : Z) (s : State) : Prop :=
  op_mode (operation s) = EQ -> op_strip (operation s) = Some sid.

(** The chord state and the bank index: what the Solo chord leaves alone. *)
Definition held_and_bank (s : State) : NotePress * Z :=
  (note_press s, current (bank s)).

(** The mixer mirror of bank 0 has the sixteen button keys, in the order of
    the source: what [apaga_leds] walks over. *)
Definition button_keys (s : State) : Prop :=
  Py.keys (led_stat_mix (bank_0 (bank s))) = Py.keys all_off.

Definition led_off (led : Z) : MidiOut := mkMidiOut led 0.
Definition led_on (led : Z) : MidiOut := mkMidiOut led 127.

(** A rec button that is lit as a choice among [n] candidates: one of the
    first [n]. *)
Definition lit_choice (note : Z) (n : nat) : bool :=
  match Py.index note recs with
  | Some k => k <? Z.of_nat n
  | None => false
  end.

(** A feedback datagram of the console for a strip. *)
Definition mute_feedback (strip : Z) (valor : Val) : OscIn :=
  mkOscIn peer "/strip/mute" [VInt strip; valor].

Definition recenable_feedback (strip : Z) (valor : Val) : OscIn :=
  mkOscIn peer "/strip/recenable" [VInt strip; valor].

(** The feedback that answers the command of a mute or rec button. *)
Definition toggle_feedback (c strip : Z) (valor : Val) : OscIn :=
  if Py.contains c mutes then mute_feedback strip valor
  else recenable_feedback strip valor.

(** The velocity a feedback value stands for. *)
Definition feedback_velocity (valor : Val) : Z :=
  if is_one valor then 127 else 0.

(** The command of an EQ section button: parameter slot [option] of the
    active module set to [value]. *)
Definition section_command (s : State) (option value : Z) : OscOut :=
  mkOscOut "/strip/plugin/parameter"
           [strip_arg s; plugin_pos_arg s; VInt option; VInt value].

(** The parameter slots the EQ tables address: those of the section buttons
    and those of the continuous controls. *)
Definition section_notes : list Z := [3; 6; 1; 4; 7; 10; 13; 16; 19; 22].

Definition parameter_slots : list Z :=
  flat_map (fun note => match eq_led_trigger note with
                        | Some option => [option]
                        | None => []
                        end) section_notes
  ++ map (fun kv => fk_plugin_opt (snd kv)) eq_fad_knob_table.

(** What a continuous control sends in EQ mode. *)
Definition eq_control_command (s : State) (c v : Z) : option OscOut :=
  if c =? 62 then
    Some (mkOscOut "/strip/fader"
            [strip_arg s; VFloat (0.0 + 0.79 * (Py.float_of_Z v / 100))%float])
  else if c =? 18 then
    Some (mkOscOut "/strip/pan_stereo_position"
            [strip_arg s; VFloat (1.0 - 0.00787 * Py.float_of_Z v)%float])
  else if c =? 60 then
    Some (mkOscOut "/strip/solo"
            [strip_arg s; VFloat (if 90 <? v then 1.0%float else 0.0%float)])
  else
    match eq_fad_knob c with
    | Some e =>
        Some (mkOscOut "/strip/plugin/parameter"
                [strip_arg s; plugin_pos_arg s; VInt (fk_plugin_opt e);
                 VFloat (fk_min e + fk_incremento e * Py.float_of_Z v)%float])
    | None => None
    end.

(** [min + incremento * value] for an entry of the parameter map. *)
Definition eq_parameter_value (e : FadKnob) (value : Z) : float :=
  (fk_min e + fk_incremento e * Py.float_of_Z value)%float.

(** One step up of the raw value moves every mapped value the right way,
    and keeps pan and trim within their range. *)
Definition step_up_ok (v : Z) : bool :=
  (fader_level v <? fader_level (v + 1))%float
  && (master_gain v <? master_gain (v + 1))%float
  && (role_valor role_trim v <? role_valor role_trim (v + 1))%float
  && (role_valor role_trim (v + 1) <=? 20)%float
  && (role_valor role_pan (v + 1) <? role_valor role_pan v)%float
  && (0 <=? role_valor role_pan (v + 1))%float
  && forallb (fun kv => (eq_parameter_value (snd kv) v
                         <? eq_parameter_value (snd kv) (v + 1))%float)
             eq_fad_knob_table.

(** The LED write that shows one entry of a mirror. *)
Definition led_of (kv : Z * bool) : MidiOut :=
  mkMidiOut (fst kv) (if snd kv then 127 else 0).

(** The mirror a mode shows has the sixteen button keys. *)
Definition page_keys (s : State) : Prop :=
  match bank_get (bank s) (current (bank s)) with
  | Some l => Py.keys (led_stat_mix l) = Py.keys all_off
              /\ Py.keys (led_stat_eq l) = Py.keys all_off
  | None => False
  end.

(** What [set_led_status] writes in mixer mode. *)
Definition mixer_page (l : BankLeds) (cur : Z) : list MidiOut :=
  map led_of (led_stat_mix l)
  ++ [mkMidiOut b_left (if cur =? 1 then 127 else 0);
      mkMidiOut b_right (if cur =? 2 then 127 else 0)].

(** Every bank's mixer mirror has the sixteen button keys. *)
Definition all_pages_keyed (s : State) : Prop :=
  forall k l, bank_get (bank s) k = Some l ->
              Py.keys (led_stat_mix l) = Py.keys all_off.

(** A project-load announcement of the console. *)
Definition master_name (valor : Val) : OscIn :=
  mkOscIn peer "/master/name" [valor].

(** The name the scan of a list reply looks for: the mono equalizer when the
    reply names one, the stereo equalizer otherwise. *)
Definition searched_name (plugin_list : list Val) : string :=
  if existsb (is_name mono) (Py.slice_4_3 plugin_list) then mono else stereo.

(** The name field of the [p]-th plugin of a list reply
    [(addr, path, strip, id_1, name_1, enabled_1, id_2, ...)]. *)
Definition name_field (plugin_list : list Val) (p : Z) : option Val :=
  Py.getitem plugin_list (3 * p + 1).

(** The [p]-th plugin of the reply is named [name]. *)
Definition named (plugin_list : list Val) (name : string) (p : Z) : Prop :=
  1 <= p /\ exists v, name_field plugin_list p = Some v /\ is_name name v = true.

(** Both mirrors of a bank slot hold exactly the sixteen button keys, in the
    order of the source. *)
Definition keyed (l : BankLeds) : Prop :=
  Py.keys (led_stat_mix l) = Py.keys all_off
  /\ Py.keys (led_stat_eq l) = Py.keys all_off.

Definition mirrors (s : State) : BankLeds * BankLeds * BankLeds :=
  (bank_0 (bank s), bank_1 (bank s), bank_2 (bank s)).

Definition mirrors_keyed (s : State) : Prop :=
  keyed (bank_0 (bank s)) /\ keyed (bank_1 (bank s)) /\ keyed (bank_2 (bank s)).

(** The scan of the list buffer gives no usable candidate: none at all, or
    more than eight. *)
Definition no_usable_candidate (plugin_list : list Val) : Prop :=
  match candidates plugin_list with
  | None => True
  | Some m_pos => (8 < length m_pos)%nat
  end.

Definition list_request (sid : Z) : OscOut :=
  mkOscOut "/strip/plugin/list" [VInt sid].

(** The chord is a request to enter EQ mode on [sid]: always from mixer
    mode, and from the other modes when [sid] is not the active strip. *)
Definition chord_enters_on (s : State) (sid : Z) : Prop :=
  op_mode (operation s) = mixer \/ op_strip (operation s) <> Some sid.

(** What [set_led_status] writes in EQ mode: the EQ mirror in its order, then
    LED 24 once more when the active strip is muted. *)
Definition eq_page (l : BankLeds) (muted : bool) : list MidiOut :=
  (map led_of (led_stat_eq l) ++ (if muted then [led_on 24] else []))%list.

(** [mutes[(strip % 8) - 1]]: the mute button looked up for strip [sid]. *)
Definition strip_mute_button (sid : Z) : option Z :=
  Py.getitem mutes (sid mod 8 - 1).

Definition descriptor_request (sid pos : Z) : OscOut :=
  mkOscOut "/strip/plugin/descriptor" [VInt sid; VInt pos].

(** The operation state is consistent with its mode: in mixer mode no strip
    and no position; in EQ mode a strip and one position; while a key press
    is awaited a strip and the list of two to eight candidates. *)
Definition well_formed (o : Operation) : Prop :=
  match op_mode o with
  | mixer => op_strip o = None /\ op_plugin_pos o = pos_none
  | EQ =>
      (exists sid, op_strip o = Some sid)
      /\ (exists p, op_plugin_pos o = pos_int p)
  | read_keypress =>
      (exists sid, op_strip o = Some sid)
      /\ (exists l, op_plugin_pos o = pos_list l /\ (2 <= length l <= 8)%nat)
  end.

(** * Properties *)

(** ** Frames: what a computation leaves alone *)

Section Frame.

Context {X : Type} (proj : State -> X).

Lemma keeps_ret {A : Type} (a : A) : keeps proj (ret a).
Proof. intro s. reflexivity. Qed.

Lemma keeps_raise {A : Type} (e : Py.Exn) : keeps proj (@raise A e).
Proof. intro s. reflexivity. Qed.

Lemma keeps_get_state : keeps proj get_state.
Proof. intro s. reflexivity. Qed.

Lemma keeps_or_raise {A : Type} (e : Py.Exn) (o : option A) :
  keeps proj (or_raise e o).
Proof. destruct o; intro s; reflexivity. Qed.

Lemma keeps_bind {A B : Type} (c : M A) (k : A -> M B) :
  keeps proj c -> (forall a, keeps proj (k a)) -> keeps proj (bind c k).
Proof.
  intros Hc Hk s. unfold exec, bind.
  specialize (Hc s). unfold exec in Hc.
  destruct (c s) as [[a | e] s']; simpl in *.
  - rewrite <- Hc. apply Hk.
  - exact Hc.
Qed.

Lemma keeps_modify (f : State -> State) :
  (forall s, proj (f s) = proj s) -> keeps proj (modify f).
Proof. intros Hf s. apply Hf. Qed.

Lemma keeps_for_each {A : Type} (l : list A) (body : A -> M unit) :
  (forall x, keeps proj (body x)) -> keeps proj (for_each l body).
Proof.
  intro Hb. induction l as [| x l IH]; simpl.
  - apply keeps_ret.
  - apply keeps_bind; auto.
Qed.

Lemma keeps_try_pass (body : M unit) : keeps proj body -> keeps proj (try_pass body).
Proof. intros Hb s. apply Hb. Qed.

Lemma keeps_try_print (body : M unit) :
  (forall s p, proj (with_printed s p) = proj s) ->
  keeps proj body -> keeps proj (try_print body).
Proof.
  intros Hp Hb s. specialize (Hb s). unfold exec, try_print in *.
  destruct (body s) as [[a | e] s']; simpl in *; [| rewrite Hp]; exact Hb.
Qed.

End Frame.

(** One step of a frame proof: follow the shape of the computation. *)
Ltac keeps_step :=
  lazymatch goal with
  | |- keeps _ (bind _ _) => apply keeps_bind; [| intro]
  | |- keeps _ (ret _) => apply keeps_ret
  | |- keeps _ (raise _) => apply keeps_raise
  | |- keeps _ get_state => apply keeps_get_state
  | |- keeps _ (or_raise _ _) => apply keeps_or_raise
  | |- keeps _ (for_each _ _) => apply keeps_for_each; intro
  | |- keeps _ (try_pass _) => apply keeps_try_pass
  | |- keeps _ (modify _) => apply keeps_modify; intro; reflexivity
  | |- keeps _ (if ?b then _ else _) => destruct b
  | |- keeps _ (match ?x with _ => _ end) => destruct x
  | |- keeps _ _ => solve [auto with keeps]
  end.

Ltac keeps_tac := cbv zeta; repeat (keeps_step; cbv beta zeta).

Create HintDb keeps.

(** The ports only grow their traces. *)
Lemma keeps_mmix_out_send {X : Type} (proj : State -> X) (m : MidiOut) :
  (forall s t, proj (with_midi_sent s t) = proj s) ->
  keeps proj (mmix_out_send m).
Proof. intros H s. apply H. Qed.

Lemma keeps_osc_send {X : Type} (proj : State -> X) (a : string) (args : list Val) :
  (forall s t, proj (with_osc_sent s t) = proj s) ->
  keeps proj (osc_send a args).
Proof. intros H s. apply H. Qed.

(** *** The control part: chord state, operation state, bank index *)

Lemma current_bank_put (b : Bank) (k : Z) (l : BankLeds) :
  current (bank_put b k l) = current b.
Proof. unfold bank_put. repeat destruct (_ =? _); reflexivity. Qed.

Lemma control_mmix_out_send (m : MidiOut) : keeps control (mmix_out_send m).
Proof. intro s. reflexivity. Qed.

Lemma control_osc_send (a : string) (args : list Val) : keeps control (osc_send a args).
Proof. intro s. reflexivity. Qed.

Lemma control_enciende_led (led : Z) : keeps control (enciende_led led).
Proof. intro s. reflexivity. Qed.

Lemma control_apaga_led (led : Z) : keeps control (apaga_led led).
Proof. intro s. reflexivity. Qed.

Lemma control_set_led_stat_mix (k led : Z) (v : bool) :
  keeps control (set_led_stat_mix k led v).
Proof.
  intro s. unfold set_led_stat_mix, exec, bind, get_state, or_raise.
  destruct (bank_get (bank s) k); simpl; [| reflexivity].
  unfold control; simpl. now rewrite current_bank_put.
Qed.

Lemma control_set_led_stat_eq (k led : Z) (v : bool) :
  keeps control (set_led_stat_eq k led v).
Proof.
  intro s. unfold set_led_stat_eq, exec, bind, get_state, or_raise.
  destruct (bank_get (bank s) k); simpl; [| reflexivity].
  unfold control; simpl. now rewrite current_bank_put.
Qed.

Lemma control_get_plugin_list (args : list Val) : keeps control (get_plugin_list args).
Proof. intro s. reflexivity. Qed.

Lemma control_get_plugin_desc (args : list Val) : keeps control (get_plugin_desc args).
Proof. intro s. reflexivity. Qed.

#[export] Hint Resolve control_mmix_out_send control_osc_send control_enciende_led
  control_apaga_led control_set_led_stat_mix control_set_led_stat_eq
  control_get_plugin_list control_get_plugin_desc : keeps.

Lemma control_get_led_stat_mix (k led : Z) : keeps control (get_led_stat_mix k led).
Proof. unfold get_led_stat_mix. keeps_tac. Qed.

Lemma control_get_led_stat_eq (k led : Z) : keeps control (get_led_stat_eq k led).
Proof. unfold get_led_stat_eq. keeps_tac. Qed.

Lemma control_active_strip_mute : keeps control active_strip_mute.
Proof. unfold active_strip_mute. keeps_tac. Qed.

#[export] Hint Resolve control_get_led_stat_mix control_get_led_stat_eq
  control_active_strip_mute : keeps.

Lemma control_apaga_leds : keeps control apaga_leds.
Proof. unfold apaga_leds. keeps_tac. Qed.

Lemma control_render (d : Py.dict) : keeps control (render d).
Proof. unfold render. keeps_tac. Qed.

#[export] Hint Resolve control_apaga_leds control_render : keeps.

Lemma control_set_led_status : keeps control set_led_status.
Proof. unfold set_led_status. keeps_tac. Qed.

#[export] Hint Resolve control_set_led_status : keeps.

Lemma control_event_recenable (strip_id : Z) (valor : Val) :
  keeps control (event_recenable strip_id valor).
Proof. unfold event_recenable. keeps_tac. Qed.

Lemma control_event_mute (strip_id : Z) (valor : Val) :
  keeps control (event_mute strip_id valor).
Proof. unfold event_mute. keeps_tac. Qed.

Lemma control_load_project (valor : Val) : keeps control (load_project valor).
Proof. unfold load_project. keeps_tac. Qed.

#[export] Hint Resolve control_event_recenable control_event_mute
  control_load_project : keeps.

Lemma control_datagram_received (m : OscIn) : keeps control (datagram_received m).
Proof. unfold datagram_received. keeps_tac. Qed.

Lemma control_deliver (m : OscIn) : keeps control (deliver m).
Proof. intro s. apply control_datagram_received. Qed.

#[export] Hint Resolve control_deliver : keeps.

Lemma control_sleep (arrivals : list OscIn) : keeps control (sleep arrivals).
Proof. unfold sleep. keeps_tac. Qed.

Lemma control_descriptor_pass : keeps control descriptor_pass.
Proof. unfold descriptor_pass. keeps_tac. Qed.

#[export] Hint Resolve control_sleep control_descriptor_pass : keeps.

Lemma control_trigger_mute (led_id : Z) : keeps control (trigger_mute led_id).
Proof. unfold trigger_mute. keeps_tac. Qed.

Lemma control_trigger_rec (led_id : Z) (strip_id : option Z) :
  keeps control (trigger_rec led_id strip_id).
Proof. unfold trigger_rec. keeps_tac. Qed.

Lemma control_operar_led (led_id : Z) : keeps control (operar_led led_id).
Proof. unfold operar_led. keeps_tac. Qed.

#[export] Hint Resolve control_trigger_mute control_trigger_rec control_operar_led : keeps.

Lemma control_mixer_press (note : Z) : keeps control (mixer_press note).
Proof. unfold mixer_press. keeps_tac. Qed.

Lemma control_eq_press (note : Z) : keeps control (eq_press note).
Proof. unfold eq_press. keeps_tac. Qed.

Lemma control_on_control_change (c v : Z) : keeps control (on_control_change c v).
Proof. unfold on_control_change. keeps_tac. Qed.

#[export] Hint Resolve control_mixer_press control_eq_press control_on_control_change : keeps.

(** *** The bank index alone *)

Lemma keeps_control_bank_index {A : Type} (c : M A) :
  keeps control c -> keeps bank_index c.
Proof.
  intros H s. specialize (H s). unfold control in H.
  unfold bank_index. congruence.
Qed.

Lemma keeps_control_operation {A : Type} (c : M A) :
  keeps control c -> keeps operation c.
Proof. intros H s. specialize (H s). unfold control in H. congruence. Qed.

Lemma keeps_control_note_press {A : Type} (c : M A) :
  keeps control c -> keeps note_press c.
Proof. intros H s. specialize (H s). unfold control in H. congruence. Qed.

#[export] Hint Resolve keeps_control_bank_index keeps_control_operation
  keeps_control_note_press : keeps.

(** What follows a computation does not matter for a part it keeps. *)
Lemma exec_bind_keeps {A B X : Type} (proj : State -> X) (c : M A) (k : A -> M B) s :
  (forall a, keeps proj (k a)) ->
  proj (exec (bind c k) s) = proj (exec c s).
Proof.
  intro Hk. unfold exec, bind.
  destruct (c s) as [[a | e] s']; simpl; [apply Hk | reflexivity].
Qed.

Lemma bank_index_set_mixer_mode : keeps bank_index set_mixer_mode.
Proof. unfold set_mixer_mode. keeps_tac. Qed.

#[export] Hint Resolve bank_index_set_mixer_mode : keeps.

Lemma bank_index_search_eq_strip (strip_id : Z) (w : Waits) :
  keeps bank_index (search_eq_strip strip_id w).
Proof. unfold search_eq_strip. keeps_tac. Qed.

Lemma bank_index_espera_indice_modulo_eq (note : Z) (w : Waits) :
  keeps bank_index (espera_indice_modulo_eq note w).
Proof. unfold espera_indice_modulo_eq. keeps_tac. Qed.

#[export] Hint Resolve bank_index_search_eq_strip
  bank_index_espera_indice_modulo_eq : keeps.

Lemma bank_index_solo_chord (note : Z) (w : Waits) :
  keeps bank_index (solo_chord note w).
Proof. unfold solo_chord, enter_eq. keeps_tac. Qed.

Lemma bank_index_on_note_off (note : Z) : keeps bank_index (on_note_off note).
Proof. unfold on_note_off. keeps_tac. Qed.

#[export] Hint Resolve bank_index_solo_chord bank_index_on_note_off : keeps.

(** One surface event moves the bank index by at most one, and never out of
    the range 0..2. *)
Lemma bank_index_step (msg : MidiIn) (w : Waits) (s : State) :
  let c := bank_index s in
  let c' := bank_index (exec (surface_callback msg w) s) in
  c' = c \/ (0 < c /\ c' = c - 1) \/ (c < 2 /\ c' = c + 1).
Proof.
  cbv zeta. unfold surface_callback.
  rewrite exec_bind_keeps by (intros []; destruct msg; keeps_tac).
  destruct msg as [note | note | control value |];
    try (left; reflexivity).
  assert (Hp : forall body s0,
             bank_index (exec (try_print body) s0) = bank_index (exec body s0)).
  { intros body s0. unfold exec, try_print.
    destruct (body s0) as [[a | e] s']; reflexivity. }
  rewrite Hp. unfold on_note_on.
  change (exec (bind get_state ?k) s) with (exec (k s) s).
  cbv beta.
destruct (np_state (note_press s)).
  - destruct (match np_note (note_press s) with Some n => n =? b_solo | None => false end).
    + destruct (Py.contains (note - 1) mutes).
      * left. apply bank_index_solo_chord.
      * left. reflexivity.
    + left. reflexivity.
  - assert (Hpress :
      let c' := bank_index (exec
        (if note =? b_left then
           (if 0 <? current (bank s)
            then modify (fun s => with_bank s
                   (with_current (bank s) (current (bank s) - 1)))
            else ret tt) ;;
           set_led_status
         else if note =? b_right then
           (if current (bank s) <? 2
            then modify (fun s => with_bank s
                   (with_current (bank s) (current (bank s) + 1)))
            else ret tt) ;;
           set_led_status
         else
           modify (fun s => with_note_press s (mkNotePress (Some note) true)) ;;
           match op_mode (operation s) with
           | mixer => mixer_press note
           | EQ => eq_press note
           | read_keypress => ret tt
           end) s) in
      c' = bank_index s \/ (0 < bank_index s /\ c' = bank_index s - 1)
      \/ (bank_index s < 2 /\ c' = bank_index s + 1)).
    { cbv zeta. destruct (note =? b_left); [| destruct (note =? b_right)].
      - rewrite exec_bind_keeps by (intro; auto with keeps).
        destruct (0 <? current (bank s)) eqn:Hc.
        + right; left. apply Z.ltb_lt in Hc. split; [exact Hc | reflexivity].
        + left. reflexivity.
      - rewrite exec_bind_keeps by (intro; auto with keeps).
        destruct (current (bank s) <? 2) eqn:Hc.
        + right; right. apply Z.ltb_lt in Hc. split; [exact Hc | reflexivity].
        + left. reflexivity.
      - left. rewrite exec_bind_keeps; [reflexivity |].
        intro. destruct (op_mode (operation s)); keeps_tac. }
    destruct (op_mode (operation s)) eqn:Hm.
    + exact Hpress.
    + exact Hpress.
    + left. apply bank_index_espera_indice_modulo_eq.
Qed.

(** The bank index stays within 0..2 along every run of events. *)
Lemma bank_index_in_range (evs : list Event) (s : State) :
  0 <= bank_index s <= 2 -> 0 <= bank_index (after evs s) <= 2.
Proof.
  revert s. induction evs as [| ev evs IH]; intros s Hs; simpl.
  - exact Hs.
  - apply IH. destruct ev as [msg w | m]; simpl.
    + pose proof (bank_index_step msg w s) as H. cbv zeta in H. lia.
    + now rewrite (keeps_control_bank_index _ (control_deliver m)).
Qed.

Lemma keeps_control_chord_and_operation {A : Type} (c : M A) :
  keeps control c -> keeps chord_and_operation c.
Proof.
  intros H s. specialize (H s). unfold control in H.
  unfold chord_and_operation. congruence.
Qed.

#[export] Hint Resolve keeps_control_chord_and_operation : keeps.

Lemma ready_chord_and_operation (s s' : State) :
  chord_and_operation s' = chord_and_operation s -> ready s' = ready s.
Proof. unfold chord_and_operation, ready. intro H. now inversion H. Qed.

(** A bank press in a ready state: the index follows the rule, and the state
    stays ready. *)
Lemma bank_press_effect (note : Z) (w : Waits) (s : State) :
  ready s = true -> is_bank_button note = true -> 0 <= bank_index s <= 2 ->
  let s' := exec (surface_callback (note_on note) w) s in
  bank_index s' = bank_after_press note (bank_index s)
  /\ chord_and_operation s' = chord_and_operation s.
Proof.
  intros Hr Hn Hc. cbv zeta.
  unfold ready in Hr. apply andb_true_iff in Hr as [Hheld Hmode].
  apply negb_true_iff in Hheld.
  assert (Hp : forall (X : Type) (proj : State -> X) body s0,
             (forall s p, proj (with_printed s p) = proj s) ->
             proj (exec (try_print body) s0) = proj (exec body s0)).
  { intros X proj body s0 Hpr. unfold exec, try_print.
    destruct (body s0) as [[a | e] s']; simpl; [reflexivity | apply Hpr]. }
  unfold surface_callback.
  rewrite !exec_bind_keeps by (intros []; keeps_tac).
  rewrite !Hp by reflexivity.
  unfold on_note_on.
  change (exec (bind get_state ?k) s) with (exec (k s) s). cbv beta.
  rewrite Hheld.
  unfold is_bank_button in Hn. unfold bank_after_press, bank_index in *.
  assert (Hleft :
    bank_index (exec ((if 0 <? current (bank s)
                       then modify (fun s => with_bank s
                              (with_current (bank s) (current (bank s) - 1)))
                       else ret tt) ;; set_led_status) s)
    = (if current (bank s) =? 0 then 0 else current (bank s) - 1)
    /\ chord_and_operation (exec ((if 0 <? current (bank s)
                       then modify (fun s => with_bank s
                              (with_current (bank s) (current (bank s) - 1)))
                       else ret tt) ;; set_led_status) s)
       = chord_and_operation s).
  { rewrite !exec_bind_keeps by (intro; auto with keeps).
    destruct (Z.ltb_spec 0 (current (bank s)));
      destruct (Z.eqb_spec (current (bank s)) 0);
      (split; [unfold bank_index, exec, ret, modify; simpl; lia | reflexivity]). }
  assert (Hright :
    bank_index (exec ((if current (bank s) <? 2
                       then modify (fun s => with_bank s
                              (with_current (bank s) (current (bank s) + 1)))
                       else ret tt) ;; set_led_status) s)
    = (if current (bank s) =? 2 then 2 else current (bank s) + 1)
    /\ chord_and_operation (exec ((if current (bank s) <? 2
                       then modify (fun s => with_bank s
                              (with_current (bank s) (current (bank s) + 1)))
                       else ret tt) ;; set_led_status) s)
       = chord_and_operation s).
  { rewrite !exec_bind_keeps by (intro; auto with keeps).
    destruct (Z.ltb_spec (current (bank s)) 2);
      destruct (Z.eqb_spec (current (bank s)) 2);
      (split; [unfold bank_index, exec, ret, modify; simpl; lia | reflexivity]). }
  destruct (op_mode (operation s)); try discriminate Hmode;
    (destruct (note =? b_left) eqn:Hl;
     [ exact Hleft
     | destruct (note =? b_right) eqn:Hrt; [exact Hright | discriminate Hn] ]).
Qed.

(** ** The router, branch by branch *)

Lemma surface_callback_note_on (note : Z) (w : Waits) (s : State) :
  surface_callback (note_on note) w s = try_print (on_note_on note w) s.
Proof.
  unfold surface_callback, bind, try_print.
  destruct (on_note_on note w s) as [[[] | e] s']; reflexivity.
Qed.

Lemma surface_callback_note_off (note : Z) (w : Waits) (s : State) :
  surface_callback (note_off note) w s = on_note_off note s.
Proof. reflexivity. Qed.

Lemma surface_callback_control_change (control value : Z) (w : Waits) (s : State) :
  surface_callback (control_change control value) w s
  = on_control_change control value s.
Proof. reflexivity. Qed.

Lemma bind_get_state {A : Type} (k : State -> M A) (s : State) :
  bind get_state k s = k s s.
Proof. reflexivity. Qed.

(** ** The bank index *)

(** C7: the bank index is always within 0..2. Along any run of bank-left and
    bank-right presses (from a state with no key held and no key press
    awaited) a bank-down press at 0 leaves it at 0, a bank-up press at 2
    leaves it at 2, and every other press moves it by exactly one; and along
    any run of events whatever the index stays within 0..2. *)
Theorem bank_index_clamped (presses : list Z) (w : Waits) (s : State) :
  ready s = true ->
  forallb is_bank_button presses = true ->
  0 <= bank_index s <= 2 ->
  bank_index (after (map (fun note => surface (note_on note) w) presses) s)
  = clamped_walk (bank_index s) presses
  /\ forall evs, 0 <= bank_index (after evs s) <= 2.
Proof.
  intros Hr Hp Hc. split; [| intro evs; now apply bank_index_in_range].
  revert s Hr Hc. induction presses as [| note presses IH]; intros s Hr Hc.
  - reflexivity.
  - simpl in Hp. apply andb_true_iff in Hp as [Hn Hp].
    destruct (bank_press_effect note w s Hr Hn Hc) as [Hi Hk].
    simpl. unfold clamped_walk in *. simpl. rewrite <- Hi.
    apply IH.
    + exact Hp.
    + rewrite <- Hr. now apply ready_chord_and_operation.
    + exact (bank_index_in_range [surface (note_on note) w] s Hc).
Qed.

Lemma bank_index_clamped_witness :
  bank_index (after (map (fun note => surface (note_on note) quiet)
                         [b_left; b_right; b_right; b_right; b_left])
                    initial_state)
  = clamped_walk (bank_index initial_state) [b_left; b_right; b_right; b_right; b_left]
  /\ forall evs, 0 <= bank_index (after evs initial_state) <= 2.
Proof.
  apply bank_index_clamped;
    [reflexivity | reflexivity | unfold bank_index; simpl; lia].
Defined.

(** ** A held key *)

(** C10: while a key other than Solo is tracked as held, a further note-on
    (any note: bank-left, bank-right, mute, rec or other) sends no command,
    writes no LED and changes no part of the state; the note-off of the held
    key ends the hold. *)
Theorem held_key_blocks_presses (s : State) (note : Z) (w : Waits) :
  held_other_than_solo s = true ->
  surface_callback (note_on note) w s = (Ok tt, s)
  /\ forall held, np_note (note_press s) = Some held ->
       note_press (exec (surface_callback (note_off held) w) s)
       = mkNotePress None false.
Proof.
  intro H. unfold held_other_than_solo in H.
  apply andb_true_iff in H as [Hst Hn]. apply negb_true_iff in Hn.
  split.
  - rewrite surface_callback_note_on. unfold try_print, on_note_on.
    rewrite bind_get_state, Hst, Hn. reflexivity.
  - intros held Hh.
    unfold exec. rewrite surface_callback_note_off. unfold on_note_off.
    rewrite bind_get_state, Hh, Z.eqb_refl. reflexivity.
Qed.

Lemma held_key_blocks_presses_witness :
  let s := exec (surface_callback (note_on 1) quiet) initial_state in
  surface_callback (note_on b_left) quiet s = (Ok tt, s)
  /\ forall held, np_note (note_press s) = Some held ->
       note_press (exec (surface_callback (note_off held) quiet) s)
       = mkNotePress None false.
Proof.
  apply held_key_blocks_presses. reflexivity.
Defined.

(** ** Faders and knobs in mixer mode *)

Lemma contains_In (x : Z) (t : list Z) : Py.contains x t = true <-> In x t.
Proof.
  induction t as [| y t IH]; simpl.
  - split; [discriminate | contradiction].
  - destruct (Z.eqb_spec x y) as [-> | Hne].
    + split; auto.
    + rewrite IH. split; [auto | intros [H | H]; [congruence | exact H]].
Qed.

Lemma fader_facts (c : Z) :
  In c faders ->
  Py.contains c faders = true /\ Py.contains c knobs = false
  /\ exists i, Py.index c faders = Some i /\ 0 <= i <= 8 /\ (i = 8 <-> c = 62).
Proof.
  intro H. simpl in H.
  repeat (destruct H as [<- | H];
          [ vm_compute; repeat split; try discriminate;
            eexists; repeat split; try reflexivity; try discriminate
          | ]).
  contradiction.
Qed.

(** C9: in mixer mode, for a raw value v in 0..127, a fader other than the
    master sends /strip/fader for the strip of the current bank it sits on,
    with level 0.0 + 0.79 * (v / 100), and the master fader (62) sends
    /master/gain with -193 + 1.622 * v; nothing else is sent or changed. *)
Theorem fader_commands (s : State) (c v : Z) (w : Waits) :
  op_mode (operation s) = mixer ->
  Py.contains c faders = true ->
  0 <= v <= 127 ->
  exists i,
    Py.index c faders = Some i
    /\ surface_callback (control_change c v) w s
       = (Ok tt,
          with_osc_sent s
            (osc_sent s ++
             [if c =? 62
              then mkOscOut "/master/gain"
                     [VFloat (-193 + 1.622 * Py.float_of_Z v)%float]
              else mkOscOut "/strip/fader"
                     [VInt ((i + 1) + 8 * bank_index s);
                      VFloat (0.0 + 0.79 * (Py.float_of_Z v / 100))%float]])).
Proof.
  intros Hm Hc _. apply contains_In in Hc.
  destruct (fader_facts c Hc) as (Hf & Hk & i & Hi & _ & H62).
  exists i. split; [exact Hi |].
  rewrite surface_callback_control_change. unfold on_control_change.
  rewrite bind_get_state, Hm, Hf, Hk, Hi.
  destruct (c =? 62); reflexivity.
Qed.

Lemma fader_commands_witness :
  exists i,
    Py.index 27 faders = Some i
    /\ surface_callback (control_change 27 100) quiet initial_state
       = (Ok tt,
          with_osc_sent initial_state
            (osc_sent initial_state ++
             [if 27 =? 62
              then mkOscOut "/master/gain"
                     [VFloat (-193 + 1.622 * Py.float_of_Z 100)%float]
              else mkOscOut "/strip/fader"
                     [VInt ((i + 1) + 8 * bank_index initial_state);
                      VFloat (0.0 + 0.79 * (Py.float_of_Z 100 / 100))%float]])).
Proof.
  apply (fader_commands initial_state 27 100 quiet);
    [reflexivity | reflexivity | lia].
Defined.

Lemma knob_facts (c : Z) :
  In c knobs ->
  Py.contains c faders = false /\ Py.contains c knobs = true
  /\ exists i, Py.index c knobs = Some i
               /\ Py.int_of_float (Py.float_of_Z i / 3 + 1)%float = Some (i / 3 + 1)
               /\ knob_role i = Some (role_at i).
Proof.
  intro H. simpl in H.
  repeat (destruct H as [<- | H];
          [ split; [vm_compute; reflexivity |];
            split; [vm_compute; reflexivity |];
            eexists; split; [vm_compute; reflexivity |];
            split; vm_compute; reflexivity
          | ]).
  contradiction.
Qed.

(** C8: in mixer mode the role of a knob is decided by the fractional part
    of (position / 3): none is trim, one third is pan, two thirds is solo.
    Over the 24 knob identities, all distinct, this gives 8 trim, 8 pan and
    8 solo knobs, each identity with one role; a knob sends the one command
    of its role for its strip, and a solo knob sends 1.0 exactly when the
    raw value is above 90 and 0.0 otherwise. *)
Theorem knob_roles_partition (s : State) (c v : Z) (w : Waits) :
  op_mode (operation s) = mixer ->
  Py.contains c knobs = true ->
  (length knobs = 24 /\ NoDup knobs
   /\ length (knobs_with role_trim) = 8
   /\ length (knobs_with role_pan) = 8
   /\ length (knobs_with role_solo) = 8)%nat
  /\ exists i,
       Py.index c knobs = Some i
       /\ role_of c = Some (role_at i)
       /\ surface_callback (control_change c v) w s
          = (Ok tt,
             with_osc_sent s
               (osc_sent s ++
                [match role_at i with
                 | role_trim =>
                     mkOscOut "/strip/trimdB"
                       [VInt (i / 3 + 1 + 8 * bank_index s);
                        VFloat (-20.0 + 0.31496 * Py.float_of_Z v)%float]
                 | role_pan =>
                     mkOscOut "/strip/pan_stereo_position"
                       [VInt (i / 3 + 1 + 8 * bank_index s);
                        VFloat (1.0 - 0.00787 * Py.float_of_Z v)%float]
                 | role_solo =>
                     mkOscOut "/strip/solo"
                       [VInt (i / 3 + 1 + 8 * bank_index s);
                        VFloat (if 90 <? v then 1.0%float else 0.0%float)]
                 end])).
Proof.
  intros Hm Hc. split.
  - repeat split; try (vm_compute; reflexivity).
    unfold knobs.
    repeat (constructor; [simpl; intuition discriminate |]).
    constructor.
  - apply contains_In in Hc.
    destruct (knob_facts c Hc) as (Hf & Hk & i & Hi & Hn & Hr).
    exists i. split; [exact Hi |]. split.
    + unfold role_of. rewrite Hi. exact Hr.
    + rewrite surface_callback_control_change. unfold on_control_change.
      rewrite bind_get_state, Hm, Hf, Hk, Hi.
      unfold bind at 1. unfold ret at 1. cbv beta iota.
      unfold bind at 1. unfold or_raise at 1, ret at 1. cbv beta iota.
      rewrite Hn.
      unfold bind at 1. unfold or_raise at 1, ret at 1. cbv beta iota.
      rewrite Hr.
      destruct (role_at i); reflexivity.
Qed.

Lemma knob_roles_partition_witness :
  (length knobs = 24 /\ NoDup knobs
   /\ length (knobs_with role_trim) = 8
   /\ length (knobs_with role_pan) = 8
   /\ length (knobs_with role_solo) = 8)%nat
  /\ exists i,
       Py.index 60 knobs = Some i
       /\ role_of 60 = Some (role_at i)
       /\ surface_callback (control_change 60 91) quiet initial_state
          = (Ok tt,
             with_osc_sent initial_state
               (osc_sent initial_state ++
                [match role_at i with
                 | role_trim =>
                     mkOscOut "/strip/trimdB"
                       [VInt (i / 3 + 1 + 8 * bank_index initial_state);
                        VFloat (-20.0 + 0.31496 * Py.float_of_Z 91)%float]
                 | role_pan =>
                     mkOscOut "/strip/pan_stereo_position"
                       [VInt (i / 3 + 1 + 8 * bank_index initial_state);
                        VFloat (1.0 - 0.00787 * Py.float_of_Z 91)%float]
                 | role_solo =>
                     mkOscOut "/strip/solo"
                       [VInt (i / 3 + 1 + 8 * bank_index initial_state);
                        VFloat (if 90 <? 91 then 1.0%float else 0.0%float)]
                 end])).
Proof.
  apply (knob_roles_partition initial_state 60 91 quiet); reflexivity.
Defined.

(** ** The EQ mirror and the feedback of the console *)

Lemma get_set_same (d : Py.dict) (k : Z) (v : bool) :
  Py.get (Py.set d k v) k = Some v.
Proof.
  induction d as [| [k' v'] d IH]; simpl.
  - now rewrite Z.eqb_refl.
  - destruct (k =? k') eqn:E; simpl; rewrite E; [reflexivity | exact IH].
Qed.

Lemma get_set_other (d : Py.dict) (k k' : Z) (v : bool) :
  k <> k' -> Py.get (Py.set d k' v) k = Py.get d k.
Proof.
  intro Hne. induction d as [| [k0 v0] d IH]; simpl.
  - destruct (Z.eqb_spec k k'); [contradiction | reflexivity].
  - destruct (Z.eqb_spec k' k0) as [-> | Hk]; simpl.
    + destruct (Z.eqb_spec k k0); [contradiction | reflexivity].
    + destruct (k =? k0); [reflexivity | exact IH].
Qed.

Lemma bank_put_get (b : Bank) (k : Z) (l0 l : BankLeds) (k' : Z) :
  bank_get b k = Some l0 ->
  bank_get (bank_put b k l) k' = if k' =? k then Some l else bank_get b k'.
Proof.
  unfold bank_get, bank_put. intro H.
  destruct (Z.eqb_spec k 0) as [-> | H0]; simpl.
  { destruct (Z.eqb_spec k' 0); reflexivity. }
  destruct (Z.eqb_spec k 1) as [-> | H1]; simpl.
  { destruct (Z.eqb_spec k' 0); [subst; reflexivity |].
    destruct (Z.eqb_spec k' 1); reflexivity. }
  destruct (Z.eqb_spec k 2) as [-> | H2]; simpl.
  { destruct (Z.eqb_spec k' 0); [subst; reflexivity |].
    destruct (Z.eqb_spec k' 1); [subst; reflexivity |].
    destruct (Z.eqb_spec k' 2); reflexivity. }
  discriminate H.
Qed.

Lemma eq_mirrors_set_led_stat_mix (k led : Z) (v : bool) :
  keeps eq_mirrors (set_led_stat_mix k led v).
Proof.
  intro s. unfold set_led_stat_mix, exec. rewrite bind_get_state.
  unfold bank_get, bank_put, eq_mirrors, bind, or_raise, ret, raise, modify.
  destruct (k =? 0); [reflexivity |].
  destruct (k =? 1); [reflexivity |].
  destruct (k =? 2); reflexivity.
Qed.

Lemma eq_mirrors_mmix_out_send (m : MidiOut) : keeps eq_mirrors (mmix_out_send m).
Proof. intro s. reflexivity. Qed.

Lemma eq_mirrors_apaga_led (led : Z) : keeps eq_mirrors (apaga_led led).
Proof. intro s. reflexivity. Qed.

#[export] Hint Resolve eq_mirrors_set_led_stat_mix eq_mirrors_mmix_out_send
  eq_mirrors_apaga_led : keeps.

Lemma eq_mirrors_event_recenable (strip_id : Z) (valor : Val) :
  keeps eq_mirrors (event_recenable strip_id valor).
Proof. unfold event_recenable. keeps_tac. Qed.

Lemma eq_mirrors_load_project (valor : Val) : keeps eq_mirrors (load_project valor).
Proof. unfold load_project, apaga_leds. keeps_tac. Qed.

Section OtherLed.

Variables (k led : Z).
Hypothesis not_21 : led <> 21.

Let this_led (s : State) : option bool := eq_led s k led.

Lemma this_led_set_led_stat_mix (k' led' : Z) (v : bool) :
  keeps this_led (set_led_stat_mix k' led' v).
Proof.
  intro s. unfold set_led_stat_mix, exec. rewrite bind_get_state.
  unfold this_led, eq_led, bind, or_raise, modify.
  destruct (bank_get (bank s) k') as [l0 |] eqn:E; simpl; [| reflexivity].
  rewrite (bank_put_get _ _ l0 _ _ E).
  destruct (Z.eqb_spec k k') as [-> | Hne]; [rewrite E |]; reflexivity.
Qed.

Lemma this_led_set_led_stat_eq_21 (k' : Z) (v : bool) :
  keeps this_led (set_led_stat_eq k' 21 v).
Proof.
  intro s. unfold set_led_stat_eq, exec. rewrite bind_get_state.
  unfold this_led, eq_led, bind, or_raise, modify.
  destruct (bank_get (bank s) k') as [l0 |] eqn:E; simpl; [| reflexivity].
  rewrite (bank_put_get _ _ l0 _ _ E).
  destruct (Z.eqb_spec k k') as [-> | Hne]; [rewrite E; simpl |]; [| reflexivity].
  now apply get_set_other.
Qed.

Lemma this_led_mmix_out_send (m : MidiOut) : keeps this_led (mmix_out_send m).
Proof. intro s. reflexivity. Qed.

Lemma this_led_apaga_led (l : Z) : keeps this_led (apaga_led l).
Proof. intro s. reflexivity. Qed.

Lemma this_led_datagram_received (m : OscIn) : keeps this_led (datagram_received m).
Proof.
  pose proof this_led_set_led_stat_mix. pose proof this_led_set_led_stat_eq_21.
  pose proof this_led_mmix_out_send. pose proof this_led_apaga_led.
  unfold datagram_received, event_recenable, event_mute, load_project, apaga_leds,
    get_plugin_list, get_plugin_desc.
  keeps_tac; auto.
Qed.

End OtherLed.

(** C4, as the code has it: of the handlers of console messages, the mute
    feedback alone writes an EQ mirror, and of it only key 21; the list,
    descriptor, rec-enable and project handlers leave the EQ mirror of every
    bank as it was. *)
Theorem console_feedback_and_eq_mirror (m : OscIn) (s : State) :
  ((in_path m =? "/strip/mute")%string = false ->
   eq_mirrors (exec (deliver m) s) = eq_mirrors s)
  /\ forall k led, (led =? 21) = false ->
       eq_led (exec (deliver m) s) k led = eq_led s k led.
Proof.
  split.
  - intro Hp.
    change (exec (deliver m) s) with (exec (datagram_received m) s).
    revert s. change (keeps eq_mirrors (datagram_received m)).
    unfold datagram_received. rewrite Hp.
    pose proof eq_mirrors_event_recenable. pose proof eq_mirrors_load_project.
    unfold get_plugin_list, get_plugin_desc.
    keeps_tac; auto.
  - intros k led Hl. apply Z.eqb_neq in Hl.
    exact (this_led_datagram_received k led Hl m s).
Qed.

Lemma console_feedback_and_eq_mirror_witness :
  let m := mkOscIn peer "/strip/recenable" [VInt 9; VFloat 1] in
  eq_mirrors (exec (deliver m) initial_state) = eq_mirrors initial_state
  /\ eq_led (exec (deliver m) initial_state) 1 3 = eq_led initial_state 1 3.
Proof.
  intro m.
  destruct (console_feedback_and_eq_mirror m initial_state) as [H1 H2].
  split; [apply H1; reflexivity | apply H2; reflexivity].
Defined.

(** C4, as it was claimed, fails: a mute feedback for strip 1 turns key 21 of
    the EQ mirror of bank 0 on. *)
Lemma mute_feedback_writes_eq_mirror :
  let m := mkOscIn peer "/strip/mute" [VInt 1; VFloat 1] in
  eq_mirrors (exec (deliver m) initial_state) <> eq_mirrors initial_state
  /\ eq_led initial_state 0 21 = Some false
  /\ eq_led (exec (deliver m) initial_state) 0 21 = Some true.
Proof.
  intro m. split; [| split; reflexivity].
  vm_compute. intro H. discriminate H.
Qed.

(** ** Pressing a mute or rec button twice *)

Ltac run_py H :=
  cbv -[Py.get Py.set app]; rewrite ?H;
  cbv -[Py.get Py.set app]; rewrite ?get_set_same;
  cbv -[Py.get Py.set app].

(** One press of a mute or rec button in mixer mode, no key held: one
    command goes out, carrying the opposite of the mirror entry, and the
    mirror entry ends as it began. *)
Lemma toggle_press_once (s : State) (c : Z) (v : bool) (w : Waits) :
  op_mode (operation s) = mixer ->
  np_state (note_press s) = false ->
  0 <= bank_index s <= 2 ->
  is_toggle_button c = true ->
  mix_led s (bank_index s) c = Some v ->
  let s' := exec (surface_callback (note_on c) w) s in
  operation s' = operation s
  /\ note_press s' = mkNotePress (Some c) true
  /\ bank_index s' = bank_index s
  /\ mix_led s' (bank_index s) c = Some v
  /\ osc_sent s'
     = (osc_sent s ++ [toggle_command c (toggle_strip c (bank_index s))
                                      (if v then 0 else 1)])%list.
Proof.
  intros Hm Hn Hb Hc Hv.
  destruct s as [[n st] [m strip pp] pl pd
                 [cur [mix0 eq0] [mix1 eq1] [mix2 eq2]] osc midi pr].
  unfold bank_index in *. simpl in Hm, Hn, Hb, Hv |- *. subst m st.
  unfold is_toggle_button in Hc. apply orb_true_iff in Hc.
  rewrite !contains_In in Hc. rewrite <- in_app_iff in Hc.
  assert (Hcur : cur = 0 \/ cur = 1 \/ cur = 2) by lia.
  destruct Hcur as [-> | [-> | ->]];
    unfold mix_led in Hv; simpl in Hv, Hc;
    repeat (destruct Hc as [<- | Hc];
            [ destruct v; run_py Hv;
              rewrite ?get_set_same; repeat split; reflexivity
            | ]);
    contradiction.
Qed.

Lemma note_off_releases (s : State) (c : Z) (w : Waits) :
  np_note (note_press s) = Some c ->
  exec (surface_callback (note_off c) w) s
  = with_note_press s (mkNotePress None false).
Proof.
  intro H. unfold exec. rewrite surface_callback_note_off. unfold on_note_off.
  rewrite bind_get_state, H, Z.eqb_refl. reflexivity.
Qed.

(** C1, on the code: in mixer mode with no key held, pressing a mute or rec
    button, releasing it and pressing it again leaves its entry of the mixer
    mirror at the value it had, but the two commands sent carry the same
    value, not opposite ones: the press writes the new value to the mirror
    and the LED update that follows writes the old one back. *)
Theorem double_press_repeats_command
    (s : State) (c : Z) (v : bool) (w1 w2 w3 : Waits) :
  op_mode (operation s) = mixer ->
  np_state (note_press s) = false ->
  0 <= bank_index s <= 2 ->
  is_toggle_button c = true ->
  mix_led s (bank_index s) c = Some v ->
  let s' := after [surface (note_on c) w1; surface (note_off c) w2;
                   surface (note_on c) w3] s in
  mix_led s' (bank_index s) c = Some v
  /\ exists strip,
       osc_sent s'
       = (osc_sent s ++ [toggle_command c strip (if v then 0 else 1);
                         toggle_command c strip (if v then 0 else 1)])%list.
Proof.
  intros Hm Hn Hb Hc Hv. cbv zeta. simpl after. unfold step.
  destruct (toggle_press_once s c v w1 Hm Hn Hb Hc Hv)
    as (Ho1 & Hn1 & Hb1 & Hv1 & Hs1).
  set (s1 := exec (surface_callback (note_on c) w1) s) in *.
  rewrite (note_off_releases s1 c w2) by (rewrite Hn1; reflexivity).
  set (s2 := with_note_press s1 (mkNotePress None false)).
  assert (Hm2 : op_mode (operation s2) = mixer)
    by (change (operation s2) with (operation s1); now rewrite Ho1).
  assert (Hb2 : bank_index s2 = bank_index s) by exact Hb1.
  assert (Hr : 0 <= bank_index s2 <= 2) by (rewrite Hb2; exact Hb).
  assert (Hv2 : mix_led s2 (bank_index s2) c = Some v)
    by (rewrite Hb2; exact Hv1).
  destruct (toggle_press_once s2 c v w3 Hm2 eq_refl Hr Hc Hv2)
    as (_ & _ & _ & Hv3 & Hs3).
  rewrite Hb2 in Hv3, Hs3. split; [exact Hv3 |].
  exists (toggle_strip c (bank_index s)).
  rewrite Hs3. change (osc_sent s2) with (osc_sent s1).
  rewrite Hs1, <- app_assoc. reflexivity.
Qed.

Lemma double_press_repeats_command_witness :
  let s' := after [surface (note_on 1) quiet; surface (note_off 1) quiet;
                   surface (note_on 1) quiet] initial_state in
  mix_led s' (bank_index initial_state) 1 = Some false
  /\ exists strip,
       osc_sent s'
       = (osc_sent initial_state ++ [toggle_command 1 strip 1;
                                     toggle_command 1 strip 1])%list.
Proof.
  apply (double_press_repeats_command initial_state 1 false quiet quiet quiet);
    [reflexivity | reflexivity | unfold bank_index; simpl; lia
    | reflexivity | reflexivity].
Defined.

(** ** Continuous controls in EQ mode *)

(** C2, on the code: in EQ mode a control change for a control that is none
    of 62, 18 and 60 and has no entry in [eq_fad_knob] raises KeyError out of
    the router; the control_change branch is outside the try. *)
Theorem eq_mode_unmapped_control_raises (s : State) (c v : Z) (w : Waits) :
  op_mode (operation s) = EQ ->
  unmapped_in_eq c = true ->
  surface_callback (control_change c v) w s = (Raised Py.KeyError, s).
Proof.
  intros Hm Hc. unfold unmapped_in_eq in Hc.
  repeat (apply andb_true_iff in Hc as [Hc ?]).
  rewrite negb_true_iff in *.
  rewrite surface_callback_control_change. unfold on_control_change.
  rewrite bind_get_state, Hm.
  destruct (eq_fad_knob c); [discriminate |].
  repeat match goal with H : (c =? _) = false |- _ => rewrite H; clear H end.
  reflexivity.
Qed.

Lemma eq_mode_unmapped_control_raises_witness :
  let s := after enter_eq_on_strip_1 initial_state in
  surface_callback (control_change 23 64) quiet s = (Raised Py.KeyError, s).
Proof.
  apply eq_mode_unmapped_control_raises; reflexivity.
Defined.

(** ** The discovery buffers *)

(** C3, on the code: the buffers are not emptied around a query. After the
    chord on strip 1 was answered and its result used, both buffers still
    hold the replies. A chord on strip 2 that the console does not answer
    then reads them: it enters EQ mode on strip 2 at the position listed for
    strip 1 and seeds the Enable LED from the descriptor of strip 1, where
    with empty buffers it falls back to the mixer. And after a key-press
    selection the descriptor buffer is emptied but the list buffer is not. *)
Theorem discovery_buffers_outlive_query :
  let s1 := after enter_eq_on_strip_1 initial_state in
  let s2 := after [surface (note_on 5) quiet] s1 in
  let fresh := with_plugin_desc (with_plugin_list s1 []) [] in
  let s3 := after (await_keypress_on_strip_1
                   ++ [surface (note_off b_solo) quiet;
                       surface (note_on 6)
                         (mkWaits [] [descriptor_reply 1 3 "Enable" (VFloat 1)])])
                  initial_state in
  (plugin_list s1 = peer :: VStr "/strip/plugin/list" :: in_args (list_reply 1 [mono])
   /\ plugin_desc s1
      = [peer :: VStr "/strip/plugin/descriptor"
              :: in_args (descriptor_reply 1 1 "Enable" (VFloat 1))])
  /\ (operation s2 = mkOperation EQ (Some 2) (pos_int 1)
      /\ eq_led s2 0 3 = Some true
      /\ plugin_list s2 = plugin_list s1 /\ plugin_desc s2 = plugin_desc s1)
  /\ operation (after [surface (note_on 5) quiet] fresh)
     = mkOperation mixer None pos_none
  /\ (operation s3 = mkOperation EQ (Some 1) (pos_int 3)
      /\ plugin_desc s3 = []
      /\ plugin_list s3
         = peer :: VStr "/strip/plugin/list"
                :: in_args (list_reply 1 [mono; "a-comp"; mono; mono])).
Proof. vm_compute. repeat split. Qed.

(** ** The Solo chord *)

Lemma preserves_bind {A B : Type} (I : State -> Prop) (c : M A) (k : A -> M B) :
  preserves I c -> (forall a, preserves I (k a)) -> preserves I (bind c k).
Proof.
  intros Hc Hk s Hs. specialize (Hc s Hs). unfold exec, bind in *.
  destruct (c s) as [[a | e] s']; simpl in *; [now apply Hk | exact Hc].
Qed.

Lemma preserves_keeps {A X : Type} (proj : State -> X) (I : State -> Prop) (c : M A) :
  (forall s s', proj s' = proj s -> I s -> I s') ->
  keeps proj c -> preserves I c.
Proof. intros HI Hc s Hs. exact (HI s _ (Hc s) Hs). Qed.

Lemma operation_set_mixer_mode (s : State) :
  operation (exec set_mixer_mode s) = mkOperation mixer None pos_none.
Proof.
  unfold set_mixer_mode.
  rewrite exec_bind_keeps by (intro; keeps_tac). reflexivity.
Qed.

Lemma keeps_control_held_and_bank {A : Type} (c : M A) :
  keeps control c -> keeps held_and_bank c.
Proof.
  intros H s. specialize (H s). unfold control in H.
  unfold held_and_bank. congruence.
Qed.

#[export] Hint Resolve keeps_control_held_and_bank : keeps.

Lemma held_and_bank_set_mixer_mode : keeps held_and_bank set_mixer_mode.
Proof. unfold set_mixer_mode. keeps_tac. Qed.

#[export] Hint Resolve held_and_bank_set_mixer_mode : keeps.

Lemma held_and_bank_search_eq_strip (strip_id : Z) (w : Waits) :
  keeps held_and_bank (search_eq_strip strip_id w).
Proof. unfold search_eq_strip. keeps_tac. Qed.

#[export] Hint Resolve held_and_bank_search_eq_strip : keeps.

Lemma held_and_bank_solo_chord (note : Z) (w : Waits) :
  keeps held_and_bank (solo_chord note w).
Proof. unfold solo_chord, enter_eq. keeps_tac. Qed.

Lemma preserves_operation_frame {A : Type} (sid : Z) (c : M A) :
  keeps operation c -> preserves (eq_means_strip sid) c.
Proof.
  apply preserves_keeps. intros s s' E. unfold eq_means_strip. now rewrite E.
Qed.

Lemma eq_means_strip_set_mixer_mode (sid : Z) :
  preserves (eq_means_strip sid) set_mixer_mode.
Proof.
  intros s _. unfold eq_means_strip. rewrite operation_set_mixer_mode.
  discriminate.
Qed.

Lemma eq_means_strip_search_eq_strip (sid : Z) (w : Waits) :
  preserves (eq_means_strip sid) (search_eq_strip sid w).
Proof.
  unfold search_eq_strip.
  apply preserves_bind; [apply preserves_operation_frame; auto with keeps | intros _].
  apply preserves_bind; [apply preserves_operation_frame; auto with keeps | intros _].
  apply preserves_bind; [apply preserves_operation_frame; keeps_tac | intros s0].
  destruct (candidates (plugin_list s0)) as [m_pos |].
  - destruct (1 <? Z.of_nat (length m_pos)).
    + destruct (8 <? Z.of_nat (length m_pos)).
      * apply preserves_bind; [apply eq_means_strip_set_mixer_mode | intros _].
        apply preserves_operation_frame; keeps_tac.
      * apply preserves_bind; [| intros _; apply preserves_operation_frame; keeps_tac].
        intros s _. unfold eq_means_strip. discriminate.
    + apply preserves_operation_frame; keeps_tac.
  - apply preserves_bind; [apply eq_means_strip_set_mixer_mode | intros _].
    apply preserves_operation_frame; keeps_tac.
Qed.

(** Solo pressed in mixer mode with no key held: it becomes the held key. *)
Lemma solo_press (s : State) (w : Waits) :
  op_mode (operation s) = mixer ->
  np_state (note_press s) = false ->
  exec (surface_callback (note_on b_solo) w) s
  = with_note_press s (mkNotePress (Some b_solo) true).
Proof.
  intros Hm Hn. unfold exec. rewrite surface_callback_note_on.
  unfold try_print, on_note_on. rewrite bind_get_state, Hn, Hm. reflexivity.
Qed.

(** The chord pressed while Solo is held. *)
Lemma chord_press (s : State) (note : Z) (w : Waits) :
  note_press s = mkNotePress (Some b_solo) true ->
  Py.contains (note - 1) mutes = true ->
  surface_callback (note_on note) w s = try_print (solo_chord note w) s.
Proof.
  intros Hn Hc. rewrite surface_callback_note_on.
  unfold try_print, on_note_on. rewrite bind_get_state, Hn.
  cbn [np_state np_note]. rewrite Z.eqb_refl, Hc. reflexivity.
Qed.

Lemma exec_try_print {X : Type} (proj : State -> X) (body : M unit) (s : State) :
  (forall s p, proj (with_printed s p) = proj s) ->
  proj (exec (try_print body) s) = proj (exec body s).
Proof.
  intro Hp. unfold exec, try_print.
  destruct (body s) as [[a | e] s']; simpl; [reflexivity | apply Hp].
Qed.

Lemma index_of_contained (x : Z) (t : list Z) :
  Py.contains x t = true -> exists i, Py.index x t = Some i.
Proof.
  induction t as [| y t IH]; simpl; [discriminate |].
  destruct (x =? y); [eexists; reflexivity |].
  intro H. destruct (IH H) as [i ->]. eexists; reflexivity.
Qed.

Lemma eq_means_strip_after_search (sid : Z) (w : Waits) :
  preserves (eq_means_strip sid)
    (found <- search_eq_strip sid w ;;
     modify (fun s0 => with_operation s0
       (mkOperation (op_mode (operation s0)) (op_strip (operation s0)) found)) ;;
     match found with
     | pos_none => ret tt
     | _ => enciende_led b_left ;; enciende_led b_right ;; set_led_status
     end).
Proof.
  apply preserves_bind; [apply eq_means_strip_search_eq_strip | intro found].
  apply preserves_bind.
  - intros t Ht. exact Ht.
  - intros _. apply preserves_operation_frame. destruct found; keeps_tac.
Qed.

Lemma eq_means_strip_enter_eq (sid : Z) (w : Waits) (s : State) :
  eq_means_strip sid (exec (enter_eq sid w) s).
Proof.
  exact (eq_means_strip_after_search sid w
           (with_operation s
              (mkOperation EQ (Some sid) (op_plugin_pos (operation s))))
           (fun _ => eq_refl)).
Qed.

(** The chord from mixer mode: the chord state and the bank index stay, and
    if the mode ends as EQ the active strip is the strip of the chord. *)
Lemma chord_enters (s : State) (note i : Z) (w : Waits) :
  op_mode (operation s) = mixer ->
  Py.index (note - 1) mutes = Some i ->
  let s' := exec (solo_chord note w) s in
  held_and_bank s' = held_and_bank s
  /\ eq_means_strip (i + 1 + 8 * bank_index s) s'.
Proof.
  intros Hm Hi. split; [apply held_and_bank_solo_chord |].
  unfold solo_chord, exec. rewrite Hi. unfold or_raise.
  change (bind (ret i) ?k s) with (k i s). cbv beta.
  rewrite bind_get_state, Hm.
  apply eq_means_strip_enter_eq.
Qed.

(** The chord repeated on the active strip: back to the mixer, the operation
    state cleared. *)
Lemma chord_leaves (s : State) (note i : Z) (w : Waits) :
  op_mode (operation s) <> mixer ->
  Py.index (note - 1) mutes = Some i ->
  op_strip (operation s) = Some (i + 1 + 8 * bank_index s) ->
  operation (exec (solo_chord note w) s) = mkOperation mixer None pos_none.
Proof.
  intros Hm Hi Hs.
  unfold solo_chord, exec. rewrite Hi. unfold or_raise.
  change (bind (ret i) ?k s) with (k i s). cbv beta.
  rewrite bind_get_state, Hs. unfold bank_index. rewrite Z.eqb_refl.
  destruct (op_mode (operation s)); [contradiction | |];
    apply operation_set_mixer_mode.
Qed.

(** ** Entering EQ mode and leaving it by the same chord *)

(** C5: from mixer mode with no key held, hold Solo and press the mute button
    of a strip; if that enters EQ mode (for that channel), pressing the same
    chord again returns to mixer mode with the active strip and the module
    position both unset. *)
Theorem chord_twice_returns_to_mixer
    (s : State) (note : Z) (w1 w2 w3 : Waits) :
  op_mode (operation s) = mixer ->
  np_state (note_press s) = false ->
  Py.contains (note - 1) mutes = true ->
  let s2 := after [surface (note_on b_solo) w1; surface (note_on note) w2] s in
  op_mode (operation s2) = EQ ->
  (exists i, Py.index (note - 1) mutes = Some i
             /\ op_strip (operation s2) = Some (i + 1 + 8 * bank_index s))
  /\ operation (after [surface (note_on note) w3] s2)
     = mkOperation mixer None pos_none.
Proof.
  intros Hm Hn Hc. cbv zeta. simpl after. unfold step.
  destruct (index_of_contained _ _ Hc) as [i Hi].
  rewrite (solo_press s w1 Hm Hn).
  set (s1 := with_note_press s (mkNotePress (Some b_solo) true)).
  assert (Hn1 : note_press s1 = mkNotePress (Some b_solo) true) by reflexivity.
  assert (Hm1 : op_mode (operation s1) = mixer) by exact Hm.
  unfold exec at 2. unfold exec at 1.
  change (snd (surface_callback (note_on note) w2 s1))
    with (exec (surface_callback (note_on note) w2) s1).
  set (s2 := exec (surface_callback (note_on note) w2) s1).
  assert (Hs2 : held_and_bank s2 = held_and_bank s1
                /\ eq_means_strip (i + 1 + 8 * bank_index s1) s2).
  { destruct (chord_enters s1 note i w2 Hm1 Hi) as [Hk He].
    unfold s2, exec. rewrite (chord_press s1 note w2 Hn1 Hc).
    split.
    - change (held_and_bank (exec (try_print (solo_chord note w2)) s1)
              = held_and_bank s1).
      rewrite exec_try_print by reflexivity. exact Hk.
    - unfold eq_means_strip.
      change (op_mode (operation (exec (try_print (solo_chord note w2)) s1)) = EQ ->
              op_strip (operation (exec (try_print (solo_chord note w2)) s1))
              = Some (i + 1 + 8 * bank_index s1)).
      rewrite (exec_try_print operation) by reflexivity. exact He. }
  destruct Hs2 as [Hk He]. intro Heq.
  specialize (He Heq).
  change (bank_index s1) with (bank_index s) in He.
  split; [exists i; split; [exact Hi | exact He] |].
  assert (Hn2 : note_press s2 = mkNotePress (Some b_solo) true).
  { unfold held_and_bank in Hk. injection Hk as Ha Hb. exact Ha. }
  assert (Hb2 : bank_index s2 = bank_index s).
  { unfold held_and_bank in Hk. injection Hk as Ha Hb. exact Hb. }
  change (operation (snd (surface_callback (note_on note) w3 s2))
          = mkOperation mixer None pos_none).
  rewrite (chord_press s2 note w3 Hn2 Hc).
  change (operation (exec (try_print (solo_chord note w3)) s2)
          = mkOperation mixer None pos_none).
  rewrite (exec_try_print operation) by reflexivity.
  apply (chord_leaves s2 note i w3).
  - rewrite Heq. discriminate.
  - exact Hi.
  - rewrite Hb2. exact He.
Qed.

Lemma chord_twice_returns_to_mixer_witness :
  let s2 := after enter_eq_on_strip_1 initial_state in
  (exists i, Py.index (2 - 1) mutes = Some i
             /\ op_strip (operation s2) = Some (i + 1 + 8 * bank_index initial_state))
  /\ operation (after [surface (note_on 2) quiet] s2)
     = mkOperation mixer None pos_none.
Proof.
  apply (chord_twice_returns_to_mixer initial_state 2 quiet
           (mkWaits [list_reply 1 [mono]]
                    [descriptor_reply 1 1 "Enable" (VFloat 1)]) quiet);
    reflexivity.
Defined.

(** ** Several equalizers on a strip: the key-press choice *)

Lemma sleep_run (arrivals : list OscIn) (s : State) :
  sleep arrivals s = (Ok tt, exec (sleep arrivals) s).
Proof.
  unfold sleep. revert s. induction arrivals as [| m evs IH]; intro s.
  - reflexivity.
  - change (for_each (m :: evs) deliver s)
      with (for_each evs deliver (exec (deliver m) s)).
    rewrite IH. reflexivity.
Qed.

Lemma for_each_apaga_led (l : list Z) (s : State) :
  for_each l apaga_led s
  = (Ok tt, with_midi_sent s (midi_sent s ++ map led_off l)).
Proof.
  revert s. induction l as [| led l IH]; intro s; simpl.
  - rewrite app_nil_r. destruct s; reflexivity.
  - unfold bind, apaga_led at 1, mmix_out_send, modify. rewrite IH.
    unfold with_midi_sent at 1. simpl. rewrite <- app_assoc. reflexivity.
Qed.

Lemma for_each_enciende_led (l : list Z) (s : State) :
  for_each l enciende_led s
  = (Ok tt, with_midi_sent s (midi_sent s ++ map led_on l)).
Proof.
  revert s. induction l as [| led l IH]; intro s; simpl.
  - rewrite app_nil_r. destruct s; reflexivity.
  - unfold bind, enciende_led at 1, mmix_out_send, modify. rewrite IH.
    unfold with_midi_sent at 1. simpl. rewrite <- app_assoc. reflexivity.
Qed.

Lemma lit_app (t1 t2 : list MidiOut) (led : Z) (was : bool) :
  lit (t1 ++ t2) led was = lit t2 led (lit t1 led was).
Proof.
  revert was. induction t1 as [| m t1 IH]; intro was; simpl;
    [reflexivity | apply IH].
Qed.

Section PluginListFrame.

Let buffer (s : State) : list Val := plugin_list s.

Lemma plugin_list_datagram_other (m : OscIn) :
  (in_path m =? "/strip/plugin/list")%string = false ->
  keeps buffer (datagram_received m).
Proof.
  intro Hp.
  assert (H1 : forall k led v, keeps buffer (set_led_stat_mix k led v)).
  { intros k led v s. unfold set_led_stat_mix, exec. rewrite bind_get_state.
    unfold bind, or_raise, modify.
    destruct (bank_get (bank s) k); reflexivity. }
  assert (H2 : forall k led v, keeps buffer (set_led_stat_eq k led v)).
  { intros k led v s. unfold set_led_stat_eq, exec. rewrite bind_get_state.
    unfold bind, or_raise, modify.
    destruct (bank_get (bank s) k); reflexivity. }
  assert (H3 : forall m0, keeps buffer (mmix_out_send m0)) by (intros m0 s; reflexivity).
  assert (H4 : forall l, keeps buffer (apaga_led l)) by (intros l s; reflexivity).
  unfold datagram_received. rewrite Hp.
  unfold event_recenable, event_mute, load_project, apaga_leds, get_plugin_desc.
  keeps_tac; auto.
Qed.

End PluginListFrame.

Lemma plugin_list_sleep (arrivals : list OscIn) (s : State) :
  plugin_list (exec (sleep arrivals) s) = heard arrivals (plugin_list s).
Proof.
  revert s. induction arrivals as [| m evs IH]; intro s; [reflexivity |].
  change (exec (sleep (m :: evs)) s) with (exec (sleep evs) (exec (deliver m) s)).
  rewrite IH. simpl. f_equal.
  change (exec (deliver m) s) with (exec (datagram_received m) s).
  destruct (in_path m =? "/strip/plugin/list")%string eqn:Hp.
  - unfold datagram_received. rewrite Hp. reflexivity.
  - apply (plugin_list_datagram_other m Hp).
Qed.

Lemma keys_set_known (d : Py.dict) (led : Z) (v : bool) :
  In led (Py.keys d) -> Py.keys (Py.set d led v) = Py.keys d.
Proof.
  induction d as [| [k v0] d IH]; simpl; [contradiction |].
  intros [-> | H].
  - now rewrite Z.eqb_refl.
  - destruct (led =? k); simpl; [reflexivity | now rewrite IH].
Qed.

Lemma getitem_In {A : Type} (t : list A) (i : Z) (x : A) :
  Py.getitem t i = Some x -> In x t.
Proof.
  unfold Py.getitem.
  destruct (i <? 0); [destruct (i + Z.of_nat (length t) <? 0); [discriminate |] |];
    apply nth_error_In.
Qed.

Lemma preserves_ret {A : Type} (I : State -> Prop) (a : A) : preserves I (ret a).
Proof. intros s Hs. exact Hs. Qed.

Lemma preserves_raise {A : Type} (I : State -> Prop) (e : Py.Exn) :
  preserves I (@raise A e).
Proof. intros s Hs. exact Hs. Qed.

Lemma preserves_bind_ret {A B : Type} (I : State -> Prop) (a : A) (k : A -> M B) :
  preserves I (k a) -> preserves I (bind (ret a) k).
Proof. intros H s Hs. exact (H s Hs). Qed.

Lemma preserves_for_each {A : Type} (I : State -> Prop) (l : list A)
    (body : A -> M unit) :
  (forall x, preserves I (body x)) -> preserves I (for_each l body).
Proof.
  intro Hb. induction l as [| x l IH]; simpl.
  - apply preserves_ret.
  - apply preserves_bind; auto.
Qed.

Lemma bank_mmix_out_send (m : MidiOut) : keeps bank (mmix_out_send m).
Proof. intro s. reflexivity. Qed.

Lemma bank_apaga_leds : keeps bank apaga_leds.
Proof.
  assert (H : forall l, keeps bank (apaga_led l)) by (intros l s; reflexivity).
  unfold apaga_leds. keeps_tac; auto.
Qed.

Lemma button_keys_of_bank {A : Type} (c : M A) :
  keeps bank c -> preserves button_keys c.
Proof.
  apply preserves_keeps. intros s s' E. unfold button_keys. now rewrite E.
Qed.

Lemma button_keys_set_led_stat_mix (k led : Z) (v : bool) :
  In led (Py.keys all_off) -> preserves button_keys (set_led_stat_mix k led v).
Proof.
  intros Hl s Hs. unfold set_led_stat_mix, exec. rewrite bind_get_state.
  unfold bind, or_raise, ret, raise, modify, button_keys in *.
  unfold bank_get, bank_put.
  destruct (k =? 0); [| destruct (k =? 1); [| destruct (k =? 2)]];
    simpl; try exact Hs.
  rewrite keys_set_known; [exact Hs | now rewrite Hs].
Qed.

Lemma button_keys_set_led_stat_eq (k led : Z) (v : bool) :
  preserves button_keys (set_led_stat_eq k led v).
Proof.
  intros s Hs. unfold set_led_stat_eq, exec. rewrite bind_get_state.
  unfold bind, or_raise, ret, raise, modify, button_keys in *.
  unfold bank_get, bank_put.
  destruct (k =? 0); [| destruct (k =? 1); [| destruct (k =? 2)]];
    simpl; exact Hs.
Qed.

Lemma recs_are_keys (led : Z) : In led recs -> In led (Py.keys all_off).
Proof. simpl. intuition. Qed.

Lemma mutes_are_keys (led : Z) : In led mutes -> In led (Py.keys all_off).
Proof. simpl. intuition. Qed.

Lemma button_keys_datagram_received (m : OscIn) :
  preserves button_keys (datagram_received m).
Proof.
  unfold datagram_received.
  destruct (in_path m =? "/strip/plugin/list")%string;
    [apply button_keys_of_bank; intro s; reflexivity |].
  destruct (in_path m =? "/strip/plugin/descriptor")%string;
    [apply button_keys_of_bank; intro s; reflexivity |].
  destruct (in_path m =? "/strip/recenable")%string.
  { destruct (in_args m) as [| a args]; [apply preserves_raise |].
    destruct a as [strip_id | | | | |]; try apply preserves_raise.
    destruct args as [| valor args]; [apply preserves_raise |].
    destruct args; [| apply preserves_raise].
    unfold event_recenable.
    destruct (strip_bank_of strip_id <? 3); [| apply preserves_ret].
    destruct (Py.getitem recs (strip_id - 1 - 8 * strip_bank_of strip_id))
      as [led |] eqn:E; [| apply preserves_raise].
    apply getitem_In, recs_are_keys in E.
    unfold or_raise. apply preserves_bind_ret.
    apply preserves_bind.
    - destruct (_ =? 127); now apply button_keys_set_led_stat_mix.
    - intros _. apply button_keys_of_bank.
      pose proof bank_mmix_out_send. keeps_tac; auto. }
  destruct (in_path m =? "/strip/mute")%string.
  { destruct (in_args m) as [| a args]; [apply preserves_raise |].
    destruct a as [strip_id | | | | |]; try apply preserves_raise.
    destruct args as [| valor args]; [apply preserves_raise |].
    destruct args; [| apply preserves_raise].
    unfold event_mute.
    destruct (strip_bank_of strip_id <? 3); [| apply preserves_ret].
    destruct (Py.getitem mutes (strip_id - 1 - 8 * strip_bank_of strip_id))
      as [led |] eqn:E; [| apply preserves_raise].
    apply getitem_In, mutes_are_keys in E.
    unfold or_raise. apply preserves_bind_ret.
    apply preserves_bind.
    - destruct (_ =? 127);
        (apply preserves_bind;
         [now apply button_keys_set_led_stat_mix
         | intros _; apply button_keys_set_led_stat_eq]).
    - intros _. apply button_keys_of_bank.
      pose proof bank_mmix_out_send. keeps_tac; auto. }
  destruct (in_path m =? "/master/name")%string; [| apply preserves_ret].
  destruct (in_args m) as [| valor args]; [apply preserves_raise |].
  destruct args; [| apply preserves_raise].
  apply button_keys_of_bank. pose proof bank_apaga_leds.
  unfold load_project. keeps_tac; auto.
Qed.

Lemma button_keys_sleep (arrivals : list OscIn) :
  preserves button_keys (sleep arrivals).
Proof.
  unfold sleep. apply preserves_for_each. intros m s Hs.
  exact (button_keys_datagram_received m s Hs).
Qed.

Lemma bind_modify {B : Type} (f : State -> State) (k : unit -> M B) (s : State) :
  bind (modify f) k s = k tt (f s).
Proof. reflexivity. Qed.

Lemma bind_osc_send {B : Type} (a : string) (args : list Val)
    (k : unit -> M B) (s : State) :
  bind (osc_send a args) k s
  = k tt (with_osc_sent s (osc_sent s ++ [mkOscOut a args])).
Proof. reflexivity. Qed.

Lemma bind_mmix_out_send {B : Type} (m : MidiOut) (k : unit -> M B) (s : State) :
  bind (mmix_out_send m) k s = k tt (with_midi_sent s (midi_sent s ++ [m])).
Proof. reflexivity. Qed.

Lemma bind_sleep {B : Type} (arrivals : list OscIn) (k : unit -> M B) (s : State) :
  bind (sleep arrivals) k s = k tt (exec (sleep arrivals) s).
Proof. unfold bind. now rewrite sleep_run. Qed.

(** Blanking the surface: the two bank LEDs, then every key of the mixer
    mirror of bank 0. *)
Lemma apaga_leds_run (s : State) :
  apaga_leds s
  = (Ok tt,
     with_midi_sent s
       (midi_sent s ++ led_off b_right :: led_off b_left
          :: map led_off (Py.keys (led_stat_mix (bank_0 (bank s)))))).
Proof.
  unfold apaga_leds, apaga_led.
  rewrite !bind_mmix_out_send, bind_get_state.
  change (for_each ?l (fun led => mmix_out_send (mkMidiOut led 0)))
    with (for_each l apaga_led).
  rewrite for_each_apaga_led.
  unfold with_midi_sent; simpl. rewrite <- !app_assoc. reflexivity.
Qed.

Lemma bind_apaga_leds {B : Type} (k : unit -> M B) (s : State) :
  bind apaga_leds k s
  = k tt (with_midi_sent s
            (midi_sent s ++ led_off b_right :: led_off b_left
               :: map led_off (Py.keys (led_stat_mix (bank_0 (bank s)))))).
Proof. unfold bind. now rewrite apaga_leds_run. Qed.

Lemma bind_for_each_enciende_led {B : Type} (l : list Z) (k : unit -> M B) (s : State) :
  bind (for_each l enciende_led) k s
  = k tt (with_midi_sent s (midi_sent s ++ map led_on l)).
Proof. unfold bind. now rewrite for_each_enciende_led. Qed.

(** The list wait ends with several candidates, at most eight: the search
    awaits a key press, blanks the surface and lights one rec LED per
    candidate. *)
Lemma search_finds_several
    (s : State) (sid : Z) (w : Waits) (m_pos : list Z) (t : State) :
  t = exec (sleep (during_list_wait w))
           (with_osc_sent s
              (osc_sent s ++ [mkOscOut "/strip/plugin/list" [VInt sid]])) ->
  candidates (plugin_list t) = Some m_pos ->
  (2 <= length m_pos <= 8)%nat ->
  search_eq_strip sid w s
  = (Ok (pos_list m_pos),
     with_midi_sent
       (with_operation t
          (mkOperation read_keypress (Some sid) (op_plugin_pos (operation t))))
       (midi_sent t ++ led_off b_right :: led_off b_left
          :: map led_off (Py.keys (led_stat_mix (bank_0 (bank t))))
          ++ map led_on (firstn (length m_pos) recs))).
Proof.
  intros Ht Hc Hn. unfold search_eq_strip.
  rewrite bind_osc_send, bind_sleep, <- Ht.
  rewrite bind_get_state, Hc.
  replace (1 <? Z.of_nat (length m_pos)) with true
    by (symmetry; apply Z.ltb_lt; lia).
  replace (8 <? Z.of_nat (length m_pos)) with false
    by (symmetry; apply Z.ltb_ge; lia).
  rewrite bind_modify, bind_apaga_leds, bind_for_each_enciende_led.
  unfold ret, with_midi_sent, with_operation; simpl.
  rewrite <- !app_assoc. reflexivity.
Qed.

(** The chord is a request to enter EQ mode on its strip from mixer mode,
    and from the other modes when the strip is not the active one. *)
Lemma solo_chord_enters (s : State) (note i : Z) (w : Waits) :
  Py.index (note - 1) mutes = Some i ->
  chord_enters_on s (i + 1 + 8 * bank_index s) ->
  solo_chord note w s = enter_eq (i + 1 + 8 * bank_index s) w s.
Proof.
  intros Hi Hc. unfold solo_chord. rewrite Hi. unfold or_raise.
  change (bind (ret i) ?k s) with (k i s). cbv beta.
  rewrite bind_get_state. fold (bank_index s).
  destruct Hc as [Hm | Hs]; [now rewrite Hm |].
  destruct (op_mode (operation s)); try reflexivity;
    (destruct (op_strip (operation s)) as [n |]; [| reflexivity];
     destruct (Z.eqb_spec n (i + 1 + 8 * bank_index s)); [congruence | reflexivity]).
Qed.

(** The chord that runs a discovery, when the list wait ends with two to
    eight candidates: the state it leaves. *)
Lemma chord_awaits_keypress
    (s : State) (note i : Z) (w : Waits) (m_pos : list Z) :
  note_press s = mkNotePress (Some b_solo) true ->
  Py.index (note - 1) mutes = Some i ->
  let sid := i + 1 + 8 * bank_index s in
  chord_enters_on s sid ->
  candidates (heard (during_list_wait w) (plugin_list s)) = Some m_pos ->
  (2 <= length m_pos <= 8)%nat ->
  let t := exec (sleep (during_list_wait w))
             (with_osc_sent
                (with_operation s
                   (mkOperation EQ (Some sid) (op_plugin_pos (operation s))))
                (osc_sent s ++ [mkOscOut "/strip/plugin/list" [VInt sid]])) in
  surface_callback (note_on note) w s
  = (Ok tt,
     with_midi_sent
       (with_operation t (mkOperation read_keypress (Some sid) (pos_list m_pos)))
       (midi_sent t ++ led_off b_right :: led_off b_left
          :: map led_off (Py.keys (led_stat_mix (bank_0 (bank t))))
          ++ map led_on (firstn (length m_pos) recs)
          ++ [led_on b_left; led_on b_right])).
Proof.
  intros Hn Hi sid Hce Hc Hl t.
  assert (Hcont : Py.contains (note - 1) mutes = true).
  { apply contains_In. clear - Hi. revert i Hi.
    induction mutes as [| y l IH]; simpl; intros i Hi; [discriminate |].
    destruct (Z.eqb_spec (note - 1) y); [now left |].
    destruct (Py.index (note - 1) l); [right; eapply IH; reflexivity | discriminate]. }
  rewrite (chord_press s note w Hn Hcont).
  unfold try_print. rewrite (solo_chord_enters s note i w Hi Hce).
  fold sid. unfold enter_eq.
  rewrite bind_modify. cbv beta.
  unfold bind at 1.
  rewrite (search_finds_several _ sid w m_pos t eq_refl).
  - clearbody t. rewrite bind_modify. cbv beta. unfold enciende_led.
    rewrite !bind_mmix_out_send. unfold set_led_status.
    rewrite bind_get_state.
    unfold with_midi_sent, with_operation; simpl.
    rewrite <- !app_assoc. cbn [app]. rewrite <- !app_assoc. reflexivity.
  - unfold t. rewrite plugin_list_sleep. exact Hc.
  - exact Hl.
Qed.

Lemma contains_of_index (x : Z) (t : list Z) (i : Z) :
  Py.index x t = Some i -> Py.contains x t = true.
Proof.
  revert i. induction t as [| y t IH]; simpl; intros i H; [discriminate |].
  destruct (x =? y); [reflexivity |].
  destruct (Py.index x t); [eapply IH; reflexivity | discriminate].
Qed.

Lemma getitem_nth_error {A : Type} (t : list A) (k : nat) :
  Py.getitem t (Z.of_nat k) = nth_error t k.
Proof.
  unfold Py.getitem.
  replace (Z.of_nat k <? 0) with false by (symmetry; apply Z.ltb_ge; lia).
  now rewrite Nat2Z.id.
Qed.

Lemma index_in_recs (k : nat) (r : Z) :
  nth_error recs k = Some r -> Py.index r recs = Some (Z.of_nat k).
Proof.
  unfold recs.
  do 8 (destruct k as [| k]; [intro H; injection H as <-; reflexivity |]).
  destruct k; discriminate.
Qed.

(** While a key press is awaited and no key is held, a rec button among the
    candidates selects its candidate and enters EQ mode. *)
Lemma espera_selects (s : State) (r p : Z) (k : nat) (l : list Z) (w : Waits) :
  nth_error recs k = Some r ->
  op_plugin_pos (operation s) = pos_list l ->
  nth_error l k = Some p ->
  operation (exec (espera_indice_modulo_eq r w) s)
  = mkOperation EQ (op_strip (operation s)) (pos_int p).
Proof.
  intros Hr Hl Hp. pose proof (index_in_recs k r Hr) as Hi.
  unfold espera_indice_modulo_eq.
  rewrite (contains_of_index _ _ _ Hi). cbn [negb]. rewrite Hi.
  unfold or_raise at 1. unfold exec.
  change (bind (ret ?a) ?f s) with (f a s). cbv beta.
  rewrite bind_get_state, Hl. unfold or_raise at 1.
  change (bind (ret ?a) ?f s) with (f a s). cbv beta.
  replace (Z.of_nat (length l) <? Z.of_nat k + 1) with false.
  2:{ symmetry. apply Z.ltb_ge.
      assert (k < length l)%nat by (apply nth_error_Some; congruence). lia. }
  rewrite getitem_nth_error, Hp. unfold or_raise at 1.
  change (bind (ret ?a) ?f s) with (f a s). cbv beta.
  rewrite bind_modify.
  match goal with
  | |- operation (snd (?c ?s0)) = _ => change (operation (exec c s0) = mkOperation EQ (op_strip (operation s)) (pos_int p))
  end.
  assert (Hk : keeps operation
                 (s0 <- get_state ;;
                  osc_send "/strip/plugin/descriptor"
                    [match op_strip (operation s0) with
                     | Some n => VInt n
                     | None => VNone
                     end; VInt p] ;;
                  sleep (during_desc_wait w) ;;
                  descriptor_pass ;;
                  set_led_status ;;
                  modify (fun s1 => with_plugin_desc s1 []))).
  { keeps_tac. }
  rewrite (Hk _). reflexivity.
Qed.

(** While a key press is awaited and no key is held, a press of anything
    but a rec button among the candidates changes nothing. *)
Lemma espera_ignores (s : State) (n : Z) (l : list Z) (w : Waits) :
  op_plugin_pos (operation s) = pos_list l ->
  lit_choice n (length l) = false ->
  espera_indice_modulo_eq n w s = (Ok tt, s).
Proof.
  intros Hl Hn. unfold espera_indice_modulo_eq, lit_choice in *.
  destruct (Py.contains n recs) eqn:Hc; [| reflexivity].
  destruct (index_of_contained _ _ Hc) as [k Hk]. rewrite Hk in *.
  cbn [negb]. unfold or_raise at 1.
  change (bind (ret ?a) ?f s) with (f a s). cbv beta.
  rewrite bind_get_state, Hl. unfold or_raise at 1.
  change (bind (ret ?a) ?f s) with (f a s). cbv beta.
  replace (Z.of_nat (length l) <? k + 1) with true; [reflexivity |].
  symmetry. apply Z.ltb_lt. apply Z.ltb_ge in Hn. lia.
Qed.

Lemma lit_after_choice_lights (n : nat) (r : Z) (was : bool) :
  (2 <= n <= 8)%nat ->
  Py.contains r recs = true ->
  lit (led_off b_right :: led_off b_left
         :: map led_off (Py.keys all_off)
         ++ map led_on (firstn n recs) ++ [led_on b_left; led_on b_right])
      r was
  = lit_choice r n.
Proof.
  intros Hn Hr. apply contains_In in Hr.
  do 2 (destruct n as [| n]; [lia |]).
  do 7 (destruct n as [| n];
        [ simpl in Hr;
          repeat (destruct Hr as [<- | Hr]; [vm_compute; reflexivity |]);
          contradiction
        | ]).
  lia.
Qed.

Lemma count_lit_choices (n : nat) :
  (2 <= n <= 8)%nat ->
  length (filter (fun r => lit_choice r n) recs) = n.
Proof.
  intro Hn.
  do 2 (destruct n as [| n]; [lia |]).
  do 7 (destruct n as [| n]; [vm_compute; reflexivity |]).
  lia.
Qed.

Lemma rec_is_no_chord_note (r : Z) :
  Py.contains r recs = true -> Py.contains (r - 1) mutes = false.
Proof.
  intro H. apply contains_In in H. simpl in H.
  repeat (destruct H as [<- | H]; [reflexivity |]). contradiction.
Qed.

(** C6, as the code has it: whenever a discovery runs (the Solo chord, from
    mixer mode or on a strip that is not the active one) and its list wait
    ends with two to eight candidate positions, the router awaits a key
    press on the strip of the chord, holding the candidates, and the rec
    LEDs lit are the first ones of the row, as many as there are candidates.
    Once Solo is released, the k-th of these rec buttons selects the k-th
    candidate and enters EQ mode, and a press of any other control changes
    nothing. While Solo is still tracked as held, as it is right after the
    discovery, every rec button is ignored and the chord still acts: on the
    strip of the wait it returns to mixer mode, on another strip it runs a
    new discovery for that strip, which awaits a key press again when it
    collects two to eight candidates. *)
Theorem several_candidates_await_keypress
    (s : State) (note i : Z) (w w0 : Waits) (m_pos : list Z) :
  note_press s = mkNotePress (Some b_solo) true ->
  Py.index (note - 1) mutes = Some i ->
  let sid := i + 1 + 8 * bank_index s in
  chord_enters_on s sid ->
  button_keys s ->
  candidates (heard (during_list_wait w) (plugin_list s)) = Some m_pos ->
  (2 <= length m_pos <= 8)%nat ->
  let s1 := exec (surface_callback (note_on note) w) s in
  let s2 := exec (surface_callback (note_off b_solo) w0) s1 in
  operation s1 = mkOperation read_keypress (Some sid) (pos_list m_pos)
  /\ (forall r was, Py.contains r recs = true ->
        lit (midi_sent s1) r was = lit_choice r (length m_pos))
  /\ length (filter (fun r => lit (midi_sent s1) r false) recs) = length m_pos
  /\ (forall k r p w',
        nth_error recs k = Some r -> nth_error m_pos k = Some p ->
        operation (exec (surface_callback (note_on r) w') s2)
        = mkOperation EQ (Some sid) (pos_int p))
  /\ (forall n w',
        lit_choice n (length m_pos) = false ->
        surface_callback (note_on n) w' s2 = (Ok tt, s2))
  /\ note_press s1 = mkNotePress (Some b_solo) true
  /\ (forall r w',
        Py.contains r recs = true ->
        surface_callback (note_on r) w' s1 = (Ok tt, s1))
  /\ (forall w',
        operation (exec (surface_callback (note_on note) w') s1)
        = mkOperation mixer None pos_none)
  /\ (forall note' i' w',
        Py.index (note' - 1) mutes = Some i' -> i' <> i ->
        surface_callback (note_on note') w' s1
        = try_print (enter_eq (i' + 1 + 8 * bank_index s) w') s1)
  /\ (forall note' i' w' m_pos',
        Py.index (note' - 1) mutes = Some i' -> i' <> i ->
        candidates (heard (during_list_wait w') (plugin_list s1)) = Some m_pos' ->
        (2 <= length m_pos' <= 8)%nat ->
        operation (exec (surface_callback (note_on note') w') s1)
        = mkOperation read_keypress (Some (i' + 1 + 8 * bank_index s))
                      (pos_list m_pos')).
Proof.
  intros Hn Hi sid Hce Hk Hc Hl s1 s2.
  pose proof (chord_awaits_keypress s note i w m_pos Hn Hi Hce Hc Hl) as Hs1.
  cbv zeta in Hs1. fold sid in Hs1.
  set (t := exec (sleep (during_list_wait w)) _) in Hs1.
  assert (Ht : button_keys t) by (apply button_keys_sleep; exact Hk).
  assert (Hnp : note_press t = mkNotePress (Some b_solo) true).
  { unfold t. rewrite (keeps_control_note_press _ (control_sleep _)). exact Hn. }
  assert (Hbt : bank_index t = bank_index s).
  { unfold t. now rewrite (keeps_control_bank_index _ (control_sleep _)). }
  assert (E1 : s1 = with_midi_sent
                      (with_operation t
                         (mkOperation read_keypress (Some sid) (pos_list m_pos)))
                      (midi_sent t ++ led_off b_right :: led_off b_left
                         :: map led_off (Py.keys all_off)
                         ++ map led_on (firstn (length m_pos) recs)
                         ++ [led_on b_left; led_on b_right])).
  { unfold s1, exec. rewrite Hs1. unfold button_keys in Ht. rewrite Ht.
    reflexivity. }
  clearbody t. clear Hs1.
  assert (Hlit : forall r was, Py.contains r recs = true ->
                   lit (midi_sent s1) r was = lit_choice r (length m_pos)).
  { intros r was Hr. rewrite E1. cbn [midi_sent with_midi_sent].
    rewrite lit_app. now apply lit_after_choice_lights. }
  assert (E2 : s2 = with_note_press s1 (mkNotePress None false)).
  { unfold s2. apply note_off_releases. rewrite E1. cbn. now rewrite Hnp. }
  assert (Hn2 : np_state (note_press s2) = false) by (now rewrite E2).
  assert (Ho2 : operation s2
                = mkOperation read_keypress (Some sid) (pos_list m_pos)).
  { rewrite E2, E1. reflexivity. }
  assert (Hn1 : note_press s1 = mkNotePress (Some b_solo) true)
    by (rewrite E1; exact Hnp).
  assert (Ho1 : operation s1
                = mkOperation read_keypress (Some sid) (pos_list m_pos))
    by (rewrite E1; reflexivity).
  assert (Hb1 : bank_index s1 = bank_index s) by (rewrite E1; exact Hbt).
  assert (Hother : forall i', i' <> i ->
                     chord_enters_on s1 (i' + 1 + 8 * bank_index s1)).
  { intros i' Hne. right. rewrite Ho1, Hb1. cbn [op_strip]. unfold sid.
    intro E. injection E as E. lia. }
  split; [exact Ho1 |].
  split; [exact Hlit |].
  split.
  { rewrite (filter_ext_in (fun r => lit (midi_sent s1) r false)
                           (fun r => lit_choice r (length m_pos))).
    - now apply count_lit_choices.
    - intros r Hr. apply Hlit. now apply contains_In. }
  split.
  { intros k r p w' Hr Hp. unfold exec. rewrite surface_callback_note_on.
    change (operation (exec (try_print (on_note_on r w')) s2)
            = mkOperation EQ (Some sid) (pos_int p)).
    rewrite (exec_try_print operation) by reflexivity.
    unfold on_note_on, exec. rewrite bind_get_state, Hn2, Ho2.
    cbn [op_mode].
    change (operation (exec (espera_indice_modulo_eq r w') s2)
            = mkOperation EQ (Some sid) (pos_int p)).
    rewrite (espera_selects s2 r p k m_pos w' Hr); [| now rewrite Ho2 | exact Hp].
    now rewrite Ho2. }
  split.
  { intros n w' Hlc. rewrite surface_callback_note_on.
    unfold try_print, on_note_on. rewrite bind_get_state, Hn2, Ho2.
    cbn [op_mode].
    rewrite (espera_ignores s2 n m_pos w'); [reflexivity | now rewrite Ho2 | exact Hlc]. }
  split; [exact Hn1 |].
  split.
  { intros r w' Hr. rewrite surface_callback_note_on.
    unfold try_print, on_note_on. rewrite bind_get_state, Hn1.
    cbn [np_state np_note]. rewrite Z.eqb_refl.
    now rewrite (rec_is_no_chord_note r Hr). }
  split.
  { intro w'. unfold exec.
    rewrite (chord_press s1 note w' Hn1 (contains_of_index _ _ _ Hi)).
    change (operation (exec (try_print (solo_chord note w')) s1)
            = mkOperation mixer None pos_none).
    rewrite (exec_try_print operation) by reflexivity.
    apply (chord_leaves s1 note i w').
    - rewrite Ho1. discriminate.
    - exact Hi.
    - rewrite Ho1, Hb1. reflexivity. }
  split.
  { intros note' i' w' Hi' Hne.
    rewrite (chord_press s1 note' w' Hn1 (contains_of_index _ _ _ Hi')).
    unfold try_print.
    rewrite (solo_chord_enters s1 note' i' w' Hi' (Hother i' Hne)).
    now rewrite Hb1. }
  intros note' i' w' m_pos' Hi' Hne Hc' Hl'.
  pose proof (chord_awaits_keypress s1 note' i' w' m_pos' Hn1 Hi'
                (Hother i' Hne) Hc' Hl') as H.
  cbv zeta in H. unfold exec. rewrite H. rewrite Hb1. reflexivity.
Qed.

Lemma several_candidates_await_keypress_witness :
  let s := exec (surface_callback (note_on b_solo) quiet) initial_state in
  let w := mkWaits [list_reply 1 [mono; "a-comp"; mono; mono]] [] in
  let s1 := exec (surface_callback (note_on 2) w) s in
  let s2 := exec (surface_callback (note_off b_solo) quiet) s1 in
  operation s1 = mkOperation read_keypress (Some 1) (pos_list [1; 3; 4])
  /\ (forall r was, Py.contains r recs = true ->
        lit (midi_sent s1) r was = lit_choice r 3)
  /\ length (filter (fun r => lit (midi_sent s1) r false) recs) = 3%nat
  /\ (forall k r p w',
        nth_error recs k = Some r -> nth_error [1; 3; 4] k = Some p ->
        operation (exec (surface_callback (note_on r) w') s2)
        = mkOperation EQ (Some 1) (pos_int p))
  /\ (forall n w',
        lit_choice n 3 = false ->
        surface_callback (note_on n) w' s2 = (Ok tt, s2))
  /\ note_press s1 = mkNotePress (Some b_solo) true
  /\ (forall r w',
        Py.contains r recs = true ->
        surface_callback (note_on r) w' s1 = (Ok tt, s1))
  /\ (forall w',
        operation (exec (surface_callback (note_on 2) w') s1)
        = mkOperation mixer None pos_none)
  /\ (forall note' i' w',
        Py.index (note' - 1) mutes = Some i' -> i' <> 0 ->
        surface_callback (note_on note') w' s1
        = try_print (enter_eq (i' + 1 + 8 * bank_index s) w') s1)
  /\ (forall note' i' w' m_pos',
        Py.index (note' - 1) mutes = Some i' -> i' <> 0 ->
        candidates (heard (during_list_wait w') (plugin_list s1)) = Some m_pos' ->
        (2 <= length m_pos' <= 8)%nat ->
        operation (exec (surface_callback (note_on note') w') s1)
        = mkOperation read_keypress (Some (i' + 1 + 8 * bank_index s))
                      (pos_list m_pos')).
Proof.
  intros s w.
  apply (several_candidates_await_keypress s 2 0 w quiet [1; 3; 4]);
    [reflexivity | reflexivity | left; reflexivity | reflexivity | reflexivity
    | simpl; lia].
Defined.

(** C6, as it was claimed, fails right after the discovery, where Solo is
    still the held key: the second lit rec button selects nothing, and a
    chord note, which is no lit rec button, changes the state: the chord of
    the same strip leaves the key-press wait for mixer mode, the chord of
    strip 2 runs a new discovery and awaits a key press for that strip. *)
Lemma keypress_wait_with_solo_held :
  let s := after await_keypress_on_strip_1 initial_state in
  operation s = mkOperation read_keypress (Some 1) (pos_list [1; 3; 4])
  /\ length (filter (fun r => lit (midi_sent s) r false) recs) = 3%nat
  /\ nth_error (filter (fun r => lit (midi_sent s) r false) recs) 1 = Some 6
  /\ surface_callback (note_on 6) quiet s = (Ok tt, s)
  /\ lit_choice 2 3 = false
  /\ operation (exec (surface_callback (note_on 2) quiet) s)
     = mkOperation mixer None pos_none
  /\ exec (surface_callback (note_on 2) quiet) s <> s
  /\ lit_choice 5 3 = false
  /\ operation (exec (surface_callback (note_on 5) quiet) s)
     = mkOperation read_keypress (Some 2) (pos_list [1; 3; 4]).
Proof.
  vm_compute. repeat split. intro H. discriminate H.
Qed.

(** * Further properties of the code *)

(** ** Feedback of the console *)

Lemma bank_get_valid (b : Bank) (k : Z) :
  0 <= k <= 2 -> exists l, bank_get b k = Some l.
Proof.
  intro H. assert (Hk : k = 0 \/ k = 1 \/ k = 2) by lia.
  destruct Hk as [-> | [-> | ->]]; eexists; reflexivity.
Qed.

Lemma set_led_stat_mix_run (s : State) (k led : Z) (v : bool) (l : BankLeds) :
  bank_get (bank s) k = Some l ->
  set_led_stat_mix k led v s
  = (Ok tt, with_bank s (bank_put (bank s) k
              (mkBankLeds (Py.set (led_stat_mix l) led v) (led_stat_eq l)))).
Proof.
  intro H. unfold set_led_stat_mix. rewrite bind_get_state, H. reflexivity.
Qed.

Lemma set_led_stat_eq_run (s : State) (k led : Z) (v : bool) (l : BankLeds) :
  bank_get (bank s) k = Some l ->
  set_led_stat_eq k led v s
  = (Ok tt, with_bank s (bank_put (bank s) k
              (mkBankLeds (led_stat_mix l) (Py.set (led_stat_eq l) led v)))).
Proof.
  intro H. unfold set_led_stat_eq. rewrite bind_get_state, H. reflexivity.
Qed.

Lemma mix_led_set_led_stat_mix (s : State) (k led : Z) (v : bool) :
  0 <= k <= 2 ->
  mix_led (exec (set_led_stat_mix k led v) s) k led = Some v.
Proof.
  intro Hk. destruct (bank_get_valid (bank s) k Hk) as [l Hl].
  unfold exec. rewrite (set_led_stat_mix_run s k led v l Hl).
  unfold mix_led. cbn [snd bank with_bank].
  rewrite (bank_put_get _ _ l _ _ Hl), Z.eqb_refl.
  apply get_set_same.
Qed.

Lemma mix_led_set_led_stat_eq (s : State) (k led : Z) (v : bool) (k' led' : Z) :
  mix_led (exec (set_led_stat_eq k led v) s) k' led' = mix_led s k' led'.
Proof.
  unfold exec, set_led_stat_eq. rewrite bind_get_state.
  destruct (bank_get (bank s) k) as [l |] eqn:Hl; [| reflexivity].
  unfold or_raise. change (bind (ret l) ?f s) with (f l s). cbv beta.
  unfold mix_led, modify. cbn [snd bank with_bank].
  rewrite (bank_put_get _ _ l _ _ Hl).
  destruct (Z.eqb_spec k' k) as [-> | Hne]; [now rewrite Hl | reflexivity].
Qed.

Lemma event_mute_mirror (s : State) (n b led : Z) (valor : Val) :
  strip_bank_of n = b -> 0 <= b <= 2 ->
  Py.getitem mutes (n - 1 - 8 * b) = Some led ->
  mix_led (exec (event_mute n valor) s) b led = Some (is_one valor).
Proof.
  intros Hsb Hb Hled. unfold event_mute. rewrite Hsb.
  replace (b <? 3) with true by (symmetry; apply Z.ltb_lt; lia).
  rewrite Hled. unfold or_raise at 1.
  unfold exec. change (bind (ret led) ?f s) with (f led s). cbv beta.
  match goal with
  | |- mix_led (snd (bind ?c ?k s)) b led = _ =>
      change (mix_led (exec (bind c k) s) b led = Some (is_one valor));
      rewrite (exec_bind_keeps (fun s => mix_led s b led) c k)
  end.
  - destruct (is_one valor); cbn [Z.eqb Pos.eqb];
      rewrite (exec_bind_keeps (fun s => mix_led s b led))
        by (intros ? ?; apply mix_led_set_led_stat_eq);
      now apply mix_led_set_led_stat_mix.
  - intros _ s0. unfold exec. rewrite bind_get_state.
    destruct (op_mode (operation s0)); try reflexivity.
    destruct (b =? current (bank s0)); reflexivity.
Qed.

Lemma event_recenable_mirror (s : State) (n b led : Z) (valor : Val) :
  strip_bank_of n = b -> 0 <= b <= 2 ->
  Py.getitem recs (n - 1 - 8 * b) = Some led ->
  mix_led (exec (event_recenable n valor) s) b led = Some (is_one valor).
Proof.
  intros Hsb Hb Hled. unfold event_recenable. rewrite Hsb.
  replace (b <? 3) with true by (symmetry; apply Z.ltb_lt; lia).
  rewrite Hled. unfold or_raise at 1.
  unfold exec. change (bind (ret led) ?f s) with (f led s). cbv beta.
  match goal with
  | |- mix_led (snd (bind ?c ?k s)) b led = _ =>
      change (mix_led (exec (bind c k) s) b led = Some (is_one valor));
      rewrite (exec_bind_keeps (fun s => mix_led s b led) c k)
  end.
  - destruct (is_one valor); cbn [Z.eqb Pos.eqb];
      now apply mix_led_set_led_stat_mix.
  - intros _ s0. unfold exec. rewrite bind_get_state.
    destruct (op_mode (operation s0)); reflexivity.
Qed.

Lemma index_getitem (x : Z) (t : list Z) (i : Z) :
  Py.index x t = Some i ->
  Py.getitem t i = Some x /\ 0 <= i < Z.of_nat (length t).
Proof.
  revert i. induction t as [| y t IH]; simpl; intros i H; [discriminate |].
  destruct (Z.eqb_spec x y) as [-> | Hne].
  - injection H as <-. split; [reflexivity | lia].
  - destruct (Py.index x t) as [j |]; [| discriminate].
    injection H as <-. destruct (IH j eq_refl) as [Hg Hj].
    split; [| lia].
    unfold Py.getitem in *.
    replace (j + 1 <? 0) with false by (symmetry; apply Z.ltb_ge; lia).
    replace (j <? 0) with false in Hg by (symmetry; apply Z.ltb_ge; lia).
    replace (Z.to_nat (j + 1)) with (S (Z.to_nat j)) by lia.
    exact Hg.
Qed.

Lemma strip_bank_of_button (i b : Z) :
  0 <= i <= 7 ->
  strip_bank_of (i + 1 + 8 * b) = b /\ i + 1 + 8 * b - 1 - 8 * b = i.
Proof.
  intro Hi. split; [| lia]. unfold strip_bank_of.
  pose proof (Z.div_mod (i + 1 + 8 * b) 8 ltac:(lia)) as Hd.
  pose proof (Z.mod_pos_bound (i + 1 + 8 * b) 8 ltac:(lia)) as Hm.
  destruct (Z.eqb_spec ((i + 1 + 8 * b) mod 8) 0); lia.
Qed.

(** X1: the strip a mute or rec button commands in bank b is the strip whose
    feedback writes the mirror entry of that same button in bank b: the
    entry becomes true exactly when the feedback value equals 1. *)
Theorem feedback_reaches_pressed_button (s : State) (c b : Z) (valor : Val) :
  0 <= b <= 2 ->
  is_toggle_button c = true ->
  mix_led (exec (deliver (toggle_feedback c (toggle_strip c b) valor)) s) b c
  = Some (is_one valor).
Proof.
  intros Hb Hc. unfold is_toggle_button in Hc.
  unfold toggle_feedback, toggle_strip.
  destruct (Py.contains c mutes) eqn:Hm.
  - destruct (index_of_contained _ _ Hm) as [i Hi]. rewrite Hi.
    destruct (index_getitem _ _ _ Hi) as [Hg Hr].
    change (Z.of_nat (length mutes)) with 8 in Hr.
    destruct (strip_bank_of_button i b ltac:(lia)) as [Hsb Hk].
    change (exec (deliver (mute_feedback (i + 1 + 8 * b) valor)) s)
      with (exec (event_mute (i + 1 + 8 * b) valor) s).
    apply event_mute_mirror; [exact Hsb | exact Hb | now rewrite Hk].
  - cbn [orb] in Hc.
    destruct (index_of_contained _ _ Hc) as [i Hi]. rewrite Hi.
    destruct (index_getitem _ _ _ Hi) as [Hg Hr].
    change (Z.of_nat (length recs)) with 8 in Hr.
    destruct (strip_bank_of_button i b ltac:(lia)) as [Hsb Hk].
    change (exec (deliver (recenable_feedback (i + 1 + 8 * b) valor)) s)
      with (exec (event_recenable (i + 1 + 8 * b) valor) s).
    apply event_recenable_mirror; [exact Hsb | exact Hb | now rewrite Hk].
Qed.

Lemma feedback_reaches_pressed_button_witness :
  mix_led (exec (deliver (toggle_feedback 7 (toggle_strip 7 1) (VFloat 1)))
                initial_state) 1 7
  = Some (is_one (VFloat 1)).
Proof.
  apply feedback_reaches_pressed_button; [lia | reflexivity].
Defined.

Lemma strip_bank_of_spec (n : Z) :
  let sb := strip_bank_of n in
  0 <= n - 1 - 8 * sb <= 7
  /\ (n <= 0 -> sb < 0)
  /\ (25 <= n -> 3 <= sb)
  /\ (1 <= n <= 24 -> 0 <= sb <= 2 /\ sb = (n - 1) / 8
                      /\ n - 1 - 8 * sb = (n - 1) mod 8).
Proof.
  cbv zeta. unfold strip_bank_of.
  pose proof (Z.div_mod n 8 ltac:(lia)) as Hd.
  pose proof (Z.mod_pos_bound n 8 ltac:(lia)) as Hm.
  pose proof (Z.div_mod (n - 1) 8 ltac:(lia)) as Hd1.
  pose proof (Z.mod_pos_bound (n - 1) 8 ltac:(lia)) as Hm1.
  destruct (Z.eqb_spec (n mod 8) 0) as [E | E]; repeat split; try lia.
Qed.

Lemma getitem_row (row : list Z) (k : Z) :
  length row = 8%nat -> 0 <= k <= 7 -> exists led, Py.getitem row k = Some led.
Proof.
  intros Hl Hk.
  do 9 (destruct row as [| ? row]; try discriminate Hl).
  assert (H : k = 0 \/ k = 1 \/ k = 2 \/ k = 3 \/ k = 4 \/ k = 5 \/ k = 6 \/ k = 7)
    by lia.
  repeat (destruct H as [-> | H]; [eexists; reflexivity |]).
  subst k. eexists; reflexivity.
Qed.

Lemma bank_get_absent (b : Bank) (k : Z) : k < 0 \/ 3 <= k -> bank_get b k = None.
Proof.
  intro H. unfold bank_get.
  destruct (Z.eqb_spec k 0); [lia |].
  destruct (Z.eqb_spec k 1); [lia |].
  destruct (Z.eqb_spec k 2); [lia | reflexivity].
Qed.

Lemma set_led_stat_mix_absent (s : State) (k led : Z) (v : bool) :
  bank_get (bank s) k = None ->
  set_led_stat_mix k led v s = (Raised Py.KeyError, s).
Proof.
  intro H. unfold set_led_stat_mix. rewrite bind_get_state, H. reflexivity.
Qed.

(** X2: feedback for a strip outside the 24 strips of the three banks
    changes nothing: from 25 on the handlers return at once, and for 0 and
    below the bank lookup fails before anything is written. *)
Theorem feedback_for_unpaged_strip_is_dropped (s : State) (n : Z) (valor : Val) :
  n <= 0 \/ 25 <= n ->
  exec (deliver (mute_feedback n valor)) s = s
  /\ exec (deliver (recenable_feedback n valor)) s = s.
Proof.
  intro Hn.
  destruct (strip_bank_of_spec n) as (Hled & Hlow & Hhigh & _).
  change (exec (deliver (mute_feedback n valor)) s)
    with (exec (event_mute n valor) s).
  change (exec (deliver (recenable_feedback n valor)) s)
    with (exec (event_recenable n valor) s).
  unfold event_mute, event_recenable, exec.
  destruct (Z.ltb_spec (strip_bank_of n) 3) as [Hlt | Hge].
  - assert (Hneg : strip_bank_of n < 0) by (destruct Hn; [auto | lia]).
    destruct (getitem_row mutes _ eq_refl Hled) as [lm ->].
    destruct (getitem_row recs _ eq_refl Hled) as [lr ->].
    unfold or_raise.
    change (bind (ret ?a) ?f s) with (f a s). cbv beta.
    destruct (is_one valor); cbn [Z.eqb Pos.eqb]; unfold bind;
      rewrite !set_led_stat_mix_absent by (apply bank_get_absent; lia);
      split; reflexivity.
  - split; reflexivity.
Qed.

Lemma feedback_for_unpaged_strip_is_dropped_witness :
  exec (deliver (mute_feedback 25 (VInt 1))) initial_state = initial_state
  /\ exec (deliver (recenable_feedback 25 (VInt 1))) initial_state = initial_state.
Proof.
  apply feedback_for_unpaged_strip_is_dropped. right. lia.
Defined.

Lemma bind_set_led_stat_mix {B : Type} (s : State) (k led : Z) (v : bool)
    (l : BankLeds) (f : unit -> M B) :
  bank_get (bank s) k = Some l ->
  bind (set_led_stat_mix k led v) f s
  = f tt (with_bank s (bank_put (bank s) k
            (mkBankLeds (Py.set (led_stat_mix l) led v) (led_stat_eq l)))).
Proof. intro H. unfold bind. now rewrite (set_led_stat_mix_run s k led v l H). Qed.

Lemma bind_set_led_stat_eq {B : Type} (s : State) (k led : Z) (v : bool)
    (l : BankLeds) (f : unit -> M B) :
  bank_get (bank s) k = Some l ->
  bind (set_led_stat_eq k led v) f s
  = f tt (with_bank s (bank_put (bank s) k
            (mkBankLeds (led_stat_mix l) (Py.set (led_stat_eq l) led v)))).
Proof. intro H. unfold bind. now rewrite (set_led_stat_eq_run s k led v l H). Qed.

(** X3: what the feedback for one of the 24 strips writes to the surface. A
    rec-enable feedback in mixer mode writes the rec LED of the strip's place
    in its bank whatever bank is current; a mute feedback in mixer mode
    writes the mute LED only if the strip is on the current bank; in the
    other modes neither writes any LED. *)
Theorem feedback_led_writes (s : State) (n : Z) (valor : Val) :
  1 <= n <= 24 ->
  exists lr lm,
    Py.getitem recs ((n - 1) mod 8) = Some lr
    /\ Py.getitem mutes ((n - 1) mod 8) = Some lm
    /\ midi_sent (exec (deliver (recenable_feedback n valor)) s)
       = match op_mode (operation s) with
         | mixer => (midi_sent s ++ [mkMidiOut lr (feedback_velocity valor)])%list
         | _ => midi_sent s
         end
    /\ midi_sent (exec (deliver (mute_feedback n valor)) s)
       = match op_mode (operation s) with
         | mixer =>
             if (n - 1) / 8 =? bank_index s
             then (midi_sent s ++ [mkMidiOut lm (feedback_velocity valor)])%list
             else midi_sent s
         | _ => midi_sent s
         end.
Proof.
  intro Hn.
  destruct (strip_bank_of_spec n) as (_ & _ & _ & Hin).
  destruct (Hin Hn) as (Hsb & Hdiv & Hmod). clear Hin.
  assert (Hk : 0 <= (n - 1) mod 8 <= 7)
    by (pose proof (Z.mod_pos_bound (n - 1) 8 ltac:(lia)); lia).
  destruct (getitem_row recs _ eq_refl Hk) as [lr Hlr].
  destruct (getitem_row mutes _ eq_refl Hk) as [lm Hlm].
  destruct (bank_get_valid (bank s) _ Hsb) as [l Hl].
  exists lr, lm. split; [exact Hlr |]. split; [exact Hlm |].
  change (exec (deliver (mute_feedback n valor)) s)
    with (exec (event_mute n valor) s).
  change (exec (deliver (recenable_feedback n valor)) s)
    with (exec (event_recenable n valor) s).
  unfold event_mute, event_recenable, exec, feedback_velocity, bank_index.
  replace (strip_bank_of n <? 3) with true by (symmetry; apply Z.ltb_lt; lia).
  rewrite Hmod, Hlr, Hlm, <- Hdiv. unfold or_raise.
  change (bind (ret ?a) ?f s) with (f a s). cbv beta.
  split.
  - destruct (is_one valor); cbn [Z.eqb Pos.eqb];
      rewrite (bind_set_led_stat_mix s _ _ _ l _ Hl), bind_get_state;
      cbn [operation with_bank]; destruct (op_mode (operation s)); reflexivity.
  - destruct (is_one valor); cbn [Z.eqb Pos.eqb];
      unfold bind at 1;
      rewrite (bind_set_led_stat_mix s _ _ _ l _ Hl);
      (erewrite (set_led_stat_eq_run (with_bank s _));
       [| cbn [bank with_bank]; erewrite bank_put_get by exact Hl;
          rewrite Z.eqb_refl; reflexivity]);
      rewrite bind_get_state; cbn [operation with_bank bank];
      destruct (op_mode (operation s)); try reflexivity;
      rewrite !current_bank_put;
      destruct (strip_bank_of n =? current (bank s)); reflexivity.
Qed.

Lemma feedback_led_writes_witness :
  exists lr lm,
    Py.getitem recs ((11 - 1) mod 8) = Some lr
    /\ Py.getitem mutes ((11 - 1) mod 8) = Some lm
    /\ midi_sent (exec (deliver (recenable_feedback 11 (VFloat 1))) initial_state)
       = match op_mode (operation initial_state) with
         | mixer => (midi_sent initial_state
                     ++ [mkMidiOut lr (feedback_velocity (VFloat 1))])%list
         | _ => midi_sent initial_state
         end
    /\ midi_sent (exec (deliver (mute_feedback 11 (VFloat 1))) initial_state)
       = match op_mode (operation initial_state) with
         | mixer =>
             if (11 - 1) / 8 =? bank_index initial_state
             then (midi_sent initial_state
                   ++ [mkMidiOut lm (feedback_velocity (VFloat 1))])%list
             else midi_sent initial_state
         | _ => midi_sent initial_state
         end.
Proof.
  apply feedback_led_writes. lia.
Defined.

(** X4: no handler of a console datagram sends anything to the console or
    touches the chord state, the operation state or the bank index, whatever
    arrives and in whatever state. *)
Theorem console_feedback_is_silent (m : OscIn) (s : State) :
  osc_sent (exec (deliver m) s) = osc_sent s
  /\ note_press (exec (deliver m) s) = note_press s
  /\ operation (exec (deliver m) s) = operation s
  /\ bank_index (exec (deliver m) s) = bank_index s.
Proof.
  split.
  - change (exec (deliver m) s) with (exec (datagram_received m) s).
    revert s. change (keeps osc_sent (datagram_received m)).
    assert (H1 : forall k led v, keeps osc_sent (set_led_stat_mix k led v)).
    { intros k led v s. unfold set_led_stat_mix, exec. rewrite bind_get_state.
      unfold bind, or_raise, modify.
      destruct (bank_get (bank s) k); reflexivity. }
    assert (H2 : forall k led v, keeps osc_sent (set_led_stat_eq k led v)).
    { intros k led v s. unfold set_led_stat_eq, exec. rewrite bind_get_state.
      unfold bind, or_raise, modify.
      destruct (bank_get (bank s) k); reflexivity. }
    assert (H3 : forall m0, keeps osc_sent (mmix_out_send m0))
      by (intros m0 s; reflexivity).
    assert (H4 : forall l, keeps osc_sent (apaga_led l))
      by (intros l s; reflexivity).
    unfold datagram_received, event_recenable, event_mute, load_project,
      apaga_leds, get_plugin_list, get_plugin_desc.
    keeps_tac; auto.
  - pose proof (control_deliver m s) as H. unfold control in H.
    injection H as Hn Ho Hb. repeat split; assumption.
Qed.

(** ** Solo held *)

(** X5: with Solo tracked as held, a press of any note that is not one above
    a mute button is ignored in every mode, nothing sent and nothing
    changed; the rec buttons are such notes. *)
Theorem solo_with_other_press_is_ignored (s : State) (note : Z) (w : Waits) :
  note_press s = mkNotePress (Some b_solo) true ->
  Py.contains (note - 1) mutes = false ->
  surface_callback (note_on note) w s = (Ok tt, s)
  /\ forall r, Py.contains r recs = true -> Py.contains (r - 1) mutes = false.
Proof.
  intros Hn Hc. split.
  - rewrite surface_callback_note_on. unfold try_print, on_note_on.
    rewrite bind_get_state, Hn. cbn [np_state np_note].
    rewrite Z.eqb_refl, Hc. reflexivity.
  - intros r Hr. apply contains_In in Hr. simpl in Hr.
    repeat (destruct Hr as [<- | Hr]; [reflexivity |]). contradiction.
Qed.

Lemma solo_with_other_press_is_ignored_witness :
  let s := after enter_eq_on_strip_1 initial_state in
  surface_callback (note_on 3) quiet s = (Ok tt, s)
  /\ forall r, Py.contains r recs = true -> Py.contains (r - 1) mutes = false.
Proof.
  apply solo_with_other_press_is_ignored; reflexivity.
Defined.
(** ** Buttons in EQ mode *)

Ltac run_eq H :=
  cbv -[Py.get Py.set app]; rewrite ?H;
  cbv -[Py.get Py.set app]; rewrite ?get_set_same;
  cbv -[Py.get Py.set app].

(** One press of a section button in EQ mode, no key held: the section's
    parameter is sent with the opposite of the mirror entry, the entry is
    flipped and the LED follows the new value. *)
Lemma section_press_once (s : State) (note option : Z) (v : bool) (w : Waits) :
  op_mode (operation s) = EQ ->
  np_state (note_press s) = false ->
  0 <= bank_index s <= 2 ->
  eq_led_trigger note = Some option ->
  eq_led s (bank_index s) note = Some v ->
  let s' := exec (surface_callback (note_on note) w) s in
  operation s' = operation s
  /\ note_press s' = mkNotePress (Some note) true
  /\ bank_index s' = bank_index s
  /\ eq_led s' (bank_index s) note = Some (negb v)
  /\ osc_sent s'
     = (osc_sent s ++ [section_command s option (if v then 0 else 1)])%list
  /\ midi_sent s'
     = (midi_sent s ++ [mkMidiOut note (if v then 0 else 127)])%list.
Proof.
  intros Hm Hn Hb Ho Hv.
  destruct s as [[n st] [m strip pp] pl pd
                 [cur [mix0 eq0] [mix1 eq1] [mix2 eq2]] osc midi pr].
  unfold bank_index in *. simpl in Hm, Hn, Hb, Hv |- *. subst m st.
  assert (Hnote : In note [3; 6; 1; 4; 7; 10; 13; 16; 19; 22]).
  { revert Ho. unfold eq_led_trigger.
    repeat match goal with
           | |- (if ?x =? ?y then _ else _) = _ -> _ =>
               destruct (Z.eqb_spec x y); [intros _; subst; simpl; tauto |]
           end.
    discriminate. }
  assert (Hcur : cur = 0 \/ cur = 1 \/ cur = 2) by lia.
  destruct Hcur as [-> | [-> | ->]];
    unfold eq_led in Hv; simpl in Hv, Hnote;
    repeat (destruct Hnote as [<- | Hnote];
            [ injection Ho as <-;
              destruct v; run_eq Hv;
              rewrite ?get_set_same; repeat split; reflexivity
            | ]);
    contradiction.
Qed.

(** X6: in EQ mode with no key held, pressing a section button, releasing
    it and pressing it again sends the section's parameter twice with
    opposite values, first the opposite of the mirror entry, and leaves the
    entry at the value it had; the LED is written on, then off, or off,
    then on. *)
Theorem section_toggle_alternates
    (s : State) (note option : Z) (v : bool) (w1 w2 w3 : Waits) :
  op_mode (operation s) = EQ ->
  np_state (note_press s) = false ->
  0 <= bank_index s <= 2 ->
  eq_led_trigger note = Some option ->
  eq_led s (bank_index s) note = Some v ->
  let s' := after [surface (note_on note) w1; surface (note_off note) w2;
                   surface (note_on note) w3] s in
  eq_led s' (bank_index s) note = Some v
  /\ osc_sent s'
     = (osc_sent s ++ [section_command s option (if v then 0 else 1);
                       section_command s option (if v then 1 else 0)])%list
  /\ midi_sent s'
     = (midi_sent s ++ [mkMidiOut note (if v then 0 else 127);
                        mkMidiOut note (if v then 127 else 0)])%list.
Proof.
  intros Hm Hn Hb Ho Hv. cbv zeta. simpl after. unfold step.
  destruct (section_press_once s note option v w1 Hm Hn Hb Ho Hv)
    as (Ho1 & Hn1 & Hb1 & Hv1 & Hs1 & Hl1).
  set (s1 := exec (surface_callback (note_on note) w1) s) in *.
  rewrite (note_off_releases s1 note w2) by (rewrite Hn1; reflexivity).
  set (s2 := with_note_press s1 (mkNotePress None false)).
  assert (Ho2 : operation s2 = operation s) by exact Ho1.
  assert (Hm2 : op_mode (operation s2) = EQ) by (now rewrite Ho2).
  assert (Hb2 : bank_index s2 = bank_index s) by exact Hb1.
  assert (Hr : 0 <= bank_index s2 <= 2) by (rewrite Hb2; exact Hb).
  assert (Hv2 : eq_led s2 (bank_index s2) note = Some (negb v))
    by (rewrite Hb2; exact Hv1).
  destruct (section_press_once s2 note option (negb v) w3 Hm2 eq_refl Hr Ho Hv2)
    as (_ & _ & _ & Hv3 & Hs3 & Hl3).
  rewrite Hb2 in Hv3. rewrite negb_involutive in Hv3.
  split; [exact Hv3 |]. split.
  - rewrite Hs3. change (osc_sent s2) with (osc_sent s1).
    rewrite Hs1, <- app_assoc.
    unfold section_command, strip_arg, plugin_pos_arg. rewrite Ho2.
    destruct v; reflexivity.
  - rewrite Hl3. change (midi_sent s2) with (midi_sent s1).
    rewrite Hl1, <- app_assoc. destruct v; reflexivity.
Qed.

Lemma section_toggle_alternates_witness :
  let s := exec (surface_callback (note_off b_solo) quiet)
                (after enter_eq_on_strip_1 initial_state) in
  let s' := after [surface (note_on 3) quiet; surface (note_off 3) quiet;
                   surface (note_on 3) quiet] s in
  eq_led s' (bank_index s) 3 = Some true
  /\ osc_sent s'
     = (osc_sent s ++ [section_command s 1 (if true then 0 else 1);
                       section_command s 1 (if true then 1 else 0)])%list
  /\ midi_sent s'
     = (midi_sent s ++ [mkMidiOut 3 (if true then 0 else 127);
                        mkMidiOut 3 (if true then 127 else 0)])%list.
Proof.
  intro s.
  refine (section_toggle_alternates s 3 1 true quiet quiet quiet _ _ _ _ _);
    [ vm_compute; reflexivity | vm_compute; reflexivity
    | vm_compute; split; discriminate
    | reflexivity | vm_compute; reflexivity ].
Defined.

Ltac run_mix H1 H2 :=
  cbv -[Py.get Py.set app Py.getitem Z.modulo Z.sub]; rewrite ?H1;
  cbv -[Py.get Py.set app Py.getitem Z.modulo Z.sub]; rewrite ?H2;
  cbv -[Py.get Py.set app Py.getitem Z.modulo Z.sub]; rewrite ?H1;
  cbv -[Py.get Py.set app Py.getitem Z.modulo Z.sub]; rewrite ?get_set_same;
  cbv -[Py.get Py.set app Py.getitem Z.modulo Z.sub].

(** One press of note 24 in EQ mode, no key held: the mute of the active
    strip is commanded with the opposite of the mixer-mirror entry of the
    mute button at the strip's place, taken in the current bank; the entry
    is flipped and LED 24 shows the new value. *)
Lemma mix_mute_press_once (s : State) (strip m : Z) (v : bool) (w : Waits) :
  op_mode (operation s) = EQ ->
  np_state (note_press s) = false ->
  0 <= bank_index s <= 2 ->
  op_strip (operation s) = Some strip ->
  Py.getitem mutes (strip mod 8 - 1) = Some m ->
  mix_led s (bank_index s) m = Some v ->
  let s' := exec (surface_callback (note_on 24) w) s in
  operation s' = operation s
  /\ note_press s' = mkNotePress (Some 24) true
  /\ bank_index s' = bank_index s
  /\ mix_led s' (bank_index s) m = Some (negb v)
  /\ osc_sent s'
     = (osc_sent s ++ [mkOscOut "/strip/mute"
                         [VInt strip; VInt (if v then 0 else 1)]])%list
  /\ midi_sent s'
     = (midi_sent s ++ [mkMidiOut 24 (if v then 0 else 127)])%list.
Proof.
  intros Hm Hn Hb Hs Hg Hv.
  destruct s as [[n st] [md stp pp] pl pd
                 [cur [mix0 eq0] [mix1 eq1] [mix2 eq2]] osc midi pr].
  unfold bank_index in *. simpl in Hm, Hn, Hb, Hs, Hv |- *. subst md st stp.
  cbv -[Py.get Py.set app Py.getitem Z.modulo Z.sub] in Hg.
  assert (Hcur : cur = 0 \/ cur = 1 \/ cur = 2) by lia.
  destruct Hcur as [-> | [-> | ->]];
    unfold mix_led in Hv; simpl in Hv;
    destruct v; run_mix Hg Hv; rewrite ?get_set_same;
    repeat split; reflexivity.
Qed.

(** X7: in EQ mode with no key held, pressing note 24, releasing it and
    pressing it again sends /strip/mute for the active strip twice with
    opposite values, first the opposite of the mixer-mirror entry of the
    mute button at the strip's place (in the current bank), writes LED 24
    to the new value each time, and leaves the entry at the value it had. *)
Theorem mix_mute_toggle_alternates
    (s : State) (strip m : Z) (v : bool) (w1 w2 w3 : Waits) :
  op_mode (operation s) = EQ ->
  np_state (note_press s) = false ->
  0 <= bank_index s <= 2 ->
  op_strip (operation s) = Some strip ->
  Py.getitem mutes (strip mod 8 - 1) = Some m ->
  mix_led s (bank_index s) m = Some v ->
  let s' := after [surface (note_on 24) w1; surface (note_off 24) w2;
                   surface (note_on 24) w3] s in
  mix_led s' (bank_index s) m = Some v
  /\ osc_sent s'
     = (osc_sent s ++ [mkOscOut "/strip/mute" [VInt strip; VInt (if v then 0 else 1)];
                       mkOscOut "/strip/mute" [VInt strip; VInt (if v then 1 else 0)]])%list
  /\ midi_sent s'
     = (midi_sent s ++ [mkMidiOut 24 (if v then 0 else 127);
                        mkMidiOut 24 (if v then 127 else 0)])%list.
Proof.
  intros Hm Hn Hb Hs Hg Hv. cbv zeta. simpl after. unfold step.
  destruct (mix_mute_press_once s strip m v w1 Hm Hn Hb Hs Hg Hv)
    as (Ho1 & Hn1 & Hb1 & Hv1 & Hs1 & Hl1).
  set (s1 := exec (surface_callback (note_on 24) w1) s) in *.
  rewrite (note_off_releases s1 24 w2) by (rewrite Hn1; reflexivity).
  set (s2 := with_note_press s1 (mkNotePress None false)).
  assert (Ho2 : operation s2 = operation s) by exact Ho1.
  assert (Hm2 : op_mode (operation s2) = EQ) by (now rewrite Ho2).
  assert (Hs2 : op_strip (operation s2) = Some strip) by (now rewrite Ho2).
  assert (Hb2 : bank_index s2 = bank_index s) by exact Hb1.
  assert (Hr : 0 <= bank_index s2 <= 2) by (rewrite Hb2; exact Hb).
  assert (Hv2 : mix_led s2 (bank_index s2) m = Some (negb v))
    by (rewrite Hb2; exact Hv1).
  destruct (mix_mute_press_once s2 strip m (negb v) w3 Hm2 eq_refl Hr Hs2 Hg Hv2)
    as (_ & _ & _ & Hv3 & Hs3 & Hl3).
  rewrite Hb2 in Hv3. rewrite negb_involutive in Hv3.
  split; [exact Hv3 |]. split.
  - rewrite Hs3. change (osc_sent s2) with (osc_sent s1).
    rewrite Hs1, <- app_assoc. destruct v; reflexivity.
  - rewrite Hl3. change (midi_sent s2) with (midi_sent s1).
    rewrite Hl1, <- app_assoc. destruct v; reflexivity.
Qed.

Lemma mix_mute_toggle_alternates_witness :
  let s := exec (surface_callback (note_off b_solo) quiet)
                (after enter_eq_on_strip_1 initial_state) in
  let s' := after [surface (note_on 24) quiet; surface (note_off 24) quiet;
                   surface (note_on 24) quiet] s in
  mix_led s' (bank_index s) 1 = Some false
  /\ osc_sent s'
     = (osc_sent s ++ [mkOscOut "/strip/mute" [VInt 1; VInt (if false then 0 else 1)];
                       mkOscOut "/strip/mute" [VInt 1; VInt (if false then 1 else 0)]])%list
  /\ midi_sent s'
     = (midi_sent s ++ [mkMidiOut 24 (if false then 0 else 127);
                        mkMidiOut 24 (if false then 127 else 0)])%list.
Proof.
  intro s.
  refine (mix_mute_toggle_alternates s 1 1 false quiet quiet quiet _ _ _ _ _ _);
    [ vm_compute; reflexivity | vm_compute; reflexivity
    | vm_compute; split; discriminate
    | vm_compute; reflexivity | reflexivity | vm_compute; reflexivity ].
Defined.

(** ** Continuous controls in EQ mode, mapped *)

(** X8: in EQ mode, of the 33 continuous controls of the surface, seven
    raise KeyError out of the router and change nothing: fader 23 and the
    third-row knobs 22, 26, 30, 48, 52 and 56. Each of the other twenty-six
    sends exactly one command and changes nothing else: the master fader the
    active strip's fader level, knob 18 its pan, knob 60 its solo (on above
    90), and a control of the parameter map the slot of its entry with
    minimum + step * value, for the active module. *)
Theorem eq_mode_control_commands (s : State) (c v : Z) (w : Waits) :
  op_mode (operation s) = EQ ->
  Py.contains c (faders ++ knobs) = true ->
  (In c [22; 23; 26; 30; 48; 52; 56]
   /\ surface_callback (control_change c v) w s = (Raised Py.KeyError, s))
  \/ (~ In c [22; 23; 26; 30; 48; 52; 56]
      /\ exists cmd,
           eq_control_command s c v = Some cmd
           /\ surface_callback (control_change c v) w s
              = (Ok tt, with_osc_sent s (osc_sent s ++ [cmd]))).
Proof.
  intros Hm Hc. apply contains_In in Hc.
  assert (Hrun : surface_callback (control_change c v) w s
                 = match eq_control_command s c v with
                   | Some cmd => (Ok tt, with_osc_sent s (osc_sent s ++ [cmd]))
                   | None => (Raised Py.KeyError, s)
                   end).
  { rewrite surface_callback_control_change.
    unfold on_control_change, eq_control_command.
    rewrite bind_get_state, Hm.
    destruct (c =? 62); [reflexivity |].
    destruct (c =? 18); [reflexivity |].
    destruct (c =? 60); [reflexivity |].
    destruct (eq_fad_knob c); reflexivity. }
  rewrite Hrun. clear Hrun. unfold eq_control_command.
  simpl in Hc.
  repeat (destruct Hc as [<- | Hc];
          [ first [ left; split; [simpl; tauto | reflexivity]
                  | right; split;
                    [ simpl; intuition discriminate
                    | eexists; split; reflexivity ] ]
          | ]).
  contradiction.
Qed.

Lemma eq_mode_control_commands_witness :
  let s := after enter_eq_on_strip_1 initial_state in
  (In 27 [22; 23; 26; 30; 48; 52; 56]
   /\ surface_callback (control_change 27 64) quiet s = (Raised Py.KeyError, s))
  \/ (~ In 27 [22; 23; 26; 30; 48; 52; 56]
      /\ exists cmd,
           eq_control_command s 27 64 = Some cmd
           /\ surface_callback (control_change 27 64) quiet s
              = (Ok tt, with_osc_sent s (osc_sent s ++ [cmd]))).
Proof.
  intro s. refine (eq_mode_control_commands s 27 64 quiet _ _).
  - vm_compute. reflexivity.
  - reflexivity.
Defined.

(** X9: the parameter slots of the ten section buttons and of the
    twenty-three mapped continuous controls are thirty-three different
    slots, all within 1..34: no two controls of the surface write the same
    parameter of the equalizer, and every mapped control has one entry. *)
Theorem parameter_slots_distinct :
  NoDup parameter_slots
  /\ length parameter_slots = 33%nat
  /\ Forall (fun slot => 1 <= slot <= 34) parameter_slots
  /\ NoDup (map fst eq_fad_knob_table)
  /\ Forall (fun note => Py.contains note (mutes ++ recs) = true) section_notes.
Proof.
  assert (Hnd : forall l : list Z,
            (fix nodupb (l : list Z) : bool :=
               match l with
               | [] => true
               | x :: l' => negb (Py.contains x l') && nodupb l'
               end) l = true -> NoDup l).
  { induction l as [| x l IH]; intro H; constructor.
    - apply andb_true_iff in H as [H _]. apply negb_true_iff in H.
      intro Hin. apply contains_In in Hin. congruence.
    - apply IH. now apply andb_true_iff in H as [_ H]. }
  split; [apply Hnd; vm_compute; reflexivity |].
  split; [vm_compute; reflexivity |].
  split; [| split].
  - apply Forall_forall. intros slot Hin. vm_compute in Hin.
    repeat (destruct Hin as [<- | Hin]; [lia |]). contradiction.
  - apply Hnd. vm_compute. reflexivity.
  - repeat constructor.
Qed.

(** ** The linear maps *)

(** X10: over the raw values 0..127 every linear map of the router is
    strictly monotone in floating point: fader level, master gain, trim and
    every parameter of the map rise with the raw value, pan falls; trim
    stays within -20..20 and pan within 0..1; and raw value 0 gives exactly
    0.0 for the fader level, -193 for the master, -20 for trim, 1.0 for pan
    and the minimum of its entry for every parameter. *)
Theorem linear_maps_are_monotone (v : Z) :
  0 <= v < 127 ->
  step_up_ok v = true
  /\ fader_level 0 = 0%float
  /\ master_gain 0 = (-193)%float
  /\ role_valor role_trim 0 = (-20)%float
  /\ role_valor role_pan 0 = 1%float
  /\ Forall (fun kv => eq_parameter_value (snd kv) 0 = fk_min (snd kv))
            eq_fad_knob_table.
Proof.
  intro Hv. split.
  - assert (Hall : forallb step_up_ok (map Z.of_nat (seq 0 127)) = true)
      by (vm_compute; reflexivity).
    rewrite forallb_forall in Hall. apply Hall.
    apply in_map_iff. exists (Z.to_nat v). split; [lia |].
    apply in_seq. lia.
  - repeat split; try (vm_compute; reflexivity).
    repeat constructor.
Qed.

Lemma linear_maps_are_monotone_witness :
  step_up_ok 126 = true
  /\ fader_level 0 = 0%float
  /\ master_gain 0 = (-193)%float
  /\ role_valor role_trim 0 = (-20)%float
  /\ role_valor role_pan 0 = 1%float
  /\ Forall (fun kv => eq_parameter_value (snd kv) 0 = fk_min (snd kv))
            eq_fad_knob_table.
Proof.
  apply linear_maps_are_monotone. lia.
Defined.

(** ** Rendering the LEDs *)

Lemma render_run (d : Py.dict) (s : State) :
  render d s = (Ok tt, with_midi_sent s (midi_sent s ++ map led_of d)).
Proof.
  unfold render. revert s. induction d as [| [k v] d IH]; intro s; simpl.
  - rewrite app_nil_r. destruct s; reflexivity.
  - unfold bind.
    replace ((if v then enciende_led k else apaga_led k) s)
      with (Ok tt, with_midi_sent s (midi_sent s ++ [led_of (k, v)]))
      by (destruct v; reflexivity).
    rewrite IH. unfold with_midi_sent at 1. simpl.
    rewrite <- app_assoc. reflexivity.
Qed.

Lemma lit_untouched (trace : list MidiOut) (led : Z) (was : bool) :
  ~ In led (map led_note trace) -> lit trace led was = was.
Proof.
  revert was. induction trace as [| m trace IH]; intros was H; simpl;
    [reflexivity |].
  simpl in H. destruct (Z.eqb_spec (led_note m) led) as [E | E].
  - exfalso. apply H. now left.
  - apply IH. intro Hin. apply H. now right.
Qed.

Lemma led_notes_of_render (d : Py.dict) :
  map led_note (map led_of d) = Py.keys d.
Proof.
  unfold Py.keys. rewrite map_map. apply map_ext. intros [k v]. reflexivity.
Qed.

Lemma lit_render (d : Py.dict) (led : Z) (v was : bool) :
  NoDup (Py.keys d) -> Py.get d led = Some v ->
  lit (map led_of d) led was = v.
Proof.
  revert was. induction d as [| [k v0] d IH]; intros was Hnd Hg; simpl in *;
    [discriminate |].
  inversion Hnd as [| ? ? Hnot Hnd']. subst.
  destruct (Z.eqb_spec led k) as [-> | Hne].
  - injection Hg as <-. rewrite Z.eqb_refl.
    rewrite lit_untouched by (now rewrite led_notes_of_render).
    destruct v0; reflexivity.
  - replace (k =? led) with false by (symmetry; apply Z.eqb_neq; congruence).
    now apply IH.
Qed.

Lemma get_of_key (d : Py.dict) (led : Z) :
  In led (Py.keys d) -> exists v, Py.get d led = Some v.
Proof.
  induction d as [| [k v] d IH]; simpl; [contradiction |].
  intro H. destruct (Z.eqb_spec led k); [eexists; reflexivity |].
  destruct H as [H | H]; [congruence | now apply IH].
Qed.

Lemma key_of_get (d : Py.dict) (led : Z) (v : bool) :
  Py.get d led = Some v -> In led (Py.keys d).
Proof.
  induction d as [| [k v0] d IH]; simpl; [discriminate |].
  destruct (Z.eqb_spec led k); [now left | right; now apply IH].
Qed.

Lemma button_keys_distinct : NoDup (Py.keys all_off).
Proof.
  simpl. repeat (constructor; [simpl; intuition discriminate |]). constructor.
Qed.

Lemma set_led_status_mixer_run (t : State) (l : BankLeds) :
  op_mode (operation t) = mixer ->
  bank_get (bank t) (current (bank t)) = Some l ->
  set_led_status t
  = (Ok tt, with_midi_sent t (midi_sent t ++ mixer_page l (current (bank t)))).
Proof.
  intros Hm Hl. unfold set_led_status, mixer_page.
  rewrite bind_get_state, Hm, Hl. unfold or_raise.
  unfold bind at 1. unfold bind at 1. unfold ret at 1. cbv beta iota.
  unfold bind at 1. rewrite render_run. cbv beta iota.
  destruct (Z.eqb_spec (current (bank t)) 1) as [E1 | E1].
  - rewrite E1. cbn. rewrite Hm. unfold with_midi_sent; cbn.
    rewrite <- !app_assoc. reflexivity.
  - destruct (Z.eqb_spec (current (bank t)) 2) as [E2 | E2].
    + cbn. rewrite Hm. unfold with_midi_sent; cbn.
      rewrite <- !app_assoc. reflexivity.
    + cbn. rewrite Hm. unfold with_midi_sent; cbn.
      rewrite <- !app_assoc. reflexivity.
Qed.

Lemma lit_mixer_page (l : BankLeds) (cur led : Z) (v was : bool) :
  Py.keys (led_stat_mix l) = Py.keys all_off ->
  Py.get (led_stat_mix l) led = Some v ->
  lit (mixer_page l cur) led was = v.
Proof.
  intros Hk Hg. unfold mixer_page.
  assert (Hnd : NoDup (Py.keys (led_stat_mix l)))
    by (rewrite Hk; apply button_keys_distinct).
  rewrite lit_app, (lit_render _ _ v _ Hnd Hg).
  apply lit_untouched. apply key_of_get in Hg. rewrite Hk in Hg.
  simpl in *. intuition (subst; discriminate).
Qed.

Lemma lit_mixer_page_bank (l : BankLeds) (cur : Z) (was : bool) :
  Py.keys (led_stat_mix l) = Py.keys all_off ->
  lit (mixer_page l cur) b_left was = (cur =? 1)
  /\ lit (mixer_page l cur) b_right was = (cur =? 2).
Proof.
  intro Hk. unfold mixer_page. rewrite !lit_app.
  assert (Hl : forall was0, lit (map led_of (led_stat_mix l)) b_left was0 = was0).
  { intro was0. apply lit_untouched. rewrite led_notes_of_render, Hk.
    simpl. intuition discriminate. }
  assert (Hr : forall was0, lit (map led_of (led_stat_mix l)) b_right was0 = was0).
  { intro was0. apply lit_untouched. rewrite led_notes_of_render, Hk.
    simpl. intuition discriminate. }
  rewrite Hl, Hr. split; cbn.
  - destruct (cur =? 1); reflexivity.
  - destruct (cur =? 2); reflexivity.
Qed.

(** X11: in mixer mode [set_led_status] returns, changes nothing but the
    LED trace, and leaves the surface showing the mixer mirror of the
    current bank: every mute and rec LED is lit exactly when its entry is
    true, the bank-left LED exactly on bank 1 and the bank-right LED exactly
    on bank 2, whatever the LEDs showed before; rendering again shows the
    same. *)
Theorem mixer_render_shows_mirror (s : State) :
  op_mode (operation s) = mixer ->
  page_keys s ->
  let s' := exec set_led_status s in
  outcome set_led_status s = Ok tt
  /\ s' = with_midi_sent s (midi_sent s')
  /\ (forall led v was,
        mix_led s (bank_index s) led = Some v ->
        lit (midi_sent s') led was = v
        /\ lit (midi_sent (exec set_led_status s')) led was = v)
  /\ (forall was,
        lit (midi_sent s') b_left was = (bank_index s =? 1)
        /\ lit (midi_sent s') b_right was = (bank_index s =? 2)).
Proof.
  intros Hm Hk. unfold page_keys, mix_led, bank_index in *.
  destruct (bank_get (bank s) (current (bank s))) as [l |] eqn:Hl;
    [| contradiction].
  destruct Hk as [Hkm _].
  cbv zeta. pose proof (set_led_status_mixer_run s l Hm Hl) as Hs.
  assert (Es : exec set_led_status s
               = with_midi_sent s
                   (midi_sent s ++ mixer_page l (current (bank s))))
    by (unfold exec; rewrite Hs; reflexivity).
  split; [unfold outcome; rewrite Hs; reflexivity |].
  split; [rewrite Es; reflexivity |].
  split.
  - intros led v was Hg. split.
    + rewrite Es. cbn [midi_sent with_midi_sent]. rewrite lit_app.
      now apply lit_mixer_page.
    + unfold exec at 1.
      rewrite (set_led_status_mixer_run (exec set_led_status s) l)
        by (rewrite Es; assumption).
      cbn [snd midi_sent with_midi_sent]. rewrite lit_app.
      now apply lit_mixer_page.
  - intro was. rewrite Es. cbn [midi_sent with_midi_sent]. rewrite !lit_app.
    split; now apply lit_mixer_page_bank.
Qed.

Lemma mixer_render_shows_mirror_witness :
  let s := exec (deliver (mute_feedback 3 (VFloat 1))) initial_state in
  let s' := exec set_led_status s in
  outcome set_led_status s = Ok tt
  /\ s' = with_midi_sent s (midi_sent s')
  /\ (forall led v was,
        mix_led s (bank_index s) led = Some v ->
        lit (midi_sent s') led was = v
        /\ lit (midi_sent (exec set_led_status s')) led was = v)
  /\ (forall was,
        lit (midi_sent s') b_left was = (bank_index s =? 1)
        /\ lit (midi_sent s') b_right was = (bank_index s =? 2)).
Proof.
  intro s. refine (mixer_render_shows_mirror s _ _).
  - vm_compute. reflexivity.
  - vm_compute. split; reflexivity.
Defined.

(** X12: a bank press in mixer mode with no key held sends nothing to the
    console, leaves every mirror as it was, moves the bank index by the
    bank rule and leaves the surface showing the mixer mirror of the bank
    it lands on, with the bank LEDs of that bank. *)
Theorem bank_press_shows_new_page (s : State) (note : Z) (w : Waits) :
  op_mode (operation s) = mixer ->
  np_state (note_press s) = false ->
  is_bank_button note = true ->
  0 <= bank_index s <= 2 ->
  all_pages_keyed s ->
  let page := bank_after_press note (bank_index s) in
  let s' := exec (surface_callback (note_on note) w) s in
  bank s' = with_current (bank s) page
  /\ osc_sent s' = osc_sent s
  /\ (forall led v was,
        mix_led s page led = Some v -> lit (midi_sent s') led was = v)
  /\ (forall was,
        lit (midi_sent s') b_left was = (page =? 1)
        /\ lit (midi_sent s') b_right was = (page =? 2)).
Proof.
  intros Hm Hn Hb Hr Hk page s'.
  assert (Hpage : 0 <= page <= 2).
  { unfold page, bank_after_press.
    destruct (note =? b_left);
      [destruct (Z.eqb_spec (bank_index s) 0) | destruct (Z.eqb_spec (bank_index s) 2)];
      lia. }
  destruct (bank_get_valid (bank s) page Hpage) as [l Hl].
  set (t := with_bank s (with_current (bank s) page)).
  assert (Ht : exec (surface_callback (note_on note) w) s
               = with_midi_sent t (midi_sent t ++ mixer_page l page)).
  { unfold exec. rewrite surface_callback_note_on.
    unfold try_print, on_note_on. rewrite bind_get_state, Hn, Hm.
    unfold is_bank_button in Hb. unfold page, bank_after_press, bank_index in *.
    assert (Hrender : forall t0,
              operation t0 = operation s ->
              bank t0 = with_current (bank s) (current (bank t0)) ->
              bank_get (bank s) (current (bank t0)) = Some l ->
              snd (let (r, s0) := set_led_status t0 in
                   match r with
                   | Ok _ => (@Ok unit tt, s0)
                   | Raised e => (Ok tt, with_printed s0 (printed s0 ++ [e]))
                   end)
              = with_midi_sent t0 (midi_sent t0 ++ mixer_page l (current (bank t0)))).
    { intros t0 Ho Hbk Hg.
      rewrite (set_led_status_mixer_run t0 l); [reflexivity | now rewrite Ho |].
      rewrite Hbk at 1. exact Hg. }
    destruct (note =? b_left) eqn:El.
    - destruct (Z.ltb_spec 0 (current (bank s)));
        destruct (Z.eqb_spec (current (bank s)) 0); try lia.
      + rewrite bind_modify. rewrite Hrender; [reflexivity | reflexivity | reflexivity | exact Hl].
      + unfold bind at 1. unfold ret at 1. cbv beta iota.
        rewrite Hrender; [| reflexivity | destruct s as [? ? ? ? []]; reflexivity
                          | now replace (current (bank s)) with 0 by lia].
        unfold t. replace (current (bank s)) with 0 by lia.
        destruct s as [? ? ? ? []]; simpl in *; subst; reflexivity.
    - cbn [orb] in Hb. rewrite Hb.
      destruct (Z.ltb_spec (current (bank s)) 2);
        destruct (Z.eqb_spec (current (bank s)) 2); try lia.
      + rewrite bind_modify. rewrite Hrender; [reflexivity | reflexivity | reflexivity | exact Hl].
      + unfold bind at 1. unfold ret at 1. cbv beta iota.
        rewrite Hrender; [| reflexivity | destruct s as [? ? ? ? []]; reflexivity
                          | now replace (current (bank s)) with 2 by lia].
        unfold t. replace (current (bank s)) with 2 by lia.
        destruct s as [? ? ? ? []]; simpl in *; subst; reflexivity. }
  unfold s'. rewrite Ht. clear Ht.
  split; [reflexivity |]. split; [reflexivity |].
  assert (Hkl : Py.keys (led_stat_mix l) = Py.keys all_off) by (eapply Hk; eassumption).
  split.
  - intros led v was Hg. cbn [midi_sent with_midi_sent]. rewrite lit_app.
    apply lit_mixer_page; [exact Hkl |].
    unfold mix_led in Hg. now rewrite Hl in Hg.
  - intro was. cbn [midi_sent with_midi_sent]. rewrite !lit_app.
    split; now apply lit_mixer_page_bank.
Qed.

Lemma bank_press_shows_new_page_witness :
  let s := exec (deliver (mute_feedback 11 (VFloat 1))) initial_state in
  let page := bank_after_press b_right (bank_index s) in
  let s' := exec (surface_callback (note_on b_right) quiet) s in
  bank s' = with_current (bank s) page
  /\ osc_sent s' = osc_sent s
  /\ (forall led v was,
        mix_led s page led = Some v -> lit (midi_sent s') led was = v)
  /\ (forall was,
        lit (midi_sent s') b_left was = (page =? 1)
        /\ lit (midi_sent s') b_right was = (page =? 2)).
Proof.
  intro s. refine (bank_press_shows_new_page s b_right quiet _ _ _ _ _).
  - vm_compute. reflexivity.
  - vm_compute. reflexivity.
  - reflexivity.
  - vm_compute. split; discriminate.
  - intros k l. unfold bank_get.
    destruct (k =? 0); [intro H; injection H as <-; reflexivity |].
    destruct (k =? 1); [intro H; injection H as <-; reflexivity |].
    destruct (k =? 2); [intro H; injection H as <-; reflexivity | discriminate].
Defined.

(** ** Project load *)

Lemma lit_all_off (leds : list Z) (led : Z) (was : bool) :
  In led leds -> lit (map led_off leds) led was = false.
Proof.
  revert was. induction leds as [| k leds IH]; intros was Hin; simpl;
    [contradiction |].
  destruct (in_dec Z.eq_dec led leds) as [Hl | Hl].
  - now apply IH.
  - destruct Hin as [-> | Hin]; [| contradiction].
    rewrite Z.eqb_refl.
    apply lit_untouched. rewrite map_map. simpl. now rewrite map_id.
Qed.

(** X13: a ['/master/name'] of one blank blanks the surface: with the mixer
    mirror of bank 0 holding the sixteen button keys, every button LED and
    both bank LEDs are dark afterwards, whatever they showed, and nothing
    but the LED output changes; any other name changes nothing at all. *)
Theorem project_load_blanks_surface (s : State) (valor : Val) :
  button_keys s ->
  let s' := exec (deliver (master_name valor)) s in
  (valor = VStr " " ->
     s' = with_midi_sent s (midi_sent s')
     /\ forall led was,
          In led (b_left :: b_right :: Py.keys all_off) ->
          lit (midi_sent s') led was = false)
  /\ (valor <> VStr " " -> s' = s).
Proof.
  intros Hk s'. split.
  - intros ->. unfold s', exec, deliver, master_name, datagram_received.
    cbn [in_path in_args String.eqb Ascii.eqb Bool.eqb andb snd load_project].
    change (snd (Ok tt, snd (apaga_leds s))) with (snd (apaga_leds s)).
    rewrite apaga_leds_run. cbn [snd midi_sent with_midi_sent].
    split; [destruct s; reflexivity |].
    intros led was Hin. rewrite lit_app. rewrite Hk.
    change (led_off b_right :: led_off b_left :: map led_off (Py.keys all_off))
      with (map led_off (b_right :: b_left :: Py.keys all_off)).
    apply lit_all_off.
    destruct Hin as [<- | [<- | Hin]];
      [right; now left | now left | right; now right].
  - intro Hne. unfold s', exec, deliver, master_name, datagram_received.
    cbn [in_path in_args String.eqb Ascii.eqb Bool.eqb andb snd].
    unfold load_project.
    destruct valor as [| | str | | |]; try reflexivity.
    destruct str as [| a [| a' str']]; try reflexivity;
      destruct a as [[] [] [] [] [] [] [] []]; try reflexivity.
    now elim Hne.
Qed.

Lemma project_load_blanks_surface_witness :
  let s := exec (deliver (mute_feedback 3 (VFloat 1))) initial_state in
  let s' := exec (deliver (master_name (VStr " "))) s in
  (VStr " " = VStr " " ->
     s' = with_midi_sent s (midi_sent s')
     /\ forall led was,
          In led (b_left :: b_right :: Py.keys all_off) ->
          lit (midi_sent s') led was = false)
  /\ (VStr " " <> VStr " " -> s' = s).
Proof.
  intro s. refine (project_load_blanks_surface s (VStr " ") _).
  vm_compute. reflexivity.
Defined.

(** ** The scan of the list reply *)

Lemma nth_error_every_third {A : Type} (i : nat) :
  forall t : list A, nth_error (Py.every_third t) i = nth_error t (3 * i).
Proof.
  induction i as [| i IH]; intro t.
  - destruct t as [| x [| y [| z t']]]; reflexivity.
  - replace (3 * S i)%nat with (S (S (S (3 * i)))) by lia.
    destruct t as [| x [| y [| z t']]]; simpl; try reflexivity.
    + now destruct i.
    + now destruct i.
    + apply IH.
Qed.

Lemma nth_error_slice_4_3 {A : Type} (t : list A) (i : nat) :
  nth_error (Py.slice_4_3 t) i = nth_error t (4 + 3 * i).
Proof.
  unfold Py.slice_4_3. rewrite nth_error_every_third.
  now rewrite nth_error_skipn.
Qed.

Lemma name_field_slice (plugin_list : list Val) (p : Z) :
  1 <= p ->
  name_field plugin_list p
  = nth_error (Py.slice_4_3 plugin_list) (Z.to_nat (p - 1)).
Proof.
  intro Hp. unfold name_field, Py.getitem.
  destruct (Z.ltb_spec (3 * p + 1) 0); [lia |].
  rewrite nth_error_slice_4_3. f_equal. lia.
Qed.

Lemma positions_from_spec (name : string) (names : list Val) :
  forall i p,
    In p (positions_from i name names)
    <-> i < p /\ exists v, nth_error names (Z.to_nat (p - i - 1)) = Some v
                           /\ is_name name v = true.
Proof.
  induction names as [| v names IH]; intros i p; simpl.
  - split; [contradiction |]. intros [_ [v [H _]]].
    now destruct (Z.to_nat (p - i - 1)).
  - assert (Hrest : In p (positions_from (i + 1) name names)
                    <-> i + 1 < p
                        /\ exists v0, nth_error names (Z.to_nat (p - (i + 1) - 1)) = Some v0
                                      /\ is_name name v0 = true) by apply IH.
    assert (Hshift : i + 1 < p ->
                     Z.to_nat (p - i - 1) = S (Z.to_nat (p - (i + 1) - 1))) by lia.
    destruct (is_name name v) eqn:Ev.
    + simpl. rewrite Hrest. split.
      * intros [<- | [Hlt [v0 [Hn Hv]]]].
        -- split; [lia |]. exists v. replace (i + 1 - i - 1) with 0 by lia.
           now split.
        -- split; [lia |]. exists v0. rewrite (Hshift Hlt). now split.
      * intros [Hlt [v0 [Hn Hv]]].
        destruct (Z.eq_dec p (i + 1)) as [-> | Hne]; [now left | right].
        assert (Hlt' : i + 1 < p) by lia.
        split; [exact Hlt' |]. exists v0.
        rewrite (Hshift Hlt') in Hn. now split.
    + rewrite Hrest. split.
      * intros [Hlt [v0 [Hn Hv]]].
        split; [lia |]. exists v0. rewrite (Hshift Hlt). now split.
      * intros [Hlt [v0 [Hn Hv]]].
        destruct (Z.eq_dec p (i + 1)) as [-> | Hne].
        -- replace (i + 1 - i - 1) with 0 in Hn by lia. simpl in Hn.
           injection Hn as <-. congruence.
        -- assert (Hlt' : i + 1 < p) by lia.
           split; [exact Hlt' |]. exists v0.
           rewrite (Hshift Hlt') in Hn. now split.
Qed.

Lemma positions_from_above (name : string) (names : list Val) :
  forall i, Forall (fun p => i < p) (positions_from i name names).
Proof.
  intro i. apply Forall_forall. intros p Hin.
  now apply positions_from_spec in Hin.
Qed.

Lemma positions_from_sorted (name : string) (names : list Val) :
  forall i, StronglySorted Z.lt (positions_from i name names).
Proof.
  induction names as [| v names IH]; intro i; simpl; [constructor |].
  destruct (is_name name v); [| apply IH].
  constructor; [apply IH | apply positions_from_above].
Qed.

Lemma existsb_is_name (name : string) (names : list Val) :
  existsb (is_name name) names = true
  <-> exists j v, nth_error names j = Some v /\ is_name name v = true.
Proof.
  rewrite existsb_exists. split.
  - intros [v [Hin Hv]]. apply In_nth_error in Hin as [j Hj]. now exists j, v.
  - intros [j [v [Hj Hv]]]. exists v. split; [| exact Hv].
    eapply nth_error_In; eassumption.
Qed.

Lemma named_in_slice (plugin_list : list Val) (name : string) :
  existsb (is_name name) (Py.slice_4_3 plugin_list) = true
  <-> exists p, named plugin_list name p.
Proof.
  rewrite existsb_is_name. split.
  - intros [j [v [Hj Hv]]]. exists (Z.of_nat j + 1). split; [lia |].
    exists v. split; [| exact Hv].
    rewrite name_field_slice by lia.
    now replace (Z.to_nat (Z.of_nat j + 1 - 1)) with j by lia.
  - intros [p [Hp [v [Hf Hv]]]]. rewrite name_field_slice in Hf by exact Hp.
    now exists (Z.to_nat (p - 1)), v.
Qed.

Lemma positions_are_named (plugin_list : list Val) (name : string) (p : Z) :
  In p (positions_from 0 name (Py.slice_4_3 plugin_list))
  <-> named plugin_list name p.
Proof.
  rewrite positions_from_spec. unfold named. split.
  - intros [Hlt [v [Hn Hv]]]. split; [lia |]. exists v.
    rewrite name_field_slice by lia.
    now replace (p - 1) with (p - 0 - 1) by lia.
  - intros [Hp [v [Hf Hv]]]. split; [lia |]. exists v.
    rewrite name_field_slice in Hf by exact Hp.
    now replace (p - 0 - 1) with (p - 1) by lia.
Qed.

(** X14: the scan of a list reply. It falls back (no candidates) exactly
    when no plugin of the reply is named as the mono or the stereo
    equalizer; otherwise the candidates are, in rising order and without
    repeats, exactly the 1-based positions of the plugins whose name field
    is the searched name (mono when the reply names a mono equalizer, else
    stereo), and there is at least one. *)
Theorem candidates_are_named_positions (plugin_list : list Val) :
  match candidates plugin_list with
  | None =>
      forall p, ~ named plugin_list mono p /\ ~ named plugin_list stereo p
  | Some m_pos =>
      m_pos <> []
      /\ StronglySorted Z.lt m_pos
      /\ (forall p, In p m_pos <-> named plugin_list (searched_name plugin_list) p)
      /\ (searched_name plugin_list = stereo ->
          forall p, ~ named plugin_list mono p)
  end.
Proof.
  unfold candidates, searched_name.
  destruct (Z.ltb_spec (Z.of_nat (length plugin_list)) 4) as [Hshort | Hlong].
  - intro p. split; intros [Hp [v [Hf _]]];
      unfold name_field, Py.getitem in Hf;
      (destruct (Z.ltb_spec (3 * p + 1) 0); [lia |]);
      (assert (Hlt : (Z.to_nat (3 * p + 1) < length plugin_list)%nat)
         by (apply nth_error_Some; congruence));
      lia.
  - destruct (existsb (is_name mono) (Py.slice_4_3 plugin_list)) eqn:Em;
      cbn [negb andb].
    + split; [| split; [apply positions_from_sorted | split]].
      * apply named_in_slice in Em as [p Hp].
        apply positions_are_named in Hp. intro E. now rewrite E in Hp.
      * intro p. apply positions_are_named.
      * intro E. discriminate E.
    + assert (Hno : forall p, ~ named plugin_list mono p).
      { intros p Hp.
        assert (H : existsb (is_name mono) (Py.slice_4_3 plugin_list) = true)
          by (apply named_in_slice; now exists p).
        congruence. }
      destruct (existsb (is_name stereo) (Py.slice_4_3 plugin_list)) eqn:Es;
        cbn [negb].
      * split; [| split; [apply positions_from_sorted | split]].
        -- apply named_in_slice in Es as [p Hp].
           apply positions_are_named in Hp. intro E. now rewrite E in Hp.
        -- intro p. apply positions_are_named.
        -- intros _. exact Hno.
      * intro p. split; [apply Hno |]. intro Hp.
        assert (H : existsb (is_name stereo) (Py.slice_4_3 plugin_list) = true)
          by (apply named_in_slice; now exists p).
        congruence.
Qed.

Lemma candidates_are_named_positions_witness :
  let reply := list_reply 1 [mono; "a-comp"; mono] in
  let plugin_list := plugin_list (exec (deliver reply) initial_state) in
  [1; 3] <> []
  /\ StronglySorted Z.lt [1; 3]
  /\ (forall p, In p [1; 3] <-> named plugin_list (searched_name plugin_list) p)
  /\ (searched_name plugin_list = stereo ->
      forall p, ~ named plugin_list mono p).
Proof.
  exact (candidates_are_named_positions
           (plugin_list (exec (deliver (list_reply 1 [mono; "a-comp"; mono]))
                              initial_state))).
Defined.

(** ** The keys of the mirrors *)

Lemma preserves_get_state (I : State -> Prop) : preserves I get_state.
Proof. intros s Hs. exact Hs. Qed.

Lemma preserves_or_raise {A : Type} (I : State -> Prop) (e : Py.Exn) (o : option A) :
  preserves I (or_raise e o).
Proof. destruct o; intros s Hs; exact Hs. Qed.

Lemma preserves_try_pass (I : State -> Prop) (body : M unit) :
  preserves I body -> preserves I (try_pass body).
Proof. intros H s Hs. exact (H s Hs). Qed.

Lemma preserves_bind_raise {A B : Type} (I : State -> Prop) (e : Py.Exn)
    (k : A -> M B) :
  preserves I (bind (raise e) k).
Proof. intros s Hs. exact Hs. Qed.

Lemma preserves_bind_assoc {A B C : Type} (I : State -> Prop)
    (c : M A) (f : A -> M B) (k : B -> M C) :
  preserves I (bind c (fun a => bind (f a) k)) -> preserves I (bind (bind c f) k).
Proof.
  intros H s Hs. specialize (H s Hs). unfold exec, bind in *.
  destruct (c s) as [[a | e] s']; exact H.
Qed.

Lemma preserves_for_each_in {A : Type} (I : State -> Prop) (l : list A)
    (body : A -> M unit) :
  (forall x, In x l -> preserves I (body x)) -> preserves I (for_each l body).
Proof.
  induction l as [| x l IH]; intro Hb; simpl.
  - apply preserves_ret.
  - apply preserves_bind; [apply Hb; now left |].
    intros _. apply IH. intros y Hy. apply Hb. now right.
Qed.

Lemma preserves_at {A : Type} (I : State -> Prop) (c : M A) (s : State) :
  I s -> preserves I c -> I (exec c s).
Proof. intros Hs H. exact (H s Hs). Qed.

Lemma preserves_bind_get_state {B : Type} (I : State -> Prop) (k : State -> M B) :
  (forall s, I s -> I (exec (k s) s)) -> preserves I (bind get_state k).
Proof. intros H s Hs. exact (H s Hs). Qed.

Lemma keyed_modify (f : State -> State) :
  (forall s, mirrors (f s) = mirrors s) -> preserves mirrors_keyed (modify f).
Proof.
  intros H s Hs. specialize (H s). unfold mirrors in H.
  injection H as H0 H1 H2.
  unfold exec, modify, mirrors_keyed in *. cbn [snd].
  now rewrite H0, H1, H2.
Qed.

Lemma keyed_try_print (body : M unit) :
  preserves mirrors_keyed body -> preserves mirrors_keyed (try_print body).
Proof.
  intros H s Hs. specialize (H s Hs). unfold exec, try_print in *.
  destruct (body s) as [[a | e] s']; exact H.
Qed.

Lemma keyed_mmix_out_send (m : MidiOut) : preserves mirrors_keyed (mmix_out_send m).
Proof. intros s Hs. exact Hs. Qed.

Lemma keyed_osc_send (a : string) (args : list Val) :
  preserves mirrors_keyed (osc_send a args).
Proof. intros s Hs. exact Hs. Qed.

Lemma keyed_enciende_led (led : Z) : preserves mirrors_keyed (enciende_led led).
Proof. intros s Hs. exact Hs. Qed.

Lemma keyed_apaga_led (led : Z) : preserves mirrors_keyed (apaga_led led).
Proof. intros s Hs. exact Hs. Qed.

Lemma keyed_get_plugin_list (args : list Val) :
  preserves mirrors_keyed (get_plugin_list args).
Proof. intros s Hs. exact Hs. Qed.

Lemma keyed_get_plugin_desc (args : list Val) :
  preserves mirrors_keyed (get_plugin_desc args).
Proof. intros s Hs. exact Hs. Qed.

Lemma keyed_set_led_stat_mix (k led : Z) (v : bool) :
  In led (Py.keys all_off) ->
  preserves mirrors_keyed (set_led_stat_mix k led v).
Proof.
  intros Hl s [[M0 E0] [[M1 E1] [M2 E2]]].
  unfold set_led_stat_mix, exec. rewrite bind_get_state.
  unfold bind, or_raise, ret, raise, modify, mirrors_keyed, keyed,
    bank_get, bank_put.
  destruct (k =? 0); [| destruct (k =? 1); [| destruct (k =? 2)]];
    cbn [snd fst bank with_bank bank_0 bank_1 bank_2 led_stat_mix led_stat_eq];
    rewrite ?keys_set_known by congruence; auto.
Qed.

Lemma keyed_set_led_stat_eq (k led : Z) (v : bool) :
  In led (Py.keys all_off) ->
  preserves mirrors_keyed (set_led_stat_eq k led v).
Proof.
  intros Hl s [[M0 E0] [[M1 E1] [M2 E2]]].
  unfold set_led_stat_eq, exec. rewrite bind_get_state.
  unfold bind, or_raise, ret, raise, modify, mirrors_keyed, keyed,
    bank_get, bank_put.
  destruct (k =? 0); [| destruct (k =? 1); [| destruct (k =? 2)]];
    cbn [snd fst bank with_bank bank_0 bank_1 bank_2 led_stat_mix led_stat_eq];
    rewrite ?keys_set_known by congruence; auto.
Qed.

(** Where the notes written to the mirrors come from. *)
Lemma key_of_mutes_getitem (i led : Z) :
  Py.getitem mutes i = Some led -> In led (Py.keys all_off).
Proof. intro H. now apply getitem_In, mutes_are_keys in H. Qed.

Lemma key_of_recs_getitem (i led : Z) :
  Py.getitem recs i = Some led -> In led (Py.keys all_off).
Proof. intro H. now apply getitem_In, recs_are_keys in H. Qed.

Lemma key_of_mutes_contains (led : Z) :
  Py.contains led mutes = true -> In led (Py.keys all_off).
Proof. intro H. now apply contains_In, mutes_are_keys in H. Qed.

Lemma key_of_recs_contains (led : Z) :
  Py.contains led recs = true -> In led (Py.keys all_off).
Proof. intro H. now apply contains_In, recs_are_keys in H. Qed.

Lemma key_of_mutes_index (led i : Z) :
  Py.index led mutes = Some i -> In led (Py.keys all_off).
Proof. intro H. now apply contains_of_index, key_of_mutes_contains in H. Qed.

Lemma key_of_recs_index (led i : Z) :
  Py.index led recs = Some i -> In led (Py.keys all_off).
Proof. intro H. now apply contains_of_index, key_of_recs_contains in H. Qed.

Lemma key_of_trigger (note option : Z) :
  eq_led_trigger note = Some option -> In note (Py.keys all_off).
Proof.
  unfold eq_led_trigger.
  repeat match goal with
         | |- context [note =? ?c] =>
             destruct (Z.eqb_spec note c) as [-> | _]; [intros _; simpl; tauto |]
         end.
  discriminate.
Qed.

Lemma key_of_eq_leds (name : Val) (led : Z) :
  match name with VStr n => eq_leds n | _ => None end = Some led ->
  In led (Py.keys all_off).
Proof.
  destruct name as [| | n | | |]; try discriminate. unfold eq_leds.
  repeat (destruct (_ =? _)%string;
          [intro H; injection H as <-; simpl; tauto |]).
  discriminate.
Qed.

Lemma key_21 : In 21 (Py.keys all_off).
Proof. simpl. tauto. Qed.

Create HintDb keyed.

#[export] Hint Resolve keyed_mmix_out_send keyed_osc_send keyed_enciende_led
  keyed_apaga_led keyed_get_plugin_list keyed_get_plugin_desc
  keyed_set_led_stat_mix keyed_set_led_stat_eq
  key_of_mutes_getitem key_of_recs_getitem key_of_mutes_contains
  key_of_recs_contains key_of_mutes_index key_of_recs_index key_of_trigger
  key_of_eq_leds key_21 : keyed.

(** One step of a proof that a computation keeps the keys of the mirrors:
    follow the shape of the computation, remembering what each lookup
    returned. *)
Ltac keyed_step :=
  lazymatch goal with
  | |- preserves _ (bind (bind _ _) _) => apply preserves_bind_assoc
  | |- preserves _ (bind (ret _) _) => apply preserves_bind_ret
  | |- preserves _ (bind (raise _) _) => apply preserves_bind_raise
  | |- preserves _ (bind (or_raise _ ?o) _) =>
      unfold or_raise at 1; destruct o eqn:?
  | |- preserves _ (bind (match ?x with _ => _ end) _) => destruct x eqn:?
  | |- preserves _ (bind _ _) => apply preserves_bind; [| intro]
  | |- preserves _ (ret _) => apply preserves_ret
  | |- preserves _ (raise _) => apply preserves_raise
  | |- preserves _ get_state => apply preserves_get_state
  | |- preserves _ (or_raise _ _) => apply preserves_or_raise
  | |- preserves _ (for_each _ _) => apply preserves_for_each_in; intros ? ?
  | |- preserves _ (try_pass _) => apply preserves_try_pass
  | |- preserves _ (modify _) => apply keyed_modify; intro; reflexivity
  | |- preserves _ (match ?x with _ => _ end) => destruct x eqn:?
  | |- preserves _ _ => solve [eauto with keyed]
  end.

Ltac keyed_tac := cbv zeta; repeat (keyed_step; cbv beta zeta; cbn [fst snd]).

Lemma keyed_get_led_stat_mix (k led : Z) :
  preserves mirrors_keyed (get_led_stat_mix k led).
Proof. unfold get_led_stat_mix. keyed_tac. Qed.

Lemma keyed_get_led_stat_eq (k led : Z) :
  preserves mirrors_keyed (get_led_stat_eq k led).
Proof. unfold get_led_stat_eq. keyed_tac. Qed.

Lemma keyed_active_strip_mute : preserves mirrors_keyed active_strip_mute.
Proof. unfold active_strip_mute. keyed_tac. Qed.

#[export] Hint Resolve keyed_get_led_stat_mix keyed_get_led_stat_eq
  keyed_active_strip_mute : keyed.

Lemma keyed_apaga_leds : preserves mirrors_keyed apaga_leds.
Proof. unfold apaga_leds. keyed_tac. Qed.

Lemma keyed_render (d : Py.dict) : preserves mirrors_keyed (render d).
Proof. unfold render. keyed_tac. Qed.

#[export] Hint Resolve keyed_apaga_leds keyed_render : keyed.

Lemma keyed_set_led_status : preserves mirrors_keyed set_led_status.
Proof. unfold set_led_status. keyed_tac. Qed.

#[export] Hint Resolve keyed_set_led_status : keyed.

Lemma keyed_set_mixer_mode : preserves mirrors_keyed set_mixer_mode.
Proof. unfold set_mixer_mode. keyed_tac. Qed.

Lemma keyed_event_recenable (strip_id : Z) (valor : Val) :
  preserves mirrors_keyed (event_recenable strip_id valor).
Proof. unfold event_recenable. keyed_tac. Qed.

Lemma keyed_event_mute (strip_id : Z) (valor : Val) :
  preserves mirrors_keyed (event_mute strip_id valor).
Proof. unfold event_mute. keyed_tac. Qed.

Lemma keyed_load_project (valor : Val) :
  preserves mirrors_keyed (load_project valor).
Proof. unfold load_project. keyed_tac. Qed.

#[export] Hint Resolve keyed_set_mixer_mode keyed_event_recenable
  keyed_event_mute keyed_load_project : keyed.

Lemma keyed_datagram_received (m : OscIn) :
  preserves mirrors_keyed (datagram_received m).
Proof. unfold datagram_received. keyed_tac. Qed.

Lemma keyed_deliver (m : OscIn) : preserves mirrors_keyed (deliver m).
Proof. intros s Hs. exact (keyed_datagram_received m s Hs). Qed.

#[export] Hint Resolve keyed_deliver : keyed.

Lemma keyed_sleep (arrivals : list OscIn) : preserves mirrors_keyed (sleep arrivals).
Proof. unfold sleep. keyed_tac. Qed.

#[export] Hint Resolve keyed_sleep : keyed.

Lemma keyed_slot (s : State) (k : Z) (l : BankLeds) :
  mirrors_keyed s -> bank_get (bank s) k = Some l -> keyed l.
Proof.
  intros [H0 [H1 H2]]. unfold bank_get.
  destruct (k =? 0); [intro E; injection E as <-; exact H0 |].
  destruct (k =? 1); [intro E; injection E as <-; exact H1 |].
  destruct (k =? 2); [intro E; injection E as <-; exact H2 | discriminate].
Qed.

(** The descriptor pass blanks the keys the EQ mirror holds and seeds LEDs
    of [eq_leds]: button keys all of them. *)
Lemma keyed_descriptor_pass : preserves mirrors_keyed descriptor_pass.
Proof.
  unfold descriptor_pass. apply preserves_bind_get_state. intros s Hs.
  cbv zeta. apply preserves_at; [exact Hs |].
  unfold or_raise at 1.
  destruct (bank_get (bank s) (current (bank s))) as [l |] eqn:El;
    [| apply preserves_bind_raise].
  apply preserves_bind_ret.
  destruct (keyed_slot s _ l Hs El) as [_ He]. rewrite He.
  keyed_tac.
Qed.

#[export] Hint Resolve keyed_descriptor_pass : keyed.

Lemma keyed_espera_indice_modulo_eq (note : Z) (w : Waits) :
  preserves mirrors_keyed (espera_indice_modulo_eq note w).
Proof. unfold espera_indice_modulo_eq. keyed_tac. Qed.

Lemma keyed_search_eq_strip (strip_id : Z) (w : Waits) :
  preserves mirrors_keyed (search_eq_strip strip_id w).
Proof. unfold search_eq_strip. keyed_tac. Qed.

#[export] Hint Resolve keyed_espera_indice_modulo_eq keyed_search_eq_strip : keyed.

Lemma keyed_solo_chord (note : Z) (w : Waits) :
  preserves mirrors_keyed (solo_chord note w).
Proof. unfold solo_chord, enter_eq. keyed_tac. Qed.

Lemma keyed_trigger_mute (led_id : Z) : preserves mirrors_keyed (trigger_mute led_id).
Proof. unfold trigger_mute, active_strip_mute. keyed_tac. Qed.

Lemma keyed_trigger_rec (led_id : Z) :
  preserves mirrors_keyed (trigger_rec led_id None).
Proof. unfold trigger_rec. keyed_tac. Qed.

Lemma keyed_operar_led (led_id : Z) :
  In led_id (Py.keys all_off) -> preserves mirrors_keyed (operar_led led_id).
Proof. intro H. unfold operar_led. keyed_tac. Qed.

#[export] Hint Resolve keyed_solo_chord keyed_trigger_mute keyed_trigger_rec
  keyed_operar_led : keyed.

Lemma keyed_mixer_press (note : Z) : preserves mirrors_keyed (mixer_press note).
Proof. unfold mixer_press. keyed_tac. Qed.

Lemma keyed_eq_press (note : Z) : preserves mirrors_keyed (eq_press note).
Proof. unfold eq_press. keyed_tac. Qed.

#[export] Hint Resolve keyed_mixer_press keyed_eq_press : keyed.

Lemma keyed_on_note_on (note : Z) (w : Waits) :
  preserves mirrors_keyed (on_note_on note w).
Proof. unfold on_note_on. keyed_tac. Qed.

Lemma keyed_on_note_off (note : Z) : preserves mirrors_keyed (on_note_off note).
Proof. unfold on_note_off. keyed_tac. Qed.

Lemma keyed_on_control_change (control value : Z) :
  preserves mirrors_keyed (on_control_change control value).
Proof. unfold on_control_change. keyed_tac. Qed.

Lemma keyed_surface_callback (msg : MidiIn) (w : Waits) :
  preserves mirrors_keyed (surface_callback msg w).
Proof.
  unfold surface_callback. apply preserves_bind.
  - apply keyed_try_print. destruct msg;
      [apply keyed_on_note_on | apply preserves_ret ..].
  - intros _. destruct msg;
      [apply preserves_ret | apply keyed_on_note_off
       | apply keyed_on_control_change | apply preserves_ret].
Qed.

Lemma keyed_step_event (ev : Event) (s : State) :
  mirrors_keyed s -> mirrors_keyed (step ev s).
Proof.
  intro Hs. destruct ev as [msg w | m]; simpl.
  - now apply keyed_surface_callback.
  - now apply keyed_deliver.
Qed.

Lemma keyed_after (evs : list Event) (s : State) :
  mirrors_keyed s -> mirrors_keyed (after evs s).
Proof.
  revert s. induction evs as [| ev evs IH]; intros s Hs; simpl; [exact Hs |].
  apply IH. now apply keyed_step_event.
Qed.

(** X15: the mirrors never gain, lose or reorder keys. From a state where
    both mirrors of the three banks hold the sixteen button keys, as they do
    at start, every run of surface events and console datagrams, with
    whatever arrives during the waits, ends in such a state; so every lookup
    of a button key in a mirror of a bank finds an entry. *)
Theorem mirrors_keep_their_keys (evs : list Event) (s : State) :
  mirrors_keyed s ->
  let s' := after evs s in
  mirrors_keyed s'
  /\ forall k led,
       0 <= k <= 2 -> In led (mutes ++ recs)%list ->
       (exists v, mix_led s' k led = Some v)
       /\ (exists v, eq_led s' k led = Some v).
Proof.
  intros Hs s'. assert (Hs' : mirrors_keyed s') by now apply keyed_after.
  split; [exact Hs' |]. intros k led Hk Hl.
  destruct (bank_get_valid (bank s') k Hk) as [l El].
  destruct (keyed_slot s' k l Hs' El) as [Hm He].
  assert (Hkey : In led (Py.keys all_off)).
  { apply in_app_or in Hl as [H | H];
      [now apply mutes_are_keys | now apply recs_are_keys]. }
  unfold mix_led, eq_led. rewrite El.
  split; apply get_of_key; congruence.
Qed.

Lemma mirrors_keep_their_keys_witness :
  let s' := after enter_eq_on_strip_1 initial_state in
  mirrors_keyed s'
  /\ forall k led,
       0 <= k <= 2 -> In led (mutes ++ recs)%list ->
       (exists v, mix_led s' k led = Some v)
       /\ (exists v, eq_led s' k led = Some v).
Proof.
  refine (mirrors_keep_their_keys enter_eq_on_strip_1 initial_state _).
  repeat split.
Defined.

(** ** The chord on a strip without a usable equalizer *)

Lemma osc_sent_datagram_received (m : OscIn) : keeps osc_sent (datagram_received m).
Proof.
  assert (H1 : forall k led v, keeps osc_sent (set_led_stat_mix k led v)).
  { intros k led v s. unfold set_led_stat_mix, exec. rewrite bind_get_state.
    unfold bind, or_raise, modify.
    destruct (bank_get (bank s) k); reflexivity. }
  assert (H2 : forall k led v, keeps osc_sent (set_led_stat_eq k led v)).
  { intros k led v s. unfold set_led_stat_eq, exec. rewrite bind_get_state.
    unfold bind, or_raise, modify.
    destruct (bank_get (bank s) k); reflexivity. }
  assert (H3 : forall m0, keeps osc_sent (mmix_out_send m0))
    by (intros m0 s; reflexivity).
  assert (H4 : forall l, keeps osc_sent (apaga_led l))
    by (intros l s; reflexivity).
  unfold datagram_received, event_recenable, event_mute, load_project,
    apaga_leds, get_plugin_list, get_plugin_desc.
  keeps_tac; auto.
Qed.

Lemma osc_sent_sleep (arrivals : list OscIn) : keeps osc_sent (sleep arrivals).
Proof.
  unfold sleep. apply keeps_for_each. intros m s.
  exact (osc_sent_datagram_received m s).
Qed.

(** [set_mixer_mode] where the current bank exists. *)
Lemma set_mixer_mode_run (t : State) (l : BankLeds) :
  bank_get (bank t) (current (bank t)) = Some l ->
  set_mixer_mode t
  = (Ok tt,
     with_midi_sent (with_operation t (mkOperation mixer None pos_none))
       (midi_sent t ++ led_off b_left :: led_off b_right
          :: mixer_page l (current (bank t)))).
Proof.
  intro Hl. unfold set_mixer_mode, apaga_led.
  rewrite bind_modify, !bind_mmix_out_send.
  rewrite (set_led_status_mixer_run _ l); [| reflexivity | exact Hl].
  unfold with_midi_sent, with_operation; simpl.
  rewrite <- !app_assoc. reflexivity.
Qed.

(** The list wait ends without a usable candidate: back to mixer mode. *)
Lemma search_finds_none
    (s : State) (sid : Z) (w : Waits) (t : State) (l : BankLeds) :
  t = exec (sleep (during_list_wait w))
           (with_osc_sent s (osc_sent s ++ [list_request sid])) ->
  no_usable_candidate (plugin_list t) ->
  bank_get (bank t) (current (bank t)) = Some l ->
  search_eq_strip sid w s
  = (Ok pos_none,
     with_midi_sent (with_operation t (mkOperation mixer None pos_none))
       (midi_sent t ++ led_off b_left :: led_off b_right
          :: mixer_page l (current (bank t)))).
Proof.
  intros Ht Hc Hl. unfold search_eq_strip.
  rewrite bind_osc_send, bind_sleep. fold (list_request sid). rewrite <- Ht.
  rewrite bind_get_state. unfold no_usable_candidate in Hc.
  destruct (candidates (plugin_list t)) as [m_pos |].
  - replace (1 <? Z.of_nat (length m_pos)) with true
      by (symmetry; apply Z.ltb_lt; lia).
    replace (8 <? Z.of_nat (length m_pos)) with true
      by (symmetry; apply Z.ltb_lt; lia).
    unfold bind. now rewrite (set_mixer_mode_run t l Hl).
  - unfold bind. now rewrite (set_mixer_mode_run t l Hl).
Qed.

(** X16: the Solo chord on a strip whose list reply names no equalizer, or
    more than eight: the list request is the one command sent, the
    controller ends in mixer mode with the active strip and the module
    position unset, Solo still tracked as held, the bank index where it was,
    and the surface shows the mixer page of the current bank. *)
Theorem chord_without_equalizer_falls_back
    (s : State) (note i : Z) (w : Waits) :
  note_press s = mkNotePress (Some b_solo) true ->
  Py.index (note - 1) mutes = Some i ->
  let sid := i + 1 + 8 * bank_index s in
  chord_enters_on s sid ->
  no_usable_candidate (heard (during_list_wait w) (plugin_list s)) ->
  mirrors_keyed s ->
  0 <= bank_index s <= 2 ->
  let s' := exec (surface_callback (note_on note) w) s in
  operation s' = mkOperation mixer None pos_none
  /\ osc_sent s' = (osc_sent s ++ [list_request sid])%list
  /\ note_press s' = note_press s
  /\ bank_index s' = bank_index s
  /\ printed s' = printed s
  /\ (forall led v was,
        mix_led s' (bank_index s') led = Some v ->
        lit (midi_sent s') led was = v)
  /\ (forall was,
        lit (midi_sent s') b_left was = (bank_index s =? 1)
        /\ lit (midi_sent s') b_right was = (bank_index s =? 2)).
Proof.
  intros Hn Hi sid Hc Hno Hk Hr s'.
  set (s1 := with_operation s
               (mkOperation EQ (Some sid) (op_plugin_pos (operation s)))).
  set (t := exec (sleep (during_list_wait w))
                 (with_osc_sent s1 (osc_sent s1 ++ [list_request sid]))).
  assert (Hcur : current (bank t) = current (bank s)).
  { pose proof (control_sleep (during_list_wait w)
                  (with_osc_sent s1 (osc_sent s1 ++ [list_request sid]))) as H.
    unfold control in H. injection H as _ _ H. exact H. }
  assert (Hnp : note_press t = note_press s).
  { pose proof (control_sleep (during_list_wait w)
                  (with_osc_sent s1 (osc_sent s1 ++ [list_request sid]))) as H.
    unfold control in H. injection H as H _ _. exact H. }
  assert (Hosc : osc_sent t = (osc_sent s ++ [list_request sid])%list)
    by (unfold t; now rewrite osc_sent_sleep).
  assert (Hpr : printed t = printed s).
  { unfold t, sleep.
    assert (Hd : keeps printed (for_each (during_list_wait w) deliver)).
    { apply keeps_for_each. intros m u.
      change (printed (exec (datagram_received m) u) = printed u).
      revert u. change (keeps printed (datagram_received m)).
      assert (H1 : forall k led v, keeps printed (set_led_stat_mix k led v)).
      { intros k led v u. unfold set_led_stat_mix, exec. rewrite bind_get_state.
        unfold bind, or_raise, modify.
        destruct (bank_get (bank u) k); reflexivity. }
      assert (H2 : forall k led v, keeps printed (set_led_stat_eq k led v)).
      { intros k led v u. unfold set_led_stat_eq, exec. rewrite bind_get_state.
        unfold bind, or_raise, modify.
        destruct (bank_get (bank u) k); reflexivity. }
      assert (H3 : forall m0, keeps printed (mmix_out_send m0))
        by (intros m0 u; reflexivity).
      assert (H4 : forall l, keeps printed (apaga_led l))
        by (intros l u; reflexivity).
      unfold datagram_received, event_recenable, event_mute, load_project,
        apaga_leds, get_plugin_list, get_plugin_desc.
      keeps_tac; auto. }
    now rewrite Hd. }
  assert (Hkt : mirrors_keyed t) by (unfold t; now apply keyed_sleep).
  assert (Hrt : 0 <= current (bank t) <= 2) by (rewrite Hcur; exact Hr).
  destruct (bank_get_valid (bank t) _ Hrt) as [l Hl].
  destruct (keyed_slot t _ l Hkt Hl) as [Hkl _].
  assert (Hrun : surface_callback (note_on note) w s
                 = (Ok tt,
                    with_midi_sent
                      (with_operation t (mkOperation mixer None pos_none))
                      (midi_sent t ++ led_off b_left :: led_off b_right
                         :: mixer_page l (current (bank t))))).
  { rewrite (chord_press s note w Hn (contains_of_index _ _ _ Hi)).
    unfold try_print. rewrite (solo_chord_enters s note i w Hi Hc).
    fold sid. unfold enter_eq. rewrite bind_modify. cbv beta. fold s1.
    unfold bind at 1.
    rewrite (search_finds_none s1 sid w t l eq_refl); [| | exact Hl].
    - rewrite bind_modify. reflexivity.
    - unfold t. rewrite plugin_list_sleep. exact Hno. }
  unfold s', exec. rewrite Hrun. cbn [snd].
  split; [reflexivity |]. split; [exact Hosc |]. split; [exact Hnp |].
  split; [exact Hcur |]. split; [exact Hpr |].
  change (led_off b_left :: led_off b_right :: mixer_page l (current (bank t)))
    with ([led_off b_left; led_off b_right] ++ mixer_page l (current (bank t)))%list.
  split.
  - intros led v was Hg. cbn [midi_sent with_midi_sent]. rewrite !lit_app.
    apply lit_mixer_page; [exact Hkl |].
    unfold mix_led, bank_index in Hg. cbn [bank with_midi_sent with_operation] in Hg.
    now rewrite Hl in Hg.
  - intro was. cbn [midi_sent with_midi_sent]. rewrite !lit_app.
    unfold bank_index. rewrite <- Hcur.
    split; now apply lit_mixer_page_bank.
Qed.

Lemma chord_without_equalizer_falls_back_witness :
  let s := exec (surface_callback (note_on b_solo) quiet) initial_state in
  let w := mkWaits [list_reply 1 ["a-comp"; "a-delay"]] [] in
  let sid := 0 + 1 + 8 * bank_index s in
  let s' := exec (surface_callback (note_on 2) w) s in
  operation s' = mkOperation mixer None pos_none
  /\ osc_sent s' = (osc_sent s ++ [list_request sid])%list
  /\ note_press s' = note_press s
  /\ bank_index s' = bank_index s
  /\ printed s' = printed s
  /\ (forall led v was,
        mix_led s' (bank_index s') led = Some v ->
        lit (midi_sent s') led was = v)
  /\ (forall was,
        lit (midi_sent s') b_left was = (bank_index s =? 1)
        /\ lit (midi_sent s') b_right was = (bank_index s =? 2)).
Proof.
  intros s w.
  refine (chord_without_equalizer_falls_back s 2 0 w _ _ _ _ _ _).
  - vm_compute. reflexivity.
  - reflexivity.
  - left. vm_compute. reflexivity.
  - vm_compute. exact I.
  - repeat split.
  - vm_compute. split; discriminate.
Defined.

(** ** Rendering in EQ mode *)

(** The index [strip % 8 - 1] is -1 for the last strip of a bank, and the
    negative index lands on the last mute button: the lookup always finds
    the button at the strip's place in its bank. *)
Lemma strip_mute_button_place (sid : Z) :
  exists m, strip_mute_button sid = Some m
            /\ Py.index m mutes = Some ((sid - 1) mod 8).
Proof.
  unfold strip_mute_button.
  assert (Hr : 0 <= sid mod 8 < 8) by (apply Z.mod_pos_bound; lia).
  rewrite (Zminus_mod sid 1 8).
  assert (Hc : sid mod 8 = 0 \/ sid mod 8 = 1 \/ sid mod 8 = 2 \/ sid mod 8 = 3
               \/ sid mod 8 = 4 \/ sid mod 8 = 5 \/ sid mod 8 = 6 \/ sid mod 8 = 7)
    by lia.
  destruct Hc as [-> | [-> | [-> | [-> | [-> | [-> | [-> | ->]]]]]]];
    eexists; split; reflexivity.
Qed.

Lemma set_led_status_eq_run (t : State) (l : BankLeds) (sid m : Z) (muted : bool) :
  op_mode (operation t) = EQ ->
  op_strip (operation t) = Some sid ->
  bank_get (bank t) (current (bank t)) = Some l ->
  strip_mute_button sid = Some m ->
  Py.get (led_stat_mix l) m = Some muted ->
  set_led_status t
  = (Ok tt, with_midi_sent t (midi_sent t ++ eq_page l muted)).
Proof.
  intros Hm Hs Hl Hb Hg. unfold set_led_status, eq_page.
  rewrite bind_get_state, Hm. cbv zeta.
  unfold bind at 1. unfold ret at 1. cbv beta iota.
  rewrite bind_get_state, Hm, Hl. unfold or_raise at 1.
  unfold bind at 1. unfold ret at 1. cbv beta iota.
  unfold bind at 1. rewrite render_run. cbv beta iota.
  unfold active_strip_mute. unfold bind at 1. rewrite bind_get_state.
  cbn [operation with_midi_sent]. rewrite Hs.
  unfold or_raise at 1. unfold bind at 1. unfold ret at 1. cbv beta iota.
  unfold strip_mute_button in Hb. rewrite Hb. unfold or_raise at 1.
  unfold ret at 1. cbv beta iota.
  unfold get_led_stat_mix. unfold bind at 1. rewrite bind_get_state.
  cbn [bank with_midi_sent]. rewrite Hl.
  unfold or_raise at 1. unfold bind at 1. unfold ret at 1. cbv beta iota.
  rewrite Hg. unfold or_raise, ret. cbv beta iota.
  destruct muted.
  - unfold enciende_led, mmix_out_send, modify, with_midi_sent; simpl.
    rewrite <- app_assoc. reflexivity.
  - rewrite app_nil_r. reflexivity.
Qed.

(** X17: in EQ mode, with the mirrors keyed and the bank index in 0..2,
    [set_led_status] returns without raising and changes nothing but the LED
    output; every button LED other than 24 then shows its entry of the EQ
    mirror of the current bank, LED 24 is lit exactly when its entry is true
    or the mute button at the active strip's place is on in the mixer mirror
    of the current bank, and the bank LEDs are left as they were. *)
Theorem eq_render_shows_mirror (s : State) (sid : Z) :
  op_mode (operation s) = EQ ->
  op_strip (operation s) = Some sid ->
  mirrors_keyed s ->
  0 <= bank_index s <= 2 ->
  let s' := exec set_led_status s in
  outcome set_led_status s = Ok tt
  /\ s' = with_midi_sent s (midi_sent s')
  /\ (forall led v was,
        led <> 24 -> eq_led s (bank_index s) led = Some v ->
        lit (midi_sent s') led was = v)
  /\ (exists m muted e24,
        strip_mute_button sid = Some m
        /\ Py.index m mutes = Some ((sid - 1) mod 8)
        /\ mix_led s (bank_index s) m = Some muted
        /\ eq_led s (bank_index s) 24 = Some e24
        /\ forall was, lit (midi_sent s') 24 was = muted || e24)
  /\ (forall was,
        lit (midi_sent s') b_left was = lit (midi_sent s) b_left was
        /\ lit (midi_sent s') b_right was = lit (midi_sent s) b_right was).
Proof.
  intros Hm Hs Hk Hr s'.
  destruct (bank_get_valid (bank s) _ Hr) as [l Hl]. unfold bank_index in Hl.
  destruct (keyed_slot s _ l Hk Hl) as [Hkm Hke].
  destruct (strip_mute_button_place sid) as [m [Hb Hi]].
  assert (Hmk : In m (Py.keys (led_stat_mix l))).
  { rewrite Hkm. apply key_of_mutes_index in Hi. exact Hi. }
  destruct (get_of_key _ _ Hmk) as [muted Hg].
  assert (H24 : In 24 (Py.keys (led_stat_eq l))) by (rewrite Hke; simpl; tauto).
  destruct (get_of_key _ _ H24) as [e24 Hg24].
  assert (Hnd : NoDup (Py.keys (led_stat_eq l)))
    by (rewrite Hke; apply button_keys_distinct).
  unfold s', outcome, exec.
  rewrite (set_led_status_eq_run s l sid m muted Hm Hs Hl Hb Hg).
  cbn [fst snd midi_sent with_midi_sent].
  split; [reflexivity |]. split; [destruct s; reflexivity |].
  split; [| split].
  - intros led v was Hne Hv. unfold eq_led, bank_index in Hv. rewrite Hl in Hv.
    unfold eq_page. rewrite !lit_app, (lit_render _ _ v _ Hnd Hv).
    destruct muted; [| reflexivity].
    change (lit [led_on 24] led v) with (if 24 =? led then 127 =? 127 else v).
    destruct (Z.eqb_spec 24 led); [congruence | reflexivity].
  - exists m, muted, e24.
    split; [exact Hb |]. split; [exact Hi |].
    split; [unfold mix_led, bank_index; now rewrite Hl |].
    split; [unfold eq_led, bank_index; now rewrite Hl |].
    intro was. unfold eq_page. rewrite !lit_app, (lit_render _ _ e24 _ Hnd Hg24).
    destruct muted; reflexivity.
  - intro was. rewrite !lit_app. unfold eq_page. rewrite !lit_app.
    assert (Hu : forall led w0, led = b_left \/ led = b_right ->
                 lit (map led_of (led_stat_eq l)) led w0 = w0).
    { intros led w0 Hled. apply lit_untouched.
      rewrite led_notes_of_render, Hke.
      destruct Hled as [-> | ->]; simpl; intuition discriminate. }
    rewrite !Hu by auto. destruct muted; split; reflexivity.
Qed.

Lemma eq_render_shows_mirror_witness :
  let s := after enter_eq_on_strip_1 initial_state in
  let s' := exec set_led_status s in
  outcome set_led_status s = Ok tt
  /\ s' = with_midi_sent s (midi_sent s')
  /\ (forall led v was,
        led <> 24 -> eq_led s (bank_index s) led = Some v ->
        lit (midi_sent s') led was = v)
  /\ (exists m muted e24,
        strip_mute_button 1 = Some m
        /\ Py.index m mutes = Some ((1 - 1) mod 8)
        /\ mix_led s (bank_index s) m = Some muted
        /\ eq_led s (bank_index s) 24 = Some e24
        /\ forall was, lit (midi_sent s') 24 was = muted || e24)
  /\ (forall was,
        lit (midi_sent s') b_left was = lit (midi_sent s) b_left was
        /\ lit (midi_sent s') b_right was = lit (midi_sent s) b_right was).
Proof.
  intro s. refine (eq_render_shows_mirror s 1 _ _ _ _).
  - vm_compute. reflexivity.
  - vm_compute. reflexivity.
  - vm_compute. repeat split.
  - vm_compute. split; discriminate.
Defined.

(** ** The chord on a strip with one equalizer *)

Lemma outcome_bind_ok {A B : Type} (c : M A) (k : A -> M B) (s : State) (a : A) :
  outcome c s = Ok a -> outcome (bind c k) s = outcome (k a) (exec c s).
Proof.
  unfold outcome, exec, bind. destruct (c s) as [[a' | e] s']; simpl;
    [intro H; injection H as -> | discriminate]. reflexivity.
Qed.


Lemma for_each_returns {A : Type} (l : list A) (body : A -> M unit) :
  (forall x s, outcome (body x) s = Ok tt) ->
  forall s, outcome (for_each l body) s = Ok tt.
Proof.
  intro Hb. induction l as [| x l IH]; intro s; [reflexivity |].
  simpl. rewrite (outcome_bind_ok _ _ s tt) by apply Hb. apply IH.
Qed.

Lemma set_led_stat_eq_returns (k led : Z) (v : bool) (s : State) :
  0 <= k <= 2 -> outcome (set_led_stat_eq k led v) s = Ok tt.
Proof.
  intro Hk. destruct (bank_get_valid (bank s) k Hk) as [l Hl].
  unfold set_led_stat_eq, outcome. rewrite bind_get_state, Hl. reflexivity.
Qed.

(** With the current bank in range the descriptor pass returns: what the
    seeding of one entry raises is passed over. *)
Lemma descriptor_pass_returns (s : State) :
  0 <= current (bank s) <= 2 -> outcome descriptor_pass s = Ok tt.
Proof.
  intro Hr. destruct (bank_get_valid (bank s) _ Hr) as [l Hl].
  unfold descriptor_pass, outcome at 1. rewrite bind_get_state. cbv zeta.
  change (fst (?c s)) with (outcome c s). rewrite Hl.
  unfold or_raise. change (bind (ret l) ?k) with (k l). cbv beta.
  rewrite (outcome_bind_ok _ _ s tt)
    by (apply for_each_returns; intros; now apply set_led_stat_eq_returns).
  unfold outcome at 1. rewrite bind_get_state.
  change (fst (?c ?u)) with (outcome c u).
  apply for_each_returns. intros x u. reflexivity.
Qed.

Lemma printed_datagram_received (m : OscIn) : keeps printed (datagram_received m).
Proof.
  assert (H1 : forall k led v, keeps printed (set_led_stat_mix k led v)).
  { intros k led v u. unfold set_led_stat_mix, exec. rewrite bind_get_state.
    unfold bind, or_raise, modify.
    destruct (bank_get (bank u) k); reflexivity. }
  assert (H2 : forall k led v, keeps printed (set_led_stat_eq k led v)).
  { intros k led v u. unfold set_led_stat_eq, exec. rewrite bind_get_state.
    unfold bind, or_raise, modify.
    destruct (bank_get (bank u) k); reflexivity. }
  assert (H3 : forall m0, keeps printed (mmix_out_send m0))
    by (intros m0 u; reflexivity).
  assert (H4 : forall l, keeps printed (apaga_led l))
    by (intros l u; reflexivity).
  unfold datagram_received, event_recenable, event_mute, load_project,
    apaga_leds, get_plugin_list, get_plugin_desc.
  keeps_tac; auto.
Qed.

Lemma printed_sleep (arrivals : list OscIn) : keeps printed (sleep arrivals).
Proof.
  unfold sleep. apply keeps_for_each. intros m s.
  exact (printed_datagram_received m s).
Qed.

(** The descriptor pass writes the EQ mirror and nothing else. *)
Lemma descriptor_pass_frame :
  keeps (fun s => (osc_sent s, printed s, midi_sent s)) descriptor_pass.
Proof.
  assert (H2 : forall k led v,
            keeps (fun s => (osc_sent s, printed s, midi_sent s))
                  (set_led_stat_eq k led v)).
  { intros k led v u. unfold set_led_stat_eq, exec. rewrite bind_get_state.
    unfold bind, or_raise, modify.
    destruct (bank_get (bank u) k); reflexivity. }
  unfold descriptor_pass. keeps_tac; auto.
Qed.

(** The list wait ends with exactly one candidate: its descriptor is
    requested and the EQ mirror seeded. *)
Lemma search_finds_one (s : State) (sid p : Z) (w : Waits) (t : State) :
  t = exec (sleep (during_list_wait w))
           (with_osc_sent s (osc_sent s ++ [list_request sid])) ->
  candidates (plugin_list t) = Some [p] ->
  0 <= current (bank s) <= 2 ->
  search_eq_strip sid w s
  = (Ok (pos_int p),
     exec descriptor_pass
       (exec (sleep (during_desc_wait w))
          (with_osc_sent t (osc_sent t ++ [descriptor_request sid p])))).
Proof.
  intros Ht Hc Hr. unfold search_eq_strip.
  rewrite bind_osc_send, bind_sleep. fold (list_request sid). rewrite <- Ht.
  rewrite bind_get_state, Hc. cbn [length Z.of_nat Pos.of_succ_nat Z.ltb Z.compare Pos.compare Pos.compare_cont].
  unfold or_raise. cbn [Py.getitem Z.ltb Z.compare Z.to_nat nth_error].
  change (bind (ret p) ?k t) with (k p t). cbv beta.
  rewrite bind_osc_send, bind_sleep. fold (descriptor_request sid p).
  set (t2 := exec (sleep (during_desc_wait w))
                  (with_osc_sent t (osc_sent t ++ [descriptor_request sid p]))).
  assert (Hr2 : 0 <= current (bank t2) <= 2).
  { assert (H : bank_index t2 = bank_index s).
    { unfold t2. rewrite (keeps_control_bank_index _ (control_sleep _)).
      change (bank_index t = bank_index s). rewrite Ht.
      now rewrite (keeps_control_bank_index _ (control_sleep _)). }
    unfold bank_index in H. now rewrite H. }
  pose proof (descriptor_pass_returns t2 Hr2) as Hok.
  unfold bind, outcome, exec in *.
  destruct (descriptor_pass t2) as [[[] | e] u]; simpl in *;
    [reflexivity | discriminate].
Qed.

(** X18: the Solo chord on a strip whose list reply names exactly one
    equalizer, at position [p]: the list request and the descriptor request
    for [p] are the two commands sent, the controller ends in EQ mode on that
    strip and position, Solo still tracked as held, the bank index where it
    was, nothing reported by the except clause, both bank LEDs lit, and every
    button LED other than 24 showing its entry of the EQ mirror as seeded. *)
Theorem chord_with_one_equalizer_enters_eq
    (s : State) (note i p : Z) (w : Waits) :
  note_press s = mkNotePress (Some b_solo) true ->
  Py.index (note - 1) mutes = Some i ->
  let sid := i + 1 + 8 * bank_index s in
  chord_enters_on s sid ->
  candidates (heard (during_list_wait w) (plugin_list s)) = Some [p] ->
  mirrors_keyed s ->
  0 <= bank_index s <= 2 ->
  let s' := exec (surface_callback (note_on note) w) s in
  operation s' = mkOperation EQ (Some sid) (pos_int p)
  /\ osc_sent s'
     = (osc_sent s ++ [list_request sid; descriptor_request sid p])%list
  /\ note_press s' = note_press s
  /\ bank_index s' = bank_index s
  /\ printed s' = printed s
  /\ (forall led v was,
        led <> 24 -> eq_led s' (bank_index s') led = Some v ->
        lit (midi_sent s') led was = v)
  /\ (forall was,
        lit (midi_sent s') b_left was = true
        /\ lit (midi_sent s') b_right was = true).
Proof.
  intros Hn Hi sid Hc Hone Hk Hr s'.
  set (s1 := with_operation s
               (mkOperation EQ (Some sid) (op_plugin_pos (operation s)))).
  set (t := exec (sleep (during_list_wait w))
                 (with_osc_sent s1 (osc_sent s1 ++ [list_request sid]))).
  set (t2 := exec (sleep (during_desc_wait w))
                  (with_osc_sent t (osc_sent t ++ [descriptor_request sid p]))).
  set (u := exec descriptor_pass t2).
  assert (Hct : control t = control s1) by (unfold t; now rewrite control_sleep).
  assert (Hct2 : control t2 = control s1)
    by (unfold t2; rewrite control_sleep; exact Hct).
  assert (Hcu : control u = control s1)
    by (unfold u; rewrite control_descriptor_pass; exact Hct2).
  unfold control in Hcu. injection Hcu as Hnu Hou Hbu.
  assert (Hosc : osc_sent u
                 = (osc_sent s ++ [list_request sid; descriptor_request sid p])%list).
  { pose proof (descriptor_pass_frame t2) as H. fold u in H.
    injection H as H _ _. rewrite H. unfold t2. rewrite osc_sent_sleep.
    cbn [osc_sent with_osc_sent]. unfold t. rewrite osc_sent_sleep.
    cbn [osc_sent with_osc_sent]. unfold s1. cbn [osc_sent with_operation].
    now rewrite <- app_assoc. }
  assert (Hpr : printed u = printed s).
  { pose proof (descriptor_pass_frame t2) as H. fold u in H.
    injection H as _ H _. rewrite H. unfold t2. rewrite printed_sleep.
    cbn [printed with_osc_sent]. unfold t. now rewrite printed_sleep. }
  assert (Hku : mirrors_keyed u).
  { unfold u. apply keyed_descriptor_pass. unfold t2. apply keyed_sleep.
    unfold t. apply keyed_sleep. exact Hk. }
  set (u3 := with_midi_sent
               (with_operation u (mkOperation EQ (Some sid) (pos_int p)))
               (midi_sent u ++ [led_on b_left; led_on b_right])).
  assert (Hru : 0 <= current (bank u3) <= 2) by (cbn; rewrite Hbu; exact Hr).
  destruct (bank_get_valid (bank u3) _ Hru) as [l Hl].
  assert (Hku3 : mirrors_keyed u3) by exact Hku.
  destruct (keyed_slot u3 _ l Hku3 Hl) as [Hkm Hke].
  destruct (strip_mute_button_place sid) as [m [Hb Hix]].
  assert (Hmk : In m (Py.keys (led_stat_mix l))).
  { rewrite Hkm. apply key_of_mutes_index in Hix. exact Hix. }
  destruct (get_of_key _ _ Hmk) as [muted Hg].
  assert (Hnd : NoDup (Py.keys (led_stat_eq l)))
    by (rewrite Hke; apply button_keys_distinct).
  assert (Hrun : surface_callback (note_on note) w s
                 = (Ok tt, with_midi_sent u3 (midi_sent u3 ++ eq_page l muted))).
  { rewrite (chord_press s note w Hn (contains_of_index _ _ _ Hi)).
    unfold try_print. rewrite (solo_chord_enters s note i w Hi Hc).
    fold sid. unfold enter_eq. rewrite bind_modify. cbv beta. fold s1.
    unfold bind at 1.
    rewrite (search_finds_one s1 sid p w t eq_refl);
      [| unfold t; rewrite plugin_list_sleep; exact Hone | exact Hr].
    fold t2. fold u. rewrite bind_modify. cbv beta iota.
    unfold enciende_led. rewrite !bind_mmix_out_send.
    replace (with_midi_sent _ _) with u3.
    - now rewrite (set_led_status_eq_run u3 l sid m muted eq_refl eq_refl Hl Hb Hg).
    - unfold u3, with_midi_sent, with_operation. cbn.
      rewrite Hou. cbn. rewrite <- app_assoc. reflexivity. }
  unfold s', exec. rewrite Hrun. cbn [snd].
  split; [reflexivity |]. split; [exact Hosc |]. split; [exact Hnu |].
  split; [exact Hbu |]. split; [exact Hpr |].
  split.
  - intros led v was Hne Hv. unfold eq_led, bank_index in Hv.
    change (bank (with_midi_sent u3 (midi_sent u3 ++ eq_page l muted)))
      with (bank u3) in Hv.
    rewrite Hl in Hv. cbn [midi_sent with_midi_sent].
    unfold eq_page. rewrite !lit_app, (lit_render _ _ v _ Hnd Hv).
    destruct muted; [| reflexivity].
    change (lit [led_on 24] led v) with (if 24 =? led then 127 =? 127 else v).
    destruct (Z.eqb_spec 24 led); [congruence | reflexivity].
  - intro was. cbn [midi_sent with_midi_sent]. unfold u3.
    cbn [midi_sent with_midi_sent]. unfold eq_page. rewrite !lit_app.
    assert (Hu : forall led w0, led = b_left \/ led = b_right ->
                 lit (map led_of (led_stat_eq l)) led w0 = w0).
    { intros led w0 Hled. apply lit_untouched.
      rewrite led_notes_of_render, Hke.
      destruct Hled as [-> | ->]; simpl; intuition discriminate. }
    rewrite !Hu by auto. destruct muted; split; reflexivity.
Qed.

Lemma chord_with_one_equalizer_enters_eq_witness :
  let s := exec (surface_callback (note_on b_solo) quiet) initial_state in
  let w := mkWaits [list_reply 1 ["a-comp"; mono]]
                   [descriptor_reply 1 2 "Enable" (VFloat 1)] in
  let sid := 0 + 1 + 8 * bank_index s in
  let s' := exec (surface_callback (note_on 2) w) s in
  operation s' = mkOperation EQ (Some sid) (pos_int 2)
  /\ osc_sent s'
     = (osc_sent s ++ [list_request sid; descriptor_request sid 2])%list
  /\ note_press s' = note_press s
  /\ bank_index s' = bank_index s
  /\ printed s' = printed s
  /\ (forall led v was,
        led <> 24 -> eq_led s' (bank_index s') led = Some v ->
        lit (midi_sent s') led was = v)
  /\ (forall was,
        lit (midi_sent s') b_left was = true
        /\ lit (midi_sent s') b_right was = true).
Proof.
  intros s w.
  refine (chord_with_one_equalizer_enters_eq s 2 0 2 w _ _ _ _ _ _).
  - vm_compute. reflexivity.
  - reflexivity.
  - left. vm_compute. reflexivity.
  - vm_compute. reflexivity.
  - repeat split.
  - vm_compute. split; discriminate.
Defined.

(** ** The operation state stays consistent *)

Lemma candidates_nonempty (plugin_list : list Val) (m_pos : list Z) :
  candidates plugin_list = Some m_pos -> m_pos <> [].
Proof.
  unfold candidates.
  destruct (Z.of_nat (length plugin_list) <? 4); [discriminate |].
  destruct (existsb (is_name mono) (Py.slice_4_3 plugin_list)) eqn:Em;
    cbn [negb andb].
  - intro H. injection H as <-.
    apply named_in_slice in Em as [p Hp]. apply positions_are_named in Hp.
    intro E. now rewrite E in Hp.
  - destruct (existsb (is_name stereo) (Py.slice_4_3 plugin_list)) eqn:Es;
      cbn [negb]; [| discriminate].
    intro H. injection H as <-.
    apply named_in_slice in Es as [p Hp]. apply positions_are_named in Hp.
    intro E. now rewrite E in Hp.
Qed.

Lemma operation_after_lights :
  keeps operation (enciende_led b_left ;; enciende_led b_right ;; set_led_status).
Proof. keeps_tac. Qed.

(** Whatever the list reply, entering EQ mode on a strip ends in a
    consistent operation state. *)
Lemma enter_eq_operation (sid : Z) (w : Waits) (s : State) :
  0 <= bank_index s <= 2 ->
  well_formed (operation (exec (enter_eq sid w) s)).
Proof.
  intro Hr.
  set (s1 := with_operation s
               (mkOperation EQ (Some sid) (op_plugin_pos (operation s)))).
  set (t := exec (sleep (during_list_wait w))
                 (with_osc_sent s1 (osc_sent s1 ++ [list_request sid]))).
  assert (Hct : control t = control s1) by (unfold t; now rewrite control_sleep).
  unfold control in Hct. injection Hct as _ Hot Hbt.
  assert (Hrt : 0 <= current (bank t) <= 2) by (rewrite Hbt; exact Hr).
  destruct (bank_get_valid (bank t) _ Hrt) as [l Hl].
  assert (Hnone : no_usable_candidate (plugin_list t) ->
                  well_formed (operation (exec (enter_eq sid w) s))).
  { intro Hno. unfold enter_eq, exec. rewrite bind_modify. cbv beta. fold s1.
    unfold bind at 1.
    rewrite (search_finds_none s1 sid w t l eq_refl Hno Hl).
    rewrite bind_modify. cbn. split; reflexivity. }
  destruct (candidates (plugin_list t)) as [m_pos |] eqn:Hc;
    [| apply Hnone; unfold no_usable_candidate; now rewrite Hc].
  destruct m_pos as [| p [| q m_pos]].
  - now apply candidates_nonempty in Hc.
  - unfold enter_eq, exec. rewrite bind_modify. cbv beta. fold s1.
    unfold bind at 1.
    rewrite (search_finds_one s1 sid p w t eq_refl Hc Hr).
    rewrite bind_modify. cbv beta iota.
    match goal with
    | |- well_formed (operation (snd (?c ?u))) =>
        change (well_formed (operation (exec c u)));
        rewrite (operation_after_lights u)
    end.
    cbn [operation with_operation].
    rewrite (keeps_control_operation _ control_descriptor_pass).
    rewrite (keeps_control_operation _ (control_sleep _)).
    cbn [operation with_osc_sent]. rewrite Hot.
    cbn. split; eexists; reflexivity.
  - destruct (le_gt_dec (length (p :: q :: m_pos)) 8) as [Hle | Hgt].
    + unfold enter_eq, exec. rewrite bind_modify. cbv beta. fold s1.
      unfold bind at 1.
      rewrite (search_finds_several s1 sid w (p :: q :: m_pos) t eq_refl Hc)
        by (split; [simpl; lia | exact Hle]).
      rewrite bind_modify. cbv beta iota.
      match goal with
      | |- well_formed (operation (snd (?c ?u))) =>
          change (well_formed (operation (exec c u)));
          rewrite (operation_after_lights u)
      end.
      cbn [operation with_operation with_midi_sent op_mode op_strip].
      split; [eexists; reflexivity |].
      eexists. split; [reflexivity |]. split; [simpl; lia | exact Hle].
    + apply Hnone. unfold no_usable_candidate. rewrite Hc. exact Hgt.
Qed.

Lemma solo_chord_operation (note : Z) (w : Waits) (s : State) :
  well_formed (operation s) ->
  0 <= bank_index s <= 2 ->
  well_formed (operation (exec (solo_chord note w) s)).
Proof.
  intros Hw Hr. unfold solo_chord.
  destruct (Py.index (note - 1) mutes) as [i |]; [| exact Hw].
  unfold or_raise, exec. change (bind (ret i) ?k s) with (k i s). cbv beta.
  rewrite bind_get_state.
  destruct (op_mode (operation s));
    [now apply enter_eq_operation | |];
    (destruct (negb _);
     [now apply enter_eq_operation
     | change (well_formed (operation (exec set_mixer_mode s)));
       rewrite operation_set_mixer_mode; split; reflexivity]).
Qed.

Lemma index_nth_error (x : Z) (t : list Z) (i : Z) :
  Py.index x t = Some i ->
  0 <= i /\ nth_error t (Z.to_nat i) = Some x.
Proof.
  intro H. destruct (index_getitem x t i H) as [Hg Hi].
  split; [lia |]. unfold Py.getitem in Hg.
  now replace (i <? 0) with false in Hg by (symmetry; apply Z.ltb_ge; lia).
Qed.

Lemma espera_operation (note : Z) (w : Waits) (s : State) :
  well_formed (operation s) ->
  op_mode (operation s) = read_keypress ->
  well_formed (operation (exec (espera_indice_modulo_eq note w) s)).
Proof.
  intros Hw Hm. pose proof Hw as Hw0. unfold well_formed in Hw. rewrite Hm in Hw.
  destruct Hw as [[sid Hs] [l [Hl Hn]]].
  destruct (lit_choice note (length l)) eqn:Hch.
  - unfold lit_choice in Hch.
    destruct (Py.index note recs) as [k |] eqn:Hk; [| discriminate].
    apply Z.ltb_lt in Hch.
    destruct (index_nth_error _ _ _ Hk) as [Hk0 Hnth].
    assert (Hlt : (Z.to_nat k < length l)%nat) by lia.
    destruct (nth_error l (Z.to_nat k)) as [p |] eqn:Hp;
      [| apply nth_error_None in Hp; lia].
    rewrite (espera_selects s note p (Z.to_nat k) l w Hnth Hl Hp).
    unfold well_formed. cbn. rewrite Hs. split; eexists; reflexivity.
  - unfold exec. now rewrite (espera_ignores s note l w Hl Hch).
Qed.

Lemma operation_on_note_off (note : Z) : keeps operation (on_note_off note).
Proof. unfold on_note_off. keeps_tac. Qed.

Lemma on_note_on_operation (note : Z) (w : Waits) (s : State) :
  well_formed (operation s) ->
  0 <= bank_index s <= 2 ->
  well_formed (operation (exec (on_note_on note w) s)).
Proof.
  intros Hw Hr. unfold on_note_on, exec. rewrite bind_get_state.
  destruct (np_state (note_press s)).
  - destruct (match np_note (note_press s) with
              | Some n => n =? b_solo
              | None => false
              end); [| exact Hw].
    destruct (Py.contains (note - 1) mutes); [| exact Hw].
    now apply solo_chord_operation.
  - destruct (op_mode (operation s)) eqn:Hm;
      try (now apply espera_operation).
    + match goal with
      | |- well_formed (operation (snd (?c s))) =>
          change (well_formed (operation (exec c s)));
          assert (Hk : keeps operation c)
            by (pose proof control_mixer_press; keeps_tac);
          now rewrite Hk
      end.
    + match goal with
      | |- well_formed (operation (snd (?c s))) =>
          change (well_formed (operation (exec c s)));
          assert (Hk : keeps operation c)
            by (pose proof control_eq_press; keeps_tac);
          now rewrite Hk
      end.
Qed.

Lemma surface_callback_operation (msg : MidiIn) (w : Waits) (s : State) :
  well_formed (operation s) ->
  0 <= bank_index s <= 2 ->
  well_formed (operation (exec (surface_callback msg w) s)).
Proof.
  intros Hw Hr. destruct msg as [note | note | control value |].
  - unfold exec. rewrite surface_callback_note_on.
    change (well_formed (operation (exec (try_print (on_note_on note w)) s))).
    rewrite (exec_try_print operation) by reflexivity.
    now apply on_note_on_operation.
  - unfold exec. rewrite surface_callback_note_off.
    change (well_formed (operation (exec (on_note_off note) s))).
    now rewrite operation_on_note_off.
  - unfold exec. rewrite surface_callback_control_change.
    change (well_formed (operation (exec (on_control_change control value) s))).
    now rewrite (keeps_control_operation _ (control_on_control_change _ _)).
  - exact Hw.
Qed.

(** X19: the operation state stays consistent with its mode. From a state
    where it is (as at start) and the bank index is in 0..2, every run of
    surface events and console datagrams, with whatever arrives during the
    waits, ends in a state where mixer mode has no active strip and no
    module position, EQ mode has an active strip and one module position,
    and an awaited key press has an active strip and a list of two to eight
    candidates. *)
Theorem operation_stays_well_formed (evs : list Event) (s : State) :
  well_formed (operation s) ->
  0 <= bank_index s <= 2 ->
  well_formed (operation (after evs s)).
Proof.
  revert s. induction evs as [| ev evs IH]; intros s Hw Hr; simpl; [exact Hw |].
  apply IH.
  - destruct ev as [msg w | m]; simpl.
    + now apply surface_callback_operation.
    + now rewrite (keeps_control_operation _ (control_deliver m)).
  - exact (bank_index_in_range [ev] s Hr).
Qed.

Lemma operation_stays_well_formed_witness :
  well_formed (operation (after await_keypress_on_strip_1 initial_state)).
Proof.
  refine (operation_stays_well_formed await_keypress_on_strip_1 initial_state _ _).
  - split; reflexivity.
  - vm_compute. split; discriminate.
Defined.

(** ** A bank press in EQ mode *)

(** X20: a bank press in EQ mode with no key held moves the bank index by
    the clamped bank rule while the active strip and module stay as they
    were; it sends no command and keeps every mirror, and the surface then
    shows, on every button LED other than 24, the EQ mirror of the bank it
    lands on: the EQ page follows the bank index, not the bank of the active
    strip. *)
Theorem bank_press_in_eq_mode (s : State) (note sid : Z) (w : Waits) :
  op_mode (operation s) = EQ ->
  op_strip (operation s) = Some sid ->
  np_state (note_press s) = false ->
  is_bank_button note = true ->
  0 <= bank_index s <= 2 ->
  mirrors_keyed s ->
  let page := bank_after_press note (bank_index s) in
  let s' := exec (surface_callback (note_on note) w) s in
  bank s' = with_current (bank s) page
  /\ operation s' = operation s
  /\ osc_sent s' = osc_sent s
  /\ printed s' = printed s
  /\ (forall led v was,
        led <> 24 -> eq_led s page led = Some v ->
        lit (midi_sent s') led was = v).
Proof.
  intros Hm Hs Hn Hb Hr Hk page s'.
  assert (Hpage : 0 <= page <= 2).
  { unfold page, bank_after_press.
    destruct (note =? b_left);
      [destruct (Z.eqb_spec (bank_index s) 0) | destruct (Z.eqb_spec (bank_index s) 2)];
      lia. }
  set (t := with_bank s (with_current (bank s) page)).
  assert (Hkt : mirrors_keyed t) by exact Hk.
  destruct (bank_get_valid (bank t) page Hpage) as [l Hl].
  destruct (keyed_slot t _ l Hkt Hl) as [Hkm Hke].
  destruct (strip_mute_button_place sid) as [m [Hbt Hix]].
  assert (Hmk : In m (Py.keys (led_stat_mix l))).
  { rewrite Hkm. apply key_of_mutes_index in Hix. exact Hix. }
  destruct (get_of_key _ _ Hmk) as [muted Hg].
  assert (Hnd : NoDup (Py.keys (led_stat_eq l)))
    by (rewrite Hke; apply button_keys_distinct).
  assert (Hrender : set_led_status t
                    = (Ok tt, with_midi_sent t (midi_sent t ++ eq_page l muted)))
    by (apply (set_led_status_eq_run t l sid m muted); assumption).
  assert (Ht : surface_callback (note_on note) w s
               = (Ok tt, with_midi_sent t (midi_sent t ++ eq_page l muted))).
  { rewrite surface_callback_note_on.
    unfold try_print, on_note_on. rewrite bind_get_state, Hn, Hm.
    assert (Hsame : current (bank s) = page -> s = t).
    { intro E. unfold t. rewrite <- E.
      destruct s as [? ? ? ? []]; reflexivity. }
    unfold is_bank_button in Hb.
    assert (Hp : page = bank_after_press note (current (bank s))) by reflexivity.
    unfold bank_after_press in Hp. unfold bank_index in Hr.
    destruct (note =? b_left) eqn:El.
    - destruct (Z.ltb_spec 0 (current (bank s)));
        destruct (Z.eqb_spec (current (bank s)) 0); try lia.
      + rewrite bind_modify. rewrite <- Hp. fold t. now rewrite Hrender.
      + unfold bind at 1. unfold ret at 1. cbv beta iota.
        rewrite (Hsame ltac:(lia)) at 1. now rewrite Hrender.
    - cbn [orb] in Hb. rewrite Hb.
      destruct (Z.ltb_spec (current (bank s)) 2);
        destruct (Z.eqb_spec (current (bank s)) 2); try lia.
      + rewrite bind_modify. rewrite <- Hp. fold t. now rewrite Hrender.
      + unfold bind at 1. unfold ret at 1. cbv beta iota.
        rewrite (Hsame ltac:(lia)) at 1. now rewrite Hrender. }
  unfold s', exec. rewrite Ht. cbn [snd].
  split; [reflexivity |]. split; [reflexivity |]. split; [reflexivity |].
  split; [reflexivity |].
  intros led v was Hne Hv. unfold eq_led in Hv.
  change (bank_get (bank s) page) with (bank_get (bank t) page) in Hv.
  rewrite Hl in Hv. cbn [midi_sent with_midi_sent].
  unfold eq_page. rewrite !lit_app, (lit_render _ _ v _ Hnd Hv).
  destruct muted; [| reflexivity].
  change (lit [led_on 24] led v) with (if 24 =? led then 127 =? 127 else v).
  destruct (Z.eqb_spec 24 led); [congruence | reflexivity].
Qed.

Lemma bank_press_in_eq_mode_witness :
  let s := after (enter_eq_on_strip_1 ++ [surface (note_off b_solo) quiet])%list
                 initial_state in
  let page := bank_after_press b_right (bank_index s) in
  let s' := exec (surface_callback (note_on b_right) quiet) s in
  bank s' = with_current (bank s) page
  /\ operation s' = operation s
  /\ osc_sent s' = osc_sent s
  /\ printed s' = printed s
  /\ (forall led v was,
        led <> 24 -> eq_led s page led = Some v ->
        lit (midi_sent s') led was = v).
Proof.
  intro s. refine (bank_press_in_eq_mode s b_right 1 quiet _ _ _ _ _ _).
  - vm_compute. reflexivity.
  - vm_compute. reflexivity.
  - vm_compute. reflexivity.
  - reflexivity.
  - vm_compute. split; discriminate.
  - vm_compute. repeat split.
Defined.

(** ** The bank a mute feedback writes *)







